(** * ML1050STi / ML750i RS232 control: the protocol engine, embedded

    A shallow embedding of [projector_control.py] (class
    [ProjectorController]), of [send_command] and [parse_system_info]
    from [projector_status.py], of [capture_config], [apply_config]
    and [restore_from_file] from [projector_config.py] and of the
    power menu and the advanced menu of [projector_cli.py].  What the
    code prints is not part of the model.

    Python [str] and [bytes] values are Rocq strings (code points and
    bytes 0..255), Python [int] is [Z], a [dict] with string keys is a
    [gmap string _].  The controller object, its serial port and the
    projector at the other end of the line form one record that every
    method threads; a method either returns or raises. *)

From Stdlib Require Import ZArith String Ascii List Lia Bool DecimalString
  DecimalPos.
From stdpp Require Import base option list strings gmap.

Local Open Scope string_scope.

(** ** Text and bytes *)

Definition bytes := string.

Definition CR : string := String "013"%char "".

(** [s.startswith(pre)] *)
Fixpoint startswith (pre s : string) : bool :=
  match pre, s with
  | EmptyString, _ => true
  | String _ _, EmptyString => false
  | String a pre', String b s' => Ascii.eqb a b && startswith pre' s'
  end.

(** [needle in hay] on [str] and on [bytes] *)
Fixpoint py_in (needle hay : string) : bool :=
  startswith needle hay ||
  match hay with
  | EmptyString => false
  | String _ rest => py_in needle rest
  end.

(** [s[i:]] for [0 <= i] *)
Fixpoint slice_from (i : nat) (s : string) : string :=
  match i, s with
  | O, _ => s
  | S _, EmptyString => EmptyString
  | S i', String _ rest => slice_from i' rest
  end.

(** [s[:n]] for [0 <= n] *)
Fixpoint slice_to (n : nat) (s : string) : string :=
  match n, s with
  | O, _ => EmptyString
  | S _, EmptyString => EmptyString
  | S n', String c rest => String c (slice_to n' rest)
  end.

(** [s[i:j]] for [0 <= i] and [0 <= j] *)
Definition slice (i j : nat) (s : string) : string :=
  slice_to (j - i) (slice_from i s).

(** [str.isspace] on one character of the range 0..255 *)
Definition py_isspace (c : ascii) : bool :=
  let n := nat_of_ascii c in
  ((9 <=? n) && (n <=? 13) || (28 <=? n) && (n <=? 32)
   || (n =? 133) || (n =? 160))%nat.

Fixpoint lstrip (space : ascii -> bool) (s : string) : string :=
  match s with
  | EmptyString => EmptyString
  | String c rest => if space c then lstrip space rest else s
  end.

Fixpoint rstrip (space : ascii -> bool) (s : string) : string :=
  match s with
  | EmptyString => EmptyString
  | String c rest =>
      match rstrip space rest with
      | EmptyString => if space c then EmptyString else String c EmptyString
      | kept => String c kept
      end
  end.

(** [s.strip()] *)
Definition strip (s : string) : string :=
  rstrip py_isspace (lstrip py_isspace s).

Definition is_ascii (c : ascii) : bool := (nat_of_ascii c <? 128)%nat.

Fixpoint all_ascii (s : string) : bool :=
  match s with
  | EmptyString => true
  | String c rest => is_ascii c && all_ascii rest
  end.

(** [b.decode('ascii', errors='ignore')]: bytes above 127 are dropped *)
Fixpoint decode_ascii_ignore (b : bytes) : string :=
  match b with
  | EmptyString => EmptyString
  | String c rest =>
      if is_ascii c then String c (decode_ascii_ignore rest)
      else decode_ascii_ignore rest
  end.

(** [f"{value}"] for an [int] *)
Definition str_of_int (z : Z) : string := NilZero.string_of_int (Z.to_int z).

(** ** Exceptions and the method monad *)

Inductive exn : Set :=
  | UnicodeEncodeError
  | IndexError
  | ValueError
  | TypeError.

Inductive result (A : Type) : Type :=
  | Return (a : A)
  | Raise (e : exn).
Arguments Return {A} a.
Arguments Raise {A} e.

(** The controller with its port ([self.ser]) and the line behind it.
    Time advances in ticks of 100 ms, only inside [time.sleep].  [line]
    is the projector: the bytes that reach the open port during tick
    [t], given every frame written so far.  [openable] tells whether
    [serial.Serial(...)] succeeds; input/output calls on an open port
    are taken to succeed. *)
Record ProjectorController : Type := {
  device_id : string;
  is_open : bool;
  openable : bool;
  rx : bytes;
  tx : list bytes;
  clock : nat;
  line : list bytes -> nat -> bytes
}.

Definition M (A : Type) : Type :=
  ProjectorController -> result A * ProjectorController.

#[global] Instance method_ret : MRet M :=
  fun A a self => (Return a, self).

#[global] Instance method_bind : MBind M :=
  fun A B k m self =>
    match m self with
    | (Return a, self') => k a self'
    | (Raise e, self') => (Raise e, self')
    end.

#[global] Instance method_fmap : FMap M :=
  fun A B f m self =>
    match m self with
    | (Return a, self') => (Return (f a), self')
    | (Raise e, self') => (Raise e, self')
    end.

Definition raise {A : Type} (e : exn) : M A := fun self => (Raise e, self).

(** [try: body except: handler] with a bare [except] *)
Definition try_except {A : Type} (body handler : M A) : M A :=
  fun self =>
    match body self with
    | (Return a, self') => (Return a, self')
    | (Raise _, self') => handler self'
    end.

(** ** The serial port *)

Definition tick (self : ProjectorController) : ProjectorController :=
  {| device_id := device_id self;
     is_open := is_open self;
     openable := openable self;
     rx := if is_open self
           then rx self ++ line self (tx self) (S (clock self))
           else rx self;
     tx := tx self;
     clock := S (clock self);
     line := line self |}.

(** [time.sleep(0.1 * n)] *)
Definition sleep (n : nat) : M unit :=
  fun self => (Return tt, Nat.iter n tick self).

(** [serial.Serial(...)], RTS and DTR raised *)
Definition open_port (self : ProjectorController) : ProjectorController :=
  {| device_id := device_id self;
     is_open := true;
     openable := openable self;
     rx := EmptyString;
     tx := tx self;
     clock := clock self;
     line := line self |}.

Definition reset_input_buffer : M unit :=
  fun self =>
    (Return tt,
     {| device_id := device_id self;
        is_open := is_open self;
        openable := openable self;
        rx := EmptyString;
        tx := tx self;
        clock := clock self;
        line := line self |}).

(** Nothing is ever pending on the output side: [write] hands the frame
    to the line at once. *)
Definition reset_output_buffer : M unit := mret tt.

Definition flush : M unit := mret tt.

Definition write (data : bytes) : M unit :=
  fun self =>
    (Return tt,
     {| device_id := device_id self;
        is_open := is_open self;
        openable := openable self;
        rx := rx self;
        tx := (tx self ++ [data])%list;
        clock := clock self;
        line := line self |}).

(** [self.ser.in_waiting] *)
Definition in_waiting : M nat :=
  fun self => (Return (String.length (rx self)), self).

(** [self.ser.read(n)] with [n <= in_waiting] *)
Definition read (n : nat) : M bytes :=
  fun self =>
    (Return (slice_to n (rx self)),
     {| device_id := device_id self;
        is_open := is_open self;
        openable := openable self;
        rx := slice_from n (rx self);
        tx := tx self;
        clock := clock self;
        line := line self |}).

(** [cmd_full.encode('ascii')] *)
Definition encode_ascii (s : string) : M bytes :=
  if all_ascii s then mret s else raise UnicodeEncodeError.

(** ** [ProjectorController] *)

Definition connect : M bool :=
  fun self =>
    if is_open self then (Return true, self)
    else if openable self then
      (sleep 2;; mret true) (open_port self)
    else (Return false, self).

Definition has_marker (response : bytes) : bool :=
  py_in "Ok" response || py_in "P" response || py_in "F" response.

(** The [for _ in range(10)] loop of [_send_command], for any budget *)
Fixpoint read_response (attempts : nat) (response : bytes) : M bytes :=
  match attempts with
  | O => mret response
  | S attempts' =>
      sleep 1;;
      waiting ← in_waiting;
      if (0 <? waiting)%nat then
        n ← in_waiting;
        chunk ← read n;
        let response := response ++ chunk in
        if has_marker response then mret response
        else read_response attempts' response
      else read_response attempts' response
  end.

Definition _send_command (command : string) : M string :=
  fun self =>
    (connected ← (if is_open self then mret true else connect);
     if negb connected then mret ""
     else
       reset_input_buffer;;
       reset_output_buffer;;
       let cmd_full := "~" ++ device_id self ++ command ++ CR in
       data ← encode_ascii cmd_full;
       write data;;
       flush;;
       response ← read_response 10 "";
       mret (strip (decode_ascii_ignore response))) self.

Definition _check_success (response : string) : bool :=
  String.eqb response "P" || startswith "Ok" response.

(** [int(s)] on text: surrounding white space, one optional sign, then
    decimal digits with single underscores between digits.  The white
    space of [int] is that of C below 127 (the separators 28..31, which
    [strip] removes, are not part of it) and that of Unicode above.  The
    interpreter refuses more than 4300 digits (its default limit). *)
Definition int_isspace (c : ascii) : bool :=
  let n := nat_of_ascii c in
  ((9 <=? n) && (n <=? 13) || (n =? 32) || (n =? 133) || (n =? 160))%nat.

Definition is_digit (c : ascii) : bool :=
  let n := nat_of_ascii c in ((48 <=? n) && (n <=? 57))%nat.

Definition digit_value (c : ascii) : Z := Z.of_nat (nat_of_ascii c - 48).

Fixpoint int_digits (s : string) (acc : Z) (after_digit : bool) : option Z :=
  match s with
  | EmptyString => if after_digit then Some acc else None
  | String c rest =>
      if is_digit c then int_digits rest (10 * acc + digit_value c) true
      else if Ascii.eqb c "_" then
        if after_digit then int_digits rest acc false else None
      else None
  end.

Fixpoint count_digits (s : string) : nat :=
  match s with
  | EmptyString => 0
  | String c rest => (if is_digit c then 1 else 0) + count_digits rest
  end.

Definition max_str_digits : nat := 4300.

Definition int_literal (s : string) : option Z :=
  let body := rstrip int_isspace (lstrip int_isspace s) in
  if (max_str_digits <? count_digits body)%nat then None
  else
    match body with
    | String "+" rest => int_digits rest 0 false
    | String "-" rest => Z.opp <$> int_digits rest 0 false
    | _ => int_digits body 0 false
    end.

Definition py_int (s : string) : M Z :=
  match int_literal s with
  | Some z => mret z
  | None => raise ValueError
  end.

(** [s[i]] for [0 <= i] *)
Definition py_index (s : string) (i : nat) : M string :=
  match String.get i s with
  | Some c => mret (String c EmptyString)
  | None => raise IndexError
  end.

(** [table.get(key, fallback)] *)
Definition dict_get {V : Type} (table : gmap string V) (key : string)
    (fallback : V) : V :=
  default fallback (table !! key).

(** *** Power, mute, freeze *)

Definition power_on : M bool :=
  response ← _send_command "00 1"; mret (_check_success response).

Definition power_off : M bool :=
  response ← _send_command "00 0"; mret (_check_success response).

(** The shape shared by the on/off state queries: ['Ok0'] is [False],
    ['Ok1'] is [True], anything else is [None]. *)
Definition decode_flag (response : string) : option bool :=
  if String.eqb response "Ok0" then Some false
  else if String.eqb response "Ok1" then Some true
  else None.

Definition get_power_state : M (option bool) :=
  response ← _send_command "124 1"; mret (decode_flag response).

Definition av_mute_on : M bool :=
  response ← _send_command "02 1"; mret (_check_success response).

Definition av_mute_off : M bool :=
  response ← _send_command "02 0"; mret (_check_success response).

Definition get_av_mute_state : M (option bool) :=
  response ← _send_command "355 1"; mret (decode_flag response).

Definition audio_mute_on : M bool :=
  response ← _send_command "03 1"; mret (_check_success response).

Definition audio_mute_off : M bool :=
  response ← _send_command "03 0"; mret (_check_success response).

Definition get_audio_mute_state : M (option bool) :=
  response ← _send_command "356 1"; mret (decode_flag response).

Definition freeze_on : M bool :=
  response ← _send_command "04 1"; mret (_check_success response).

Definition freeze_off : M bool :=
  response ← _send_command "04 0"; mret (_check_success response).

(** *** Source *)

Definition set_source_hdmi : M bool :=
  response ← _send_command "12 1"; mret (_check_success response).

Definition set_source_usb : M bool :=
  response ← _send_command "12 17"; mret (_check_success response).

Definition set_source_sd_card : M bool :=
  response ← _send_command "12 31"; mret (_check_success response).

Definition set_source_android_home : M bool :=
  response ← _send_command "12 24"; mret (_check_success response).

Definition input_source_map : gmap string string :=
  list_to_map [("7", "HDMI 1"); ("20", "Android Home (USB-A/SD Card)")].

Definition get_input_source : M (option string) :=
  response ← _send_command "121 1";
  if startswith "Ok" response then
    let code := slice_from 2 response in
    mret (Some (dict_get input_source_map code ("Unknown (" ++ code ++ ")")))
  else mret None.

(** *** Projection mode *)

Definition set_projection_front_desktop : M bool :=
  response ← _send_command "71 1"; mret (_check_success response).

Definition set_projection_rear_desktop : M bool :=
  response ← _send_command "71 2"; mret (_check_success response).

Definition set_projection_front_ceiling : M bool :=
  response ← _send_command "71 3"; mret (_check_success response).

Definition set_projection_rear_ceiling : M bool :=
  response ← _send_command "71 4"; mret (_check_success response).

Definition projection_mode_map : gmap string string :=
  list_to_map [("0", "Front-Desktop"); ("1", "Rear-Desktop");
               ("2", "Front-Ceiling"); ("3", "Rear-Ceiling")].

Definition get_projection_mode : M (option string) :=
  response ← _send_command "129 1";
  if startswith "Ok" response then
    code ← py_index response 2;
    mret (Some (dict_get projection_mode_map code "Unknown"))
  else mret None.

(** *** Display (picture) mode *)

Definition set_display_mode_presentation : M bool :=
  response ← _send_command "20 1"; mret (_check_success response).

Definition set_display_mode_bright : M bool :=
  response ← _send_command "20 2"; mret (_check_success response).

Definition set_display_mode_cinema : M bool :=
  response ← _send_command "20 3"; mret (_check_success response).

Definition set_display_mode_srgb : M bool :=
  response ← _send_command "20 4"; mret (_check_success response).

Definition set_display_mode_photo : M bool :=
  response ← _send_command "20 16"; mret (_check_success response).

Definition set_display_mode_eco : M bool :=
  response ← _send_command "20 44"; mret (_check_success response).

Definition set_display_mode_3d : M bool :=
  response ← _send_command "20 9"; mret (_check_success response).

Definition set_display_mode_game : M bool :=
  response ← _send_command "20 12"; mret (_check_success response).

Definition set_display_mode_hdr : M bool :=
  response ← _send_command "20 21"; mret (_check_success response).

Definition set_display_mode_hlg : M bool :=
  response ← _send_command "20 25"; mret (_check_success response).

Definition set_display_mode_ai_pq : M bool :=
  response ← _send_command "20 41"; mret (_check_success response).

Definition set_display_mode_wcg : M bool :=
  response ← _send_command "20 42"; mret (_check_success response).

Definition display_mode_map : gmap string string :=
  list_to_map [("1", "Presentation (PC)"); ("2", "Bright"); ("3", "Cinema");
               ("4", "sRGB"); ("9", "3D"); ("12", "Game");
               ("14", "Photo (Vivid)"); ("21", "HDR"); ("25", "HLG");
               ("41", "AI-PQ"); ("42", "WCG"); ("43", "Eco")].

Definition get_display_mode : M (option string) :=
  response ← _send_command "123 1";
  if startswith "Ok" response then
    let code := slice_from 2 response in
    mret (Some (dict_get display_mode_map code ("Unknown (" ++ code ++ ")")))
  else mret None.

(** *** Brightness and contrast *)

(** [try: return int(response[2:])] / [except: pass], then [return None] *)
Definition decode_int (response : string) : M (option Z) :=
  if startswith "Ok" response then
    try_except (value ← py_int (slice_from 2 response); mret (Some value))
               (mret None)
  else mret None.

Definition set_brightness (value : Z) : M bool :=
  if negb ((0 <=? value)%Z && (value <=? 10)%Z) then mret false
  else
    response ← _send_command ("21 " ++ str_of_int value);
    mret (_check_success response).

Definition get_brightness : M (option Z) :=
  response ← _send_command "125 1"; decode_int response.

Definition set_contrast (value : Z) : M bool :=
  if negb ((0 <=? value)%Z && (value <=? 10)%Z) then mret false
  else
    response ← _send_command ("22 " ++ str_of_int value);
    mret (_check_success response).

Definition get_contrast : M (option Z) :=
  response ← _send_command "126 1"; decode_int response.

(** *** Colour temperature, aspect ratio, keystone *)

Definition set_color_temp_standard : M bool :=
  response ← _send_command "36 1"; mret (_check_success response).

Definition set_color_temp_cold : M bool :=
  response ← _send_command "36 3"; mret (_check_success response).

Definition set_color_temp_warm : M bool :=
  response ← _send_command "36 4"; mret (_check_success response).

Definition color_temperature_map : gmap string string :=
  list_to_map [("2", "Standard (D75)"); ("3", "Warm (D65)");
               ("5", "Cold (D83)")].

Definition get_color_temperature : M (option string) :=
  response ← _send_command "128 1";
  if startswith "Ok" response then
    code ← py_index response 2;
    mret (Some (dict_get color_temperature_map code "Unknown"))
  else mret None.

Definition set_aspect_4_3 : M bool :=
  response ← _send_command "60 1"; mret (_check_success response).

Definition set_aspect_16_9 : M bool :=
  response ← _send_command "60 2"; mret (_check_success response).

Definition set_aspect_16_10 : M bool :=
  response ← _send_command "60 3"; mret (_check_success response).

Definition set_aspect_auto : M bool :=
  response ← _send_command "60 7"; mret (_check_success response).

Definition aspect_ratio_map : gmap string string :=
  list_to_map [("1", "4:3"); ("2", "16:9"); ("3", "16:10"); ("7", "Auto")].

Definition get_aspect_ratio : M (option string) :=
  response ← _send_command "127 1";
  if startswith "Ok" response then
    mret (Some (dict_get aspect_ratio_map (slice_from 2 response) "Unknown"))
  else mret None.

Definition set_auto_keystone_on : M bool :=
  response ← _send_command "69 1"; mret (_check_success response).

Definition set_auto_keystone_off : M bool :=
  response ← _send_command "69 0"; mret (_check_success response).

Definition get_v_keystone : M (option Z) :=
  response ← _send_command "543 3"; decode_int response.

(** *** Digital zoom *)

Definition set_digital_zoom (level : Z) : M bool :=
  if negb ((0 <=? level)%Z && (level <=? 6)%Z) then mret false
  else
    response ← _send_command ("62 " ++ str_of_int level);
    mret (_check_success response).

Definition set_digital_zoom_50 : M bool := set_digital_zoom 0.
Definition set_digital_zoom_75 : M bool := set_digital_zoom 1.
Definition set_digital_zoom_100 : M bool := set_digital_zoom 2.
Definition set_digital_zoom_125 : M bool := set_digital_zoom 3.
Definition set_digital_zoom_150 : M bool := set_digital_zoom 4.
Definition set_digital_zoom_175 : M bool := set_digital_zoom 5.
Definition set_digital_zoom_200 : M bool := set_digital_zoom 6.

Definition digital_zoom_map : gmap string string :=
  list_to_map [("0", "50%"); ("1", "75%"); ("2", "100%"); ("3", "125%");
               ("4", "150%"); ("5", "175%"); ("6", "200%")].

Definition get_digital_zoom : M (option string) :=
  response ← _send_command "543 9";
  if startswith "Ok" response then
    code ← py_index response 2;
    mret (Some (dict_get digital_zoom_map code "Unknown"))
  else mret None.

(** *** Volume, language, remote keys *)

Definition volume_up : M bool :=
  response ← _send_command "140 18"; mret (_check_success response).

Definition volume_down : M bool :=
  response ← _send_command "140 17"; mret (_check_success response).

Definition get_volume : M (option Z) :=
  response ← _send_command "120 1"; decode_int response.

Definition set_language (lang_code : Z) : M bool :=
  response ← _send_command ("70 " ++ str_of_int lang_code);
  mret (_check_success response).

Definition remote_menu : M bool :=
  response ← _send_command "140 20"; mret (_check_success response).

Definition remote_up : M bool :=
  response ← _send_command "140 10"; mret (_check_success response).

Definition remote_down : M bool :=
  response ← _send_command "140 14"; mret (_check_success response).

Definition remote_left : M bool :=
  response ← _send_command "140 11"; mret (_check_success response).

Definition remote_right : M bool :=
  response ← _send_command "140 13"; mret (_check_success response).

Definition remote_enter : M bool :=
  response ← _send_command "140 12"; mret (_check_success response).

(** *** System information *)

(** A value stored in a dictionary ([info], a configuration section) *)
Inductive pyval : Set :=
  | PyNone
  | PyBool (b : bool)
  | PyInt (z : Z)
  | PyStr (s : string).

Definition system_source_map : gmap string string :=
  list_to_map [("07", "HDMI 1"); ("20", "Android Home (USB-A/SD Card)")].

Definition system_mode_map : gmap string string :=
  list_to_map [("01", "Presentation (PC)"); ("02", "Bright"); ("03", "Cinema");
               ("04", "sRGB"); ("14", "Photo (Vivid)"); ("28", "Eco")].

Definition get_system_info : M (gmap string pyval) :=
  response ← _send_command "150 1";
  let info : gmap string pyval := ∅ in
  if startswith "Ok" response && (15 <=? String.length response)%nat then
    let data := slice_from 2 response in
    flag ← py_index data 0;
    let info := <["power" :=
                   PyStr (if String.eqb flag "1" then "On" else "Off")]> info in
    hours ← py_int (slice 1 6 data);
    let info := <["lamp_hours" := PyInt hours]> info in
    let source_code := slice 6 8 data in
    let info := <["input_source" :=
                   PyStr (dict_get system_source_map source_code
                            ("Unknown (" ++ source_code ++ ")"))]> info in
    let info := <["firmware" := PyStr (slice 8 12 data)]> info in
    if (14 <=? String.length data)%nat then
      let mode_code := slice 12 14 data in
      mret (<["picture_mode" :=
               PyStr (dict_get system_mode_map mode_code
                        ("Unknown (" ++ mode_code ++ ")"))]> info)
    else mret info
  else mret info.

(** [s.replace(old, new)] for a one-character [old] *)
Fixpoint replace_char (old : ascii) (new s : string) : string :=
  match s with
  | EmptyString => EmptyString
  | String c rest =>
      if Ascii.eqb c old then new ++ replace_char old new rest
      else String c (replace_char old new rest)
  end.

(** [s.split()]: the runs of characters between white space; [word] is
    the run read so far *)
Fixpoint split_words (s word : string) : list string :=
  match s with
  | EmptyString => if String.eqb word "" then [] else [word]
  | String c rest =>
      if py_isspace c then
        if String.eqb word "" then split_words rest ""
        else word :: split_words rest ""
      else split_words rest (word ++ String c EmptyString)
  end.

Definition py_split (s : string) : list string := split_words s "".

(** The body of the [for part in parts] loop of [get_software_version] *)
Definition record_version (versions : gmap string string) (part : string)
    : gmap string string :=
  if startswith "C" part then <["DDP" := slice_from 1 part]> versions
  else if startswith "M" part then <["MCU" := slice_from 1 part]> versions
  else if startswith "R" part then <["Android" := slice_from 1 part]> versions
  else if startswith "L" part then <["LAN" := slice_from 1 part]> versions
  else if startswith "H" part then <["HDBaseT" := slice_from 1 part]> versions
  else if startswith "S" part then <["System" := slice_from 1 part]> versions
  else versions.

Definition get_software_version : M (gmap string string) :=
  response ← _send_command "122 1";
  let versions : gmap string string := ∅ in
  if startswith "Ok" response then
    let data := slice_from 2 response in
    if py_in "C" data && py_in "M" data then
      let parts :=
        py_split
          (replace_char "X" " X"
           (replace_char "S" " S"
            (replace_char "H" " H"
             (replace_char "L" " L"
              (replace_char "M" " M"
               (replace_char "R" "R " data)))))) in
      mret (fold_left record_version parts versions)
    else mret versions
  else mret versions.

(** The queries that hand back the payload as it is *)
Definition decode_text (response : string) : option string :=
  if startswith "Ok" response then Some (slice_from 2 response) else None.

Definition get_ddp_software_version : M (option string) :=
  response ← _send_command "357 3"; mret (decode_text response).

Definition get_android_software_version : M (option string) :=
  response ← _send_command "357 4"; mret (decode_text response).

Definition get_lamp_hours : M (option Z) :=
  response ← _send_command "108 1"; decode_int response.

Definition get_system_hours : M (option Z) :=
  response ← _send_command "150 21"; decode_int response.

Definition get_temperature : M (option Z) :=
  response ← _send_command "352 1"; decode_int response.

Definition get_mac_address : M (option string) :=
  response ← _send_command "555 2"; mret (decode_text response).

Definition get_device_id : M (option string) :=
  response ← _send_command "558 1"; mret (decode_text response).

Definition get_network_status : M (option bool) :=
  response ← _send_command "451 1"; mret (decode_flag response).

Definition get_signal_status : M (option bool) :=
  response ← _send_command "150 23"; mret (decode_flag response).

Definition get_resolution : M (option string) :=
  response ← _send_command "150 4"; mret (decode_text response).

Definition get_refresh_rate : M (option string) :=
  response ← _send_command "150 19"; mret (decode_text response).

(** *** Digital signage, resets *)

Definition set_digital_signage_on : M bool :=
  response ← _send_command "569 2"; mret (_check_success response).

Definition set_digital_signage_off : M bool :=
  response ← _send_command "569 1"; mret (_check_success response).

Definition get_digital_signage_status : M (option bool) :=
  response ← _send_command "568 1"; mret (decode_flag response).

Definition factory_reset : M bool :=
  response ← _send_command "112 1"; mret (_check_success response).

Definition reset_osd_settings : M bool :=
  response ← _send_command "546 1"; mret (_check_success response).

Definition fan_table : list (Z * string) :=
  [(0%Z, "System Fan 1"); (1%Z, "System Fan 2"); (2%Z, "Optical Fan")].

(** The body of the [for fan_num, fan_name in ...] loop of [get_fan_speeds] *)
Definition read_fan (fan : Z * string) (fans : gmap string (option Z))
    : M (gmap string (option Z)) :=
  let '(fan_num, fan_name) := fan in
  response ← _send_command ("351 " ++ str_of_int fan_num);
  if startswith "Ok" response then
    try_except (rpm ← py_int (slice_from 2 response);
                mret (<[fan_name := Some rpm]> fans))
               (mret (<[fan_name := None]> fans))
  else mret (<[fan_name := None]> fans).

Fixpoint for_each {A S : Type} (items : list A) (body : A -> S -> M S)
    (acc : S) : M S :=
  match items with
  | [] => mret acc
  | item :: rest => acc ← body item acc; for_each rest body acc
  end.

Definition get_fan_speeds : M (gmap string (option Z)) :=
  for_each fan_table read_fan ∅.

(** ** [parse_system_info] of [projector_status.py] *)

Definition status_source_map : gmap string string :=
  list_to_map [("07", "HDMI 1"); ("20", "Android (USB-A/SD Card/Home)")].

Definition status_mode_map : gmap string string :=
  list_to_map [("01", "Presentation (PC)"); ("02", "Bright"); ("03", "Cinema");
               ("04", "sRGB"); ("14", "Photo (Vivid)"); ("28", "Eco");
               ("29", "iDevice")].

Definition parse_system_info (response : string)
    : result (option (gmap string string)) :=
  if negb (startswith "Ok" response) then Return None
  else
    let data := slice_from 2 response in
    if (13 <=? String.length data)%nat then
      match String.get 0 data with
      | None => Raise IndexError
      | Some flag =>
          let info : gmap string string :=
            <["picture_mode_code" :=
                if (14 <=? String.length data)%nat then slice 12 14 data
                else "N/A"]>
            (<["firmware_version" := slice 8 12 data]>
            (<["input_source_code" := slice 6 8 data]>
            (<["lamp_hours" := slice 1 6 data]>
            (<["power_status" := if Ascii.eqb flag "1" then "On" else "Off"]>
             ∅)))) in
          let info :=
            <["input_source" :=
                dict_get status_source_map (slice 6 8 data)
                  ("Unknown (" ++ slice 6 8 data ++ ")")]> info in
          let info :=
            <["picture_mode" :=
                dict_get status_mode_map (slice 12 14 data)
                  ("Unknown (" ++ slice 12 14 data ++ ")")]> info in
          Return (Some info)
      end
    else Return None.

(** ** The audio part of [ProjectorConfig.apply_config] *)

Record Results : Type := {
  success : list string;
  failed : list string;
  skipped : list string
}.

Definition append_success (results : Results) (item : string) : Results :=
  {| success := (success results ++ [item])%list;
     failed := failed results;
     skipped := skipped results |}.

Definition append_failed (results : Results) (item : string) : Results :=
  {| success := success results;
     failed := (failed results ++ [item])%list;
     skipped := skipped results |}.

(** [value is not None] *)
Definition is_not_none (value : pyval) : bool :=
  match value with PyNone => false | _ => true end.

(** Truth value of [value] in an [if] *)
Definition truthy (value : pyval) : bool :=
  match value with
  | PyNone => false
  | PyBool b => b
  | PyInt z => negb (z =? 0)%Z
  | PyStr s => negb (String.eqb s "")
  end.

(** [f"{value}"] *)
Definition py_str (value : pyval) : string :=
  match value with
  | PyNone => "None"
  | PyBool true => "True"
  | PyBool false => "False"
  | PyInt z => str_of_int z
  | PyStr s => s
  end.

(** The integer a value stands for in [target > current] and in
    [range(target - current)]; text there raises [TypeError]. *)
Definition as_int (value : pyval) : M Z :=
  match value with
  | PyInt z => mret z
  | PyBool b => mret (if b then 1%Z else 0%Z)
  | _ => raise TypeError
  end.

(** [for _ in range(n): step()], the result of [step] dropped *)
Fixpoint for_range (n : nat) (step : M bool) : M unit :=
  match n with
  | O => mret tt
  | S n' => step;; for_range n' step
  end.

(** [range(z)] yields [z] values, none when [z <= 0] *)
Definition range_len (z : Z) : nat := Z.to_nat z.

(** Lines 263-277: the volume. *)
Definition apply_volume (audio : gmap string pyval) (results : Results)
    : M Results :=
  match audio !! "volume" with
  | Some target =>
      if is_not_none target then
        current ← get_volume;
        match current with
        | Some current =>
            goal ← as_int target;
            if (current <? goal)%Z then
              for_range (range_len (goal - current)) volume_up;;
              mret (append_success results ("audio.volume=" ++ py_str target))
            else if (goal <? current)%Z then
              for_range (range_len (current - goal)) volume_down;;
              mret (append_success results ("audio.volume=" ++ py_str target))
            else
              mret (append_success results
                      ("audio.volume=" ++ py_str target ++ " (unchanged)"))
        | None => mret results
        end
      else mret results
  | None => mret results
  end.

(** The shape of lines 279-301: one of two setters, picked by the truth
    value of the stored flag, its result recorded. *)
Definition apply_mute (audio : gmap string pyval) (key : string)
    (turn_on turn_off : M bool) (results : Results) : M Results :=
  match audio !! key with
  | Some value =>
      if is_not_none value then
        if truthy value then
          ok ← turn_on;
          if ok : bool
          then mret (append_success results ("audio." ++ key ++ "=on"))
          else mret (append_failed results ("audio." ++ key ++ "=on"))
        else
          ok ← turn_off;
          if ok : bool
          then mret (append_success results ("audio." ++ key ++ "=off"))
          else mret (append_failed results ("audio." ++ key ++ "=off"))
      else mret results
  | None => mret results
  end.

(** Lines 260-301: [if 'audio' in config: ...] *)
Definition apply_config_audio (config : gmap string (gmap string pyval))
    (results : Results) : M Results :=
  match config !! "audio" with
  | Some audio =>
      results ← apply_volume audio results;
      results ← apply_mute audio "audio_mute" audio_mute_on audio_mute_off
                  results;
      apply_mute audio "av_mute" av_mute_on av_mute_off results
  | None => mret results
  end.

(** ** Vocabulary of the statements *)

(** What the line delivers during the [k] ticks after tick [t],
    concatenated: the accumulator of the reader after [k] polls. *)
Fixpoint heard (ln : nat -> bytes) (t k : nat) : bytes :=
  match k with
  | O => EmptyString
  | S k' => ln (S t) ++ heard ln (S t) k'
  end.

(** One poll of the reader seen from outside: a tick passes and the
    input buffer is left empty. *)
Definition advance (self : ProjectorController) : ProjectorController :=
  {| device_id := device_id self;
     is_open := is_open self;
     openable := openable self;
     rx := EmptyString;
     tx := tx self;
     clock := S (clock self);
     line := line self |}.

(** The frame of a command *)
Definition frame (self : ProjectorController) (command : string) : bytes :=
  "~" ++ device_id self ++ command ++ CR.

(** The controller once the port is open *)
Definition opened (self : ProjectorController) : ProjectorController :=
  if is_open self then self else Nat.iter 2 tick (open_port self).

(** The controller right after the frame of [command] has been written *)
Definition sent (command : string) (self : ProjectorController)
    : ProjectorController :=
  {| device_id := device_id self;
     is_open := true;
     openable := openable self;
     rx := EmptyString;
     tx := (tx self ++ [frame self command])%list;
     clock := clock (opened self);
     line := line self |}.

(** The controller can reach the projector and its address encodes *)
Definition usable (self : ProjectorController) : bool :=
  (is_open self || openable self) && all_ascii (device_id self).

(** ** The operations, one constructor per method *)

Inductive setter : Set :=
  | PowerOn
  | PowerOff
  | AvMuteOn
  | AvMuteOff
  | AudioMuteOn
  | AudioMuteOff
  | FreezeOn
  | FreezeOff
  | SourceHdmi
  | SourceUsb
  | SourceSdCard
  | SourceAndroidHome
  | ProjectionFrontDesktop
  | ProjectionRearDesktop
  | ProjectionFrontCeiling
  | ProjectionRearCeiling
  | DisplayPresentation
  | DisplayBright
  | DisplayCinema
  | DisplaySrgb
  | DisplayPhoto
  | DisplayEco
  | Display3d
  | DisplayGame
  | DisplayHdr
  | DisplayHlg
  | DisplayAiPq
  | DisplayWcg
  | Brightness (value : Z)
  | Contrast (value : Z)
  | ColorTempStandard
  | ColorTempCold
  | ColorTempWarm
  | Aspect43
  | Aspect169
  | Aspect1610
  | AspectAuto
  | AutoKeystoneOn
  | AutoKeystoneOff
  | DigitalZoom (level : Z)
  | Zoom50
  | Zoom75
  | Zoom100
  | Zoom125
  | Zoom150
  | Zoom175
  | Zoom200
  | VolumeUp
  | VolumeDown
  | Language (lang_code : Z)
  | RemoteMenu
  | RemoteUp
  | RemoteDown
  | RemoteLeft
  | RemoteRight
  | RemoteEnter
  | SignageOn
  | SignageOff
  | FactoryReset
  | ResetOsd.

Definition call_setter (op : setter) : M bool :=
  match op with
  | PowerOn => power_on
  | PowerOff => power_off
  | AvMuteOn => av_mute_on
  | AvMuteOff => av_mute_off
  | AudioMuteOn => audio_mute_on
  | AudioMuteOff => audio_mute_off
  | FreezeOn => freeze_on
  | FreezeOff => freeze_off
  | SourceHdmi => set_source_hdmi
  | SourceUsb => set_source_usb
  | SourceSdCard => set_source_sd_card
  | SourceAndroidHome => set_source_android_home
  | ProjectionFrontDesktop => set_projection_front_desktop
  | ProjectionRearDesktop => set_projection_rear_desktop
  | ProjectionFrontCeiling => set_projection_front_ceiling
  | ProjectionRearCeiling => set_projection_rear_ceiling
  | DisplayPresentation => set_display_mode_presentation
  | DisplayBright => set_display_mode_bright
  | DisplayCinema => set_display_mode_cinema
  | DisplaySrgb => set_display_mode_srgb
  | DisplayPhoto => set_display_mode_photo
  | DisplayEco => set_display_mode_eco
  | Display3d => set_display_mode_3d
  | DisplayGame => set_display_mode_game
  | DisplayHdr => set_display_mode_hdr
  | DisplayHlg => set_display_mode_hlg
  | DisplayAiPq => set_display_mode_ai_pq
  | DisplayWcg => set_display_mode_wcg
  | Brightness v => set_brightness v
  | Contrast v => set_contrast v
  | ColorTempStandard => set_color_temp_standard
  | ColorTempCold => set_color_temp_cold
  | ColorTempWarm => set_color_temp_warm
  | Aspect43 => set_aspect_4_3
  | Aspect169 => set_aspect_16_9
  | Aspect1610 => set_aspect_16_10
  | AspectAuto => set_aspect_auto
  | AutoKeystoneOn => set_auto_keystone_on
  | AutoKeystoneOff => set_auto_keystone_off
  | DigitalZoom v => set_digital_zoom v
  | Zoom50 => set_digital_zoom_50
  | Zoom75 => set_digital_zoom_75
  | Zoom100 => set_digital_zoom_100
  | Zoom125 => set_digital_zoom_125
  | Zoom150 => set_digital_zoom_150
  | Zoom175 => set_digital_zoom_175
  | Zoom200 => set_digital_zoom_200
  | VolumeUp => volume_up
  | VolumeDown => volume_down
  | Language v => set_language v
  | RemoteMenu => remote_menu
  | RemoteUp => remote_up
  | RemoteDown => remote_down
  | RemoteLeft => remote_left
  | RemoteRight => remote_right
  | RemoteEnter => remote_enter
  | SignageOn => set_digital_signage_on
  | SignageOff => set_digital_signage_off
  | FactoryReset => factory_reset
  | ResetOsd => reset_osd_settings
  end.

(** The setters that check their argument let these through *)
Definition accepted (op : setter) : bool :=
  match op with
  | Brightness v | Contrast v => (0 <=? v)%Z && (v <=? 10)%Z
  | DigitalZoom v => (0 <=? v)%Z && (v <=? 6)%Z
  | _ => true
  end.

(** The digits right after the address *)
Definition setter_feature (op : setter) : string :=
  match op with
  | PowerOn | PowerOff =>
      "00"
  | AvMuteOn | AvMuteOff =>
      "02"
  | AudioMuteOn | AudioMuteOff =>
      "03"
  | FreezeOn | FreezeOff =>
      "04"
  | SourceHdmi | SourceUsb | SourceSdCard | SourceAndroidHome =>
      "12"
  | ProjectionFrontDesktop | ProjectionRearDesktop | ProjectionFrontCeiling
  | ProjectionRearCeiling =>
      "71"
  | DisplayPresentation | DisplayBright | DisplayCinema | DisplaySrgb
  | DisplayPhoto | DisplayEco | Display3d | DisplayGame | DisplayHdr
  | DisplayHlg | DisplayAiPq | DisplayWcg =>
      "20"
  | Brightness _ =>
      "21"
  | Contrast _ =>
      "22"
  | ColorTempStandard | ColorTempCold | ColorTempWarm =>
      "36"
  | Aspect43 | Aspect169 | Aspect1610 | AspectAuto =>
      "60"
  | AutoKeystoneOn | AutoKeystoneOff =>
      "69"
  | DigitalZoom _ | Zoom50 | Zoom75 | Zoom100 | Zoom125 | Zoom150 | Zoom175
  | Zoom200 =>
      "62"
  | VolumeUp | VolumeDown | RemoteMenu | RemoteUp | RemoteDown | RemoteLeft
  | RemoteRight | RemoteEnter =>
      "140"
  | Language _ =>
      "70"
  | SignageOn | SignageOff =>
      "569"
  | FactoryReset =>
      "112"
  | ResetOsd =>
      "546"
  end.

(** The text after the space: a fixed code, or the argument in decimal *)
Definition setter_field (op : setter) : string :=
  match op with
  | PowerOn => "1"
  | PowerOff => "0"
  | AvMuteOn => "1"
  | AvMuteOff => "0"
  | AudioMuteOn => "1"
  | AudioMuteOff => "0"
  | FreezeOn => "1"
  | FreezeOff => "0"
  | SourceHdmi => "1"
  | SourceUsb => "17"
  | SourceSdCard => "31"
  | SourceAndroidHome => "24"
  | ProjectionFrontDesktop => "1"
  | ProjectionRearDesktop => "2"
  | ProjectionFrontCeiling => "3"
  | ProjectionRearCeiling => "4"
  | DisplayPresentation => "1"
  | DisplayBright => "2"
  | DisplayCinema => "3"
  | DisplaySrgb => "4"
  | DisplayPhoto => "16"
  | DisplayEco => "44"
  | Display3d => "9"
  | DisplayGame => "12"
  | DisplayHdr => "21"
  | DisplayHlg => "25"
  | DisplayAiPq => "41"
  | DisplayWcg => "42"
  | Brightness v => str_of_int v
  | Contrast v => str_of_int v
  | ColorTempStandard => "1"
  | ColorTempCold => "3"
  | ColorTempWarm => "4"
  | Aspect43 => "1"
  | Aspect169 => "2"
  | Aspect1610 => "3"
  | AspectAuto => "7"
  | AutoKeystoneOn => "1"
  | AutoKeystoneOff => "0"
  | DigitalZoom v => str_of_int v
  | Zoom50 => "0"
  | Zoom75 => "1"
  | Zoom100 => "2"
  | Zoom125 => "3"
  | Zoom150 => "4"
  | Zoom175 => "5"
  | Zoom200 => "6"
  | VolumeUp => "18"
  | VolumeDown => "17"
  | Language v => str_of_int v
  | RemoteMenu => "20"
  | RemoteUp => "10"
  | RemoteDown => "14"
  | RemoteLeft => "11"
  | RemoteRight => "13"
  | RemoteEnter => "12"
  | SignageOn => "2"
  | SignageOff => "1"
  | FactoryReset => "1"
  | ResetOsd => "1"
  end.

(** The command a setter passes to [_send_command] *)
Definition setter_command (op : setter) : string :=
  setter_feature op ++ " " ++ setter_field op.

Inductive query : Set :=
  | GetPowerState
  | GetAvMuteState
  | GetAudioMuteState
  | GetInputSource
  | GetProjectionMode
  | GetDisplayMode
  | GetBrightness
  | GetContrast
  | GetColorTemperature
  | GetAspectRatio
  | GetVKeystone
  | GetDigitalZoom
  | GetVolume
  | GetSystemInfo
  | GetSoftwareVersion
  | GetDdpSoftwareVersion
  | GetAndroidSoftwareVersion
  | GetLampHours
  | GetSystemHours
  | GetTemperature
  | GetMacAddress
  | GetDeviceId
  | GetNetworkStatus
  | GetSignalStatus
  | GetResolution
  | GetRefreshRate
  | GetDigitalSignageStatus.

(** What a query hands back *)
Inductive answer : Type :=
  | AFlag (flag : option bool)
  | ANumber (number : option Z)
  | AText (text : option string)
  | ARecord (info : gmap string pyval)
  | AVersions (versions : gmap string string).

Definition call_query (q : query) : M answer :=
  match q with
  | GetPowerState => AFlag <$> get_power_state
  | GetAvMuteState => AFlag <$> get_av_mute_state
  | GetAudioMuteState => AFlag <$> get_audio_mute_state
  | GetInputSource => AText <$> get_input_source
  | GetProjectionMode => AText <$> get_projection_mode
  | GetDisplayMode => AText <$> get_display_mode
  | GetBrightness => ANumber <$> get_brightness
  | GetContrast => ANumber <$> get_contrast
  | GetColorTemperature => AText <$> get_color_temperature
  | GetAspectRatio => AText <$> get_aspect_ratio
  | GetVKeystone => ANumber <$> get_v_keystone
  | GetDigitalZoom => AText <$> get_digital_zoom
  | GetVolume => ANumber <$> get_volume
  | GetSystemInfo => ARecord <$> get_system_info
  | GetSoftwareVersion => AVersions <$> get_software_version
  | GetDdpSoftwareVersion => AText <$> get_ddp_software_version
  | GetAndroidSoftwareVersion => AText <$> get_android_software_version
  | GetLampHours => ANumber <$> get_lamp_hours
  | GetSystemHours => ANumber <$> get_system_hours
  | GetTemperature => ANumber <$> get_temperature
  | GetMacAddress => AText <$> get_mac_address
  | GetDeviceId => AText <$> get_device_id
  | GetNetworkStatus => AFlag <$> get_network_status
  | GetSignalStatus => AFlag <$> get_signal_status
  | GetResolution => AText <$> get_resolution
  | GetRefreshRate => AText <$> get_refresh_rate
  | GetDigitalSignageStatus => AFlag <$> get_digital_signage_status
  end.

Definition query_feature (q : query) : string :=
  match q with
  | GetPowerState => "124"
  | GetAvMuteState => "355"
  | GetAudioMuteState => "356"
  | GetInputSource => "121"
  | GetProjectionMode => "129"
  | GetDisplayMode => "123"
  | GetBrightness => "125"
  | GetContrast => "126"
  | GetColorTemperature => "128"
  | GetAspectRatio => "127"
  | GetVKeystone => "543"
  | GetDigitalZoom => "543"
  | GetVolume => "120"
  | GetSystemInfo => "150"
  | GetSoftwareVersion => "122"
  | GetDdpSoftwareVersion => "357"
  | GetAndroidSoftwareVersion => "357"
  | GetLampHours => "108"
  | GetSystemHours => "150"
  | GetTemperature => "352"
  | GetMacAddress => "555"
  | GetDeviceId => "558"
  | GetNetworkStatus => "451"
  | GetSignalStatus => "150"
  | GetResolution => "150"
  | GetRefreshRate => "150"
  | GetDigitalSignageStatus => "568"
  end.

Definition query_field (q : query) : string :=
  match q with
  | GetPowerState => "1"
  | GetAvMuteState => "1"
  | GetAudioMuteState => "1"
  | GetInputSource => "1"
  | GetProjectionMode => "1"
  | GetDisplayMode => "1"
  | GetBrightness => "1"
  | GetContrast => "1"
  | GetColorTemperature => "1"
  | GetAspectRatio => "1"
  | GetVKeystone => "3"
  | GetDigitalZoom => "9"
  | GetVolume => "1"
  | GetSystemInfo => "1"
  | GetSoftwareVersion => "1"
  | GetDdpSoftwareVersion => "3"
  | GetAndroidSoftwareVersion => "4"
  | GetLampHours => "1"
  | GetSystemHours => "21"
  | GetTemperature => "1"
  | GetMacAddress => "2"
  | GetDeviceId => "1"
  | GetNetworkStatus => "1"
  | GetSignalStatus => "23"
  | GetResolution => "4"
  | GetRefreshRate => "19"
  | GetDigitalSignageStatus => "1"
  end.

(** The command a query passes to [_send_command] *)
Definition query_command (q : query) : string :=
  query_feature q ++ " " ++ query_field q.

(** ** The specification's own words, for comparison with the code *)

(** Section 4.3, the result classifier.  The code has no such function:
    [_check_success] and the queries test the response in place. *)
Inductive Outcome : Set :=
  | Success
  | Data (payload : string)
  | Failure.

Definition classify_spec (response : string) : Outcome :=
  if String.eqb response "P" then Success
  else if startswith "Ok" response then Data (slice_from 2 response)
  else Failure.

(** Section 4.1, the frame codec:
    ["~" + address + featureCode + " " + subCode [+ " " + argument] + "\r"] *)
Definition encode_spec (address feature_code sub_code : string)
    (argument : option Z) : bytes :=
  "~" ++ address ++ feature_code ++ " " ++ sub_code ++
  match argument with
  | Some a => " " ++ str_of_int a
  | None => ""
  end ++ CR.

Fixpoint count_char (c : ascii) (s : string) : nat :=
  match s with
  | EmptyString => 0
  | String d rest => (if Ascii.eqb c d then 1 else 0) + count_char c rest
  end.

(** A text made of decimal digits only, and the number it spells *)
Fixpoint digits_only (s : string) : bool :=
  match s with
  | EmptyString => true
  | String c rest => is_digit c && digits_only rest
  end.

Fixpoint decimal_value (s : string) (acc : Z) : Z :=
  match s with
  | EmptyString => acc
  | String c rest => decimal_value rest (10 * acc + digit_value c)
  end.

(** ** Test benches *)

(** A controller with the default address whose port is still closed,
    attached to the given line *)
Definition bench (projector : list bytes -> nat -> bytes)
    : ProjectorController :=
  {| device_id := "00";
     is_open := false;
     openable := true;
     rx := EmptyString;
     tx := [];
     clock := 0;
     line := projector |}.

(** A line on which nothing ever arrives *)
Definition silent : list bytes -> nat -> bytes := fun _ _ => EmptyString.

(** A projector that keeps repeating, tick after tick, its reply to the
    last frame it received *)
Definition answering (reply : bytes -> bytes) : list bytes -> nat -> bytes :=
  fun written _ =>
    match last written with
    | Some request => reply request
    | None => EmptyString
    end.

(** A projector with volume 3: ['Ok3'] to the volume query of address
    00, the given reply to every other frame *)
Definition volume_three (otherwise : bytes) : list bytes -> nat -> bytes :=
  answering (fun request =>
               if String.eqb request ("~00120 1" ++ CR) then "Ok3"
               else otherwise).

(** The entry that [apply_config] appends for a restored volume *)
Definition volume_item (target current : Z) : string :=
  "audio.volume=" ++ str_of_int target ++
  (if (target =? current)%Z then " (unchanged)" else "").

(** The command of the step that moves [current] towards [target] *)
Definition step_command (target current : Z) : string :=
  if (current <? target)%Z then "140 18" else "140 17".

(** ** The rest of [ProjectorController] *)

(** [disconnect]: close the port when it is open *)
Definition disconnect : M unit :=
  fun self =>
    if is_open self then
      (Return tt,
       {| device_id := device_id self;
          is_open := false;
          openable := openable self;
          rx := EmptyString;
          tx := tx self;
          clock := clock self;
          line := line self |})
    else (Return tt, self).

(** [with ProjectorController(...) as proj: body]: [__enter__] connects
    and drops the result, [__exit__] disconnects and lets an exception
    of the body through. *)
Definition with_controller {A : Type} (body : M A) : M A :=
  fun self =>
    let (_, entered) := connect self in
    let (outcome, left) := body entered in
    (outcome, snd (disconnect left)).

(** ** [send_command] of [projector_status.py] *)

(** [s.endswith(suffix)] *)
Fixpoint endswith (suffix s : string) : bool :=
  String.eqb suffix s ||
  match s with
  | EmptyString => false
  | String _ rest => endswith suffix rest
  end.

(** The port methods of pyserial raise [PortNotOpenError] on a closed
    port; [send_command] is handed the port and does not open it. *)
Inductive port_result (A : Type) : Type :=
  | Done (outcome : result A)
  | PortNotOpenError.
Arguments Done {A} outcome.
Arguments PortNotOpenError {A}.

(** The [for i in range(max_attempts)] loop of [send_command]: it also
    stops on a poll that finds nothing once some bytes have been read. *)
Fixpoint status_read (attempts : nat) (response : bytes) : M bytes :=
  match attempts with
  | O => mret response
  | S attempts' =>
      sleep 1;;
      waiting ← in_waiting;
      if (0 <? waiting)%nat then
        chunk ← read waiting;
        let response := response ++ chunk in
        if has_marker response then mret response
        else status_read attempts' response
      else
        if negb (String.eqb response "") then mret response
        else status_read attempts' response
  end.

(** The command as [send_command] writes it *)
Definition terminated (command : string) : string :=
  if endswith CR command then command else command ++ CR.

Definition send_command (command : string) (ser : ProjectorController)
    : port_result string * ProjectorController :=
  if is_open ser then
    let (outcome, ser') :=
      (reset_input_buffer;;
       reset_output_buffer;;
       cmd_bytes ← encode_ascii (terminated command);
       write cmd_bytes;;
       flush;;
       response ← status_read 10 "";
       mret (strip (decode_ascii_ignore response))) ser in
    (Done outcome, ser')
  else (PortNotOpenError, ser).

(** ** The other sections of [ProjectorConfig.apply_config]

    A configuration is a dictionary of sections, each a dictionary of
    values that are [None], a truth value, an integer or a text, as
    [capture_config] and the JSON and YAML loaders produce them for the
    settings that [apply_config] reads. *)

Definition append_skipped (results : Results) (item : string) : Results :=
  {| success := success results;
     failed := failed results;
     skipped := (skipped results ++ [item])%list |}.

(** [if success: results['success'].append(item)] /
    [else: results['failed'].append(item)] *)
Definition record (results : Results) (ok : bool) (item : string) : Results :=
  if ok then append_success results item else append_failed results item.

(** [c.lower()] for one character of the range 0..255 *)
Definition lower_char (c : ascii) : ascii :=
  let n := nat_of_ascii c in
  if ((65 <=? n) && (n <=? 90)
      || (192 <=? n) && (n <=? 222) && negb (n =? 215))%nat
  then ascii_of_nat (n + 32)
  else c.

(** [s.lower()] *)
Fixpoint py_lower (s : string) : string :=
  match s with
  | EmptyString => EmptyString
  | String c rest => String (lower_char c) (py_lower rest)
  end.

(** Lines 102-117 *)
Definition apply_power (config : gmap string (gmap string pyval))
    (skip_power : bool) (results : Results) : M Results :=
  if skip_power then mret (append_skipped results "power.state")
  else
    match config !! "power" with
    | Some power =>
        match power !! "state" with
        | Some (PyBool true) =>
            ok ← power_on; mret (record results ok "power.state=on")
        | Some (PyBool false) =>
            ok ← power_off; mret (record results ok "power.state=off")
        | _ => mret results
        end
    | None => mret results
    end.

(** Lines 119-135 *)
Definition apply_source (config : gmap string (gmap string pyval))
    (results : Results) : M Results :=
  match config !! "source" with
  | Some section =>
      match section !! "input" with
      | Some source =>
          let text := py_str source in
          ok ← (if py_in "HDMI" text then set_source_hdmi
                else if py_in "USB" text then set_source_usb
                else if py_in "SD" text then set_source_sd_card
                else if py_in "Android" text || py_in "Home" text
                     then set_source_android_home
                else mret false);
          mret (record results ok ("source.input=" ++ py_str source))
      | None => mret results
      end
  | None => mret results
  end.

(** Lines 141-174 *)
Definition apply_display_mode (display : gmap string pyval)
    (results : Results) : M Results :=
  match display !! "mode" with
  | Some mode =>
      if truthy mode then
        let mode_lower := py_lower (py_str mode) in
        ok ← (if py_in "presentation" mode_lower || py_in "pc" mode_lower
              then set_display_mode_presentation
              else if py_in "bright" mode_lower then set_display_mode_bright
              else if py_in "cinema" mode_lower then set_display_mode_cinema
              else if py_in "srgb" mode_lower then set_display_mode_srgb
              else if py_in "3d" mode_lower then set_display_mode_3d
              else if py_in "game" mode_lower then set_display_mode_game
              else if py_in "hdr" mode_lower then set_display_mode_hdr
              else if py_in "hlg" mode_lower then set_display_mode_hlg
              else if py_in "ai-pq" mode_lower || py_in "aipq" mode_lower
                   then set_display_mode_ai_pq
              else if py_in "wcg" mode_lower then set_display_mode_wcg
              else if py_in "photo" mode_lower || py_in "vivid" mode_lower
                   then set_display_mode_photo
              else if py_in "eco" mode_lower then set_display_mode_eco
              else mret false);
        mret (record results ok ("display.mode=" ++ py_str mode))
      else mret results
  | None => mret results
  end.

(** [needle in value] for a stored value that passed the truth test:
    a number is not a container *)
Definition contained (needle : string) (value : pyval) : M bool :=
  match value with
  | PyStr s => mret (py_in needle s)
  | _ => raise TypeError
  end.

(** Lines 177-193 *)
Definition apply_projection_mode (display : gmap string pyval)
    (results : Results) : M Results :=
  match display !! "projection_mode" with
  | Some proj_mode =>
      if truthy proj_mode then
        front_desktop ← contained "Front-Desktop" proj_mode;
        ok ← (if front_desktop : bool then set_projection_front_desktop
              else
                rear_desktop ← contained "Rear-Desktop" proj_mode;
                if rear_desktop : bool then set_projection_rear_desktop
                else
                  front_ceiling ← contained "Front-Ceiling" proj_mode;
                  if front_ceiling : bool then set_projection_front_ceiling
                  else
                    rear_ceiling ← contained "Rear-Ceiling" proj_mode;
                    if rear_ceiling : bool then set_projection_rear_ceiling
                    else mret false);
        mret (record results ok
                ("display.projection_mode=" ++ py_str proj_mode))
      else mret results
  | None => mret results
  end.

(** Lines 196-212 *)
Definition apply_aspect_ratio (display : gmap string pyval)
    (results : Results) : M Results :=
  match display !! "aspect_ratio" with
  | Some aspect =>
      if truthy aspect then
        four_three ← contained "4:3" aspect;
        ok ← (if four_three : bool then set_aspect_4_3
              else
                sixteen_nine ← contained "16:9" aspect;
                if sixteen_nine : bool then set_aspect_16_9
                else
                  sixteen_ten ← contained "16:10" aspect;
                  if sixteen_ten : bool then set_aspect_16_10
                  else
                    auto ← contained "Auto" aspect;
                    if auto : bool then set_aspect_auto
                    else mret false);
        mret (record results ok ("display.aspect_ratio=" ++ py_str aspect))
      else mret results
  | None => mret results
  end.

(** [zoom_map] of lines 217-220 *)
Definition restore_zoom_map : gmap string Z :=
  list_to_map [("50%", 0%Z); ("75%", 1%Z); ("100%", 2%Z); ("125%", 3%Z);
               ("150%", 4%Z); ("175%", 5%Z); ("200%", 6%Z)].

(** [zoom in zoom_map]: only a text can equal one of the keys *)
Definition zoom_level (zoom : pyval) : option Z :=
  match zoom with
  | PyStr s => restore_zoom_map !! s
  | _ => None
  end.

(** Lines 215-225 *)
Definition apply_digital_zoom (display : gmap string pyval)
    (results : Results) : M Results :=
  match display !! "digital_zoom" with
  | Some zoom =>
      if truthy zoom then
        match zoom_level zoom with
        | Some level =>
            ok ← set_digital_zoom level;
            mret (record results ok ("display.digital_zoom=" ++ py_str zoom))
        | None => mret results
        end
      else mret results
  | None => mret results
  end.

(** Lines 138-225: [if 'display' in config: ...] *)
Definition apply_display (config : gmap string (gmap string pyval))
    (results : Results) : M Results :=
  match config !! "display" with
  | Some display =>
      results ← apply_display_mode display results;
      results ← apply_projection_mode display results;
      results ← apply_aspect_ratio display results;
      apply_digital_zoom display results
  | None => mret results
  end.

(** A bounded setter called with a stored value: an integer goes
    through the range test; a truth value passes it as 0 or 1 and is
    formatted as [True] or [False]; a text cannot be compared. *)
Definition call_bounded (feature : string) (setter : Z -> M bool)
    (value : pyval) : M bool :=
  match value with
  | PyInt z => setter z
  | PyBool _ =>
      response ← _send_command (feature ++ " " ++ py_str value);
      mret (_check_success response)
  | _ => raise TypeError
  end.

(** Lines 231-241, for brightness and for contrast *)
Definition apply_bounded (image : gmap string pyval) (key feature : string)
    (setter : Z -> M bool) (results : Results) : M Results :=
  match image !! key with
  | Some value =>
      if is_not_none value then
        ok ← call_bounded feature setter value;
        mret (record results ok ("image." ++ key ++ "=" ++ py_str value))
      else mret results
  | None => mret results
  end.

(** Lines 243-257 *)
Definition apply_color_temperature (image : gmap string pyval)
    (results : Results) : M Results :=
  match image !! "color_temperature" with
  | Some color_temp =>
      if truthy color_temp then
        standard ← contained "Standard" color_temp;
        ok ← (if standard : bool then set_color_temp_standard
              else
                cold ← contained "Cold" color_temp;
                if cold : bool then set_color_temp_cold
                else
                  warm ← contained "Warm" color_temp;
                  if warm : bool then set_color_temp_warm
                  else mret false);
        mret (record results ok
                ("image.color_temperature=" ++ py_str color_temp))
      else mret results
  | None => mret results
  end.

(** Lines 228-257: [if 'image' in config: ...] *)
Definition apply_image (config : gmap string (gmap string pyval))
    (results : Results) : M Results :=
  match config !! "image" with
  | Some image =>
      results ← apply_bounded image "brightness" "21" set_brightness results;
      results ← apply_bounded image "contrast" "22" set_contrast results;
      apply_color_temperature image results
  | None => mret results
  end.

Definition apply_config (config : gmap string (gmap string pyval))
    (skip_power : bool) : M Results :=
  let results := {| success := []; failed := []; skipped := [] |} in
  results ← apply_power config skip_power results;
  results ← apply_source config results;
  results ← apply_display config results;
  results ← apply_image config results;
  apply_config_audio config results.

(** [restore_from_file], the loaded configuration given ([None] when
    [load_from_file] failed) *)
Definition restore_from_file
    (loaded : option (gmap string (gmap string pyval))) (skip_power : bool)
    : M Results :=
  match loaded with
  | None => mret {| success := []; failed := ["load_file"]; skipped := [] |}
  | Some config => apply_config config skip_power
  end.

(** ** [ProjectorConfig.capture_config]

    What a captured configuration stores under a key: [None], a truth
    value, an integer or a text, or one of the two dictionaries of
    [get_software_version] and [get_fan_speeds]. *)
Inductive setting : Type :=
  | Plain (value : pyval)
  | SoftwareVersions (versions : gmap string string)
  | FanSpeeds (fans : gmap string (option Z)).

Definition of_flag (value : option bool) : setting :=
  Plain (from_option PyBool PyNone value).

Definition of_number (value : option Z) : setting :=
  Plain (from_option PyInt PyNone value).

Definition of_text (value : option string) : setting :=
  Plain (from_option PyStr PyNone value).

(** [config[section][key] = value] *)
Definition set_item (config : gmap string (gmap string setting))
    (section key : string) (value : setting)
    : gmap string (gmap string setting) :=
  alter <[key := value]> section config.

(** Lines 27-83; [now] is [datetime.now().isoformat()]. *)
Definition capture_config (now : string)
    : M (gmap string (gmap string setting)) :=
  device ← get_device_id;
  mac ← get_mac_address;
  let config : gmap string (gmap string setting) :=
    list_to_map
      [("metadata",
        list_to_map [("captured_at", Plain (PyStr now));
                     ("device_id", of_text device);
                     ("mac_address", of_text mac)]);
       ("power", ∅); ("source", ∅); ("display", ∅); ("image", ∅);
       ("audio", ∅); ("geometry", ∅); ("system_info", ∅)] in
  state ← get_power_state;
  let config := set_item config "power" "state" (of_flag state) in
  input ← get_input_source;
  let config := set_item config "source" "input" (of_text input) in
  mode ← get_display_mode;
  let config := set_item config "display" "mode" (of_text mode) in
  projection ← get_projection_mode;
  let config :=
    set_item config "display" "projection_mode" (of_text projection) in
  aspect ← get_aspect_ratio;
  let config := set_item config "display" "aspect_ratio" (of_text aspect) in
  zoom ← get_digital_zoom;
  let config := set_item config "display" "digital_zoom" (of_text zoom) in
  brightness ← get_brightness;
  let config := set_item config "image" "brightness" (of_number brightness) in
  contrast ← get_contrast;
  let config := set_item config "image" "contrast" (of_number contrast) in
  temperature ← get_color_temperature;
  let config :=
    set_item config "image" "color_temperature" (of_text temperature) in
  volume ← get_volume;
  let config := set_item config "audio" "volume" (of_number volume) in
  audio_mute ← get_audio_mute_state;
  let config := set_item config "audio" "audio_mute" (of_flag audio_mute) in
  av_mute ← get_av_mute_state;
  let config := set_item config "audio" "av_mute" (of_flag av_mute) in
  keystone ← get_v_keystone;
  let config := set_item config "geometry" "v_keystone" (of_number keystone) in
  versions ← get_software_version;
  let config :=
    set_item config "system_info" "software_versions"
      (SoftwareVersions versions) in
  lamp ← get_lamp_hours;
  let config := set_item config "system_info" "lamp_hours" (of_number lamp) in
  hours ← get_system_hours;
  let config :=
    set_item config "system_info" "system_hours" (of_number hours) in
  degrees ← get_temperature;
  let config :=
    set_item config "system_info" "temperature" (of_number degrees) in
  fans ← get_fan_speeds;
  let config := set_item config "system_info" "fan_speeds" (FanSpeeds fans) in
  network ← get_network_status;
  let config :=
    set_item config "system_info" "network_status" (of_flag network) in
  signage ← get_digital_signage_status;
  let config :=
    set_item config "system_info" "digital_signage" (of_flag signage) in
  mret config.

(** ** Two menus of [projector_cli.py]

    The lines that [input] returns are a list; [input] at its end
    raises [EOFError].  What the menus print is left out. *)

Inductive menu_result : Type :=
  | Back (rest : list string)
  | Raised (e : exn)
  | EOFError.

(** A call of a controller method inside a menu: an exception of the
    method leaves the menu. *)
Definition and_then {A : Type} (m : M A)
    (k : A -> ProjectorController -> menu_result * ProjectorController)
    : ProjectorController -> menu_result * ProjectorController :=
  fun self =>
    match m self with
    | (Return a, self') => k a self'
    | (Raise e, self') => (Raised e, self')
    end.

(** [confirm in ['yes', 'y']] *)
Definition yes_or_y (confirm : string) : bool :=
  String.eqb confirm "yes" || String.eqb confirm "y".

(** [ProjectorCLI.power_menu], lines 38-75 *)
Fixpoint power_menu (inputs : list string) {struct inputs}
    : ProjectorController -> menu_result * ProjectorController :=
  match inputs with
  | [] => fun self => (EOFError, self)
  | line :: rest =>
      let choice := strip line in
      if String.eqb choice "1" then
        and_then power_on (fun _ => power_menu rest)
      else if String.eqb choice "2" then
        match rest with
        | [] => fun self => (EOFError, self)
        | answer :: rest' =>
            let confirm := py_lower (strip answer) in
            if yes_or_y confirm then
              and_then power_off (fun _ => power_menu rest')
            else power_menu rest'
        end
      else if String.eqb choice "3" then
        and_then get_power_state (fun _ => power_menu rest)
      else if String.eqb choice "0" then fun self => (Back rest, self)
      else power_menu rest
  end.

(** [except ValueError] also catches [UnicodeEncodeError], a subclass *)
Definition is_value_error (e : exn) : bool :=
  match e with
  | ValueError | UnicodeEncodeError => true
  | _ => false
  end.

(** [ProjectorCLI.advanced_menu], lines 473-513 *)
Fixpoint advanced_menu (inputs : list string) {struct inputs}
    : ProjectorController -> menu_result * ProjectorController :=
  and_then get_digital_signage_status (fun _ =>
    match inputs with
    | [] => fun self => (EOFError, self)
    | line :: rest =>
        let choice := strip line in
        if String.eqb choice "1" then
          and_then set_digital_signage_on (fun _ => advanced_menu rest)
        else if String.eqb choice "2" then
          and_then set_digital_signage_off (fun _ => advanced_menu rest)
        else if String.eqb choice "3" then
          match rest with
          | [] => fun self => (EOFError, self)
          | text :: rest' =>
              fun self =>
                match (lang ← py_int text; set_language lang) self with
                | (Return _, self') => advanced_menu rest' self'
                | (Raise e, self') =>
                    if is_value_error e then advanced_menu rest' self'
                    else (Raised e, self')
                end
          end
        else if String.eqb choice "4" then
          match rest with
          | [] => fun self => (EOFError, self)
          | answer :: rest' =>
              let confirm := py_lower (strip answer) in
              if yes_or_y confirm then
                and_then reset_osd_settings (fun _ => advanced_menu rest')
              else advanced_menu rest'
          end
        else if String.eqb choice "5" then
          match rest with
          | [] => fun self => (EOFError, self)
          | answer :: rest' =>
              let confirm := py_lower (strip answer) in
              if String.eqb confirm "yes" then
                and_then factory_reset (fun _ => advanced_menu rest')
              else advanced_menu rest'
          end
        else if String.eqb choice "0" then fun self => (Back rest, self)
        else advanced_menu rest
    end).

(** ** More vocabulary *)

(** What a query returns when it has no usable response *)
Definition unavailable (q : query) : answer :=
  match q with
  | GetPowerState | GetAvMuteState | GetAudioMuteState | GetNetworkStatus
  | GetSignalStatus | GetDigitalSignageStatus => AFlag None
  | GetBrightness | GetContrast | GetVKeystone | GetVolume | GetLampHours
  | GetSystemHours | GetTemperature => ANumber None
  | GetSystemInfo => ARecord ∅
  | GetSoftwareVersion => AVersions ∅
  | _ => AText None
  end.

(** The queries that decode with [int] *)
Definition numeric_query (q : query) : bool :=
  match q with
  | GetBrightness | GetContrast | GetVKeystone | GetVolume | GetLampHours
  | GetSystemHours | GetTemperature => true
  | _ => false
  end.

(** The queries that take [response[2]] *)
Definition index_query (q : query) : bool :=
  match q with
  | GetProjectionMode | GetColorTemperature | GetDigitalZoom => true
  | _ => false
  end.

(** [x is not None] for an optional value *)
Definition is_Some_bool {A : Type} (x : option A) : bool :=
  match x with Some _ => true | None => false end.

(** White space only *)
Fixpoint all_space (s : string) : bool :=
  match s with
  | EmptyString => true
  | String c rest => py_isspace c && all_space rest
  end.

(** No white space at either end *)
Definition trimmed (s : string) : bool :=
  String.eqb (strip s) s.

(** The queries whose decoding is guarded: all but the three that take
    [response[2]] and [get_system_info] *)
Definition guarded_query (q : query) : bool :=
  match q with
  | GetProjectionMode | GetColorTemperature | GetDigitalZoom
  | GetSystemInfo => false
  | _ => true
  end.

(** Every [mark] in the text is directly followed by white space *)
Fixpoint followed_by_space (mark : ascii) (s : string) : bool :=
  match s with
  | EmptyString => true
  | String c rest =>
      (if Ascii.eqb c mark then
         match rest with
         | EmptyString => false
         | String d _ => py_isspace d
         end
       else true)
      && followed_by_space mark rest
  end.

(** [mark] occurs in the text at most as its last character *)
Fixpoint only_last (mark : ascii) (s : string) : bool :=
  match s with
  | EmptyString => true
  | String c rest =>
      (if Ascii.eqb c mark then String.eqb rest "" else true)
      && only_last mark rest
  end.

(** No white space in the text *)
Fixpoint no_space (s : string) : bool :=
  match s with
  | EmptyString => true
  | String c rest => negb (py_isspace c) && no_space rest
  end.

(** The component names that [get_software_version] can report *)
Definition version_names : list string :=
  ["DDP"; "MCU"; "Android"; "LAN"; "HDBaseT"; "System"].

(** The part of a captured configuration that [apply_config] can read:
    the values that are not dictionaries, as they are *)
Definition plain (value : setting) : option pyval :=
  match value with
  | Plain v => Some v
  | _ => None
  end.

Definition plain_settings (config : gmap string (gmap string setting))
    : gmap string (gmap string pyval) :=
  fmap (M := gmap string) (omap (M := gmap string) plain) config.

(** Between two states the address is the same and the frames written
    are frames of allowed commands. *)
Definition wrote (allowed : string -> bool)
    (self self' : ProjectorController) : Prop :=
  device_id self' = device_id self /\
  exists new : list bytes,
    tx self' = (tx self ++ new)%list /\
    Forall (fun written => exists command,
              written = frame self command /\ allowed command = true) new.

(** A method started in a state of [I] ends in a state of [I] that is
    related by [R] to the one it started in, with an outcome of
    [good]. *)
Definition keeps (I : ProjectorController -> Prop)
    (R : ProjectorController -> ProjectorController -> Prop)
    {A : Type} (good : result A -> Prop) (m : M A) : Prop :=
  forall self : ProjectorController,
    I self ->
    I (snd (m self)) /\ R self (snd (m self)) /\ good (fst (m self)).

(** The outcome is a value of [P] *)
Definition returning {A : Type} (P : A -> Prop) (outcome : result A) : Prop :=
  match outcome with
  | Return a => P a
  | Raise _ => False
  end.

(** The outcome is an exception or a value of [P] *)
Definition unless_raised {A : Type} (P : A -> Prop) (outcome : result A)
    : Prop :=
  match outcome with
  | Return a => P a
  | Raise _ => True
  end.

(** No port to reach *)
Definition unreachable (self : ProjectorController) : Prop :=
  is_open self = false /\ openable self = false.

(** [config[section][key]] when both keys are there *)
Definition setting_of (config : gmap string (gmap string pyval))
    (section key : string) : option pyval :=
  match config !! section with
  | Some values => values !! key
  | None => None
  end.

(** A value that [apply_config] can search for a text: a text, or a
    value that the truth test skips *)
Definition text_or_skipped (value : option pyval) : bool :=
  match value with
  | Some (PyStr _) | None => true
  | Some other => negb (truthy other)
  end.

(** A value that [apply_config] can compare with a number: anything but
    a text *)
Definition number_or_skipped (value : option pyval) : bool :=
  match value with
  | Some (PyStr _) => false
  | _ => true
  end.

(** The values that [apply_config] searches or compares have a type
    for it. *)
Definition well_typed (config : gmap string (gmap string pyval)) : bool :=
  text_or_skipped (setting_of config "display" "projection_mode")
  && text_or_skipped (setting_of config "display" "aspect_ratio")
  && text_or_skipped (setting_of config "image" "color_temperature")
  && number_or_skipped (setting_of config "image" "brightness")
  && number_or_skipped (setting_of config "image" "contrast")
  && number_or_skipped (setting_of config "audio" "volume").

(** A controller without a port to open *)
Definition offline : ProjectorController :=
  {| device_id := "00";
     is_open := false;
     openable := false;
     rx := EmptyString;
     tx := [];
     clock := 0;
     line := silent |}.

(** Any state at all *)
Definition any_state (self : ProjectorController) : Prop := True.

(** Any two states *)
Definition any_step (self self' : ProjectorController) : Prop := True.

(** The address of the controller encodes *)
Definition encodes (self : ProjectorController) : Prop :=
  all_ascii (device_id self) = true.

(** The outcome is a value of [P] or the exception [e] *)
Definition raising_only (e : exn) {A : Type} (P : A -> Prop)
    (outcome : result A) : Prop :=
  match outcome with
  | Return a => P a
  | Raise e' => e' = e
  end.

(** The outcome is an exception or a list of results with the same
    successes *)
Definition same_success (results : Results) : result Results -> Prop :=
  unless_raised (fun results' => success results' = success results).

(** What a typed line reads as where a confirmation is asked *)
Definition answer_of (line : string) : string := py_lower (strip line).

(** * Properties *)

(** ** Text *)

Module Text.

Lemma app_nil (s : string) : "" ++ s = s.
Proof. reflexivity. Qed.

Lemma app_cons (c : ascii) (a b : string) :
  String c a ++ b = String c (a ++ b).
Proof. reflexivity. Qed.

Lemma app_empty_r (s : string) : s ++ "" = s.
Proof.
  induction s as [|c s IH]; [reflexivity | now rewrite app_cons, IH].
Qed.

Lemma app_assoc (a b c : string) : (a ++ b) ++ c = a ++ (b ++ c).
Proof.
  induction a as [|x a IH]; [reflexivity | now rewrite !app_cons, IH].
Qed.

Lemma slice_to_length (s : string) : slice_to (String.length s) s = s.
Proof. induction s as [|c s IH]; simpl; [reflexivity | now rewrite IH]. Qed.

Lemma slice_from_length (s : string) : slice_from (String.length s) s = "".
Proof. induction s as [|c s IH]; simpl; [reflexivity | exact IH]. Qed.

Lemma length_zero (s : string) : (0 <? String.length s)%nat = false -> s = "".
Proof. destruct s; simpl; [reflexivity | discriminate]. Qed.

Lemma all_ascii_app (a b : string) :
  all_ascii (a ++ b) = all_ascii a && all_ascii b.
Proof.
  induction a as [|c a IH]; [reflexivity |].
  rewrite app_cons. simpl. rewrite IH. now rewrite andb_assoc.
Qed.

Lemma startswith_spec (pre s : string) :
  startswith pre s = true <-> exists rest, s = pre ++ rest.
Proof.
  revert s.
  induction pre as [|c pre IH]; intros s; simpl.
  - split; eauto.
  - destruct s as [|d s].
    + split; [discriminate | intros [r Hr]; rewrite app_cons in Hr; discriminate].
    + destruct (Ascii.eqb_spec c d) as [->|Hne]; simpl.
      * rewrite IH. split; intros [r Hr]; exists r.
        -- now rewrite app_cons, Hr.
        -- rewrite app_cons in Hr. now inversion Hr.
      * split; [discriminate |].
        intros [r Hr]. rewrite app_cons in Hr. inversion Hr. congruence.
Qed.

Lemma startswith_app (pre rest : string) : startswith pre (pre ++ rest) = true.
Proof. apply startswith_spec. now exists rest. Qed.

End Text.

(** ** The response reader *)

Module Reader.

Lemma has_marker_empty : has_marker "" = false.
Proof. reflexivity. Qed.

Lemma iter_advance (k : nat) (self : ProjectorController) :
  Nat.iter k advance (advance self) = advance (Nat.iter k advance self).
Proof. induction k as [|k IH]; simpl; [reflexivity | now rewrite IH]. Qed.

Lemma clock_iter_advance (k : nat) (self : ProjectorController) :
  clock (Nat.iter k advance self) = clock self + k.
Proof. induction k as [|k IH]; simpl; [lia | rewrite IH; lia]. Qed.

Lemma read_response_step (n : nat) (acc : bytes) (self : ProjectorController) :
  is_open self = true -> rx self = "" -> has_marker acc = false ->
  read_response (S n) acc self =
    let chunk := line self (tx self) (S (clock self)) in
    if has_marker (acc ++ chunk) then (Return (acc ++ chunk), advance self)
    else read_response n (acc ++ chunk) (advance self).
Proof.
  intros Hopen Hrx Hacc.
  cbn [read_response]. unfold mbind, method_bind, sleep, in_waiting, read.
  change (Nat.iter 1 tick self) with (tick self).
  set (chunk := line self (tx self) (S (clock self))).
  assert (Hrt : rx (tick self) = chunk).
  { unfold tick; cbn. now rewrite Hopen, Hrx. }
  cbv zeta. rewrite Hrt.
  destruct (0 <? String.length chunk)%nat eqn:Hlen.
  - cbv beta. rewrite Hrt, Text.slice_to_length, Text.slice_from_length.
    destruct (has_marker (acc ++ chunk)); reflexivity.
  - apply Text.length_zero in Hlen.
    fold chunk. rewrite Hlen, Text.app_empty_r, Hacc.
    f_equal. unfold tick, advance. f_equal.
    rewrite Hopen, Hrx. exact Hlen.
Qed.

Lemma read_response_run (n : nat) :
  forall (acc : bytes) (self : ProjectorController),
    is_open self = true -> rx self = "" -> has_marker acc = false ->
    exists k,
      k <= n /\
      read_response n acc self =
        (Return (acc ++ heard (line self (tx self)) (clock self) k),
         Nat.iter k advance self) /\
      (forall j, j < k ->
         has_marker (acc ++ heard (line self (tx self)) (clock self) j) = false) /\
      (k < n ->
         has_marker (acc ++ heard (line self (tx self)) (clock self) k) = true).
Proof.
  induction n as [|n IH]; intros acc self Hopen Hrx Hacc.
  - exists 0. simpl. rewrite Text.app_empty_r.
    repeat split; [lia | |]; intros; lia.
  - rewrite (read_response_step n acc self Hopen Hrx Hacc). cbv zeta.
    set (chunk := line self (tx self) (S (clock self))).
    destruct (has_marker (acc ++ chunk)) eqn:Hmark.
    + exists 1. cbn [heard Nat.iter]. fold chunk. rewrite Text.app_empty_r.
      repeat split; [lia | | auto].
      intros j Hj. replace j with 0 by lia. simpl.
      now rewrite Text.app_empty_r.
    + destruct (IH (acc ++ chunk) (advance self) Hopen eq_refl Hmark)
        as (k & Hk & Hrun & Hbefore & Hstop).
      exists (S k). cbn [heard]. fold chunk.
      change (line (advance self)) with (line self) in *.
      change (tx (advance self)) with (tx self) in *.
      change (clock (advance self)) with (S (clock self)) in *.
      rewrite <- Text.app_assoc. repeat split.
      * lia.
      * rewrite Hrun, iter_advance. reflexivity.
      * intros [|j] Hj.
        -- simpl. now rewrite Text.app_empty_r.
        -- cbn [heard]. fold chunk. rewrite <- Text.app_assoc.
           apply Hbefore. lia.
      * intros Hlt. apply Hstop. lia.
Qed.

Lemma fields_iter_advance (k : nat) (self : ProjectorController) :
  device_id (Nat.iter k advance self) = device_id self /\
  is_open (Nat.iter k advance self) = is_open self /\
  openable (Nat.iter k advance self) = openable self /\
  tx (Nat.iter k advance self) = tx self /\
  line (Nat.iter k advance self) = line self.
Proof.
  induction k as [|k IH]; [repeat split |].
  cbn [Nat.iter]. unfold advance at 1 2 3 4 5. cbn. exact IH.
Qed.

Lemma all_ascii_frame (self : ProjectorController) (command : string) :
  all_ascii (device_id self) = true -> all_ascii command = true ->
  all_ascii (frame self command) = true.
Proof.
  intros Hid Hcmd. unfold frame.
  rewrite !Text.all_ascii_app, Hid, Hcmd. reflexivity.
Qed.

(** The state in which the reader starts *)
Lemma send_command_start (command : string) (self : ProjectorController) :
  usable self = true -> all_ascii command = true ->
  _send_command command self =
    (response ← read_response 10 "";
     mret (strip (decode_ascii_ignore response))) (sent command self).
Proof.
  unfold usable. intros Huse Hcmd.
  apply andb_prop in Huse as [Hconn Hid].
  pose proof (all_ascii_frame self command Hid Hcmd) as Hframe.
  unfold frame in Hframe.
  unfold _send_command, sent, opened, frame.
  generalize (read_response 10 ""). intros reader.
  destruct (is_open self) eqn:Hopen.
  - unfold mbind, method_bind, mret, method_ret, encode_ascii,
      reset_input_buffer, reset_output_buffer, flush, write.
    cbn. rewrite Hframe. cbn. rewrite Hopen. reflexivity.
  - simpl in Hconn.
    unfold connect, sleep.
    unfold mbind, method_bind, mret, method_ret, encode_ascii,
      reset_input_buffer, reset_output_buffer, flush, write.
    rewrite Hopen, Hconn. cbn. rewrite Hframe. cbn. rewrite Hconn. reflexivity.
Qed.

Lemma send_command_run (command : string) (self : ProjectorController) :
  usable self = true -> all_ascii command = true ->
  let start := sent command self in
  exists k,
    k <= 10 /\
    _send_command command self =
      (Return (strip (decode_ascii_ignore
                        (heard (line start (tx start)) (clock start) k))),
       Nat.iter k advance start) /\
    (forall j, j < k ->
       has_marker (heard (line start (tx start)) (clock start) j) = false) /\
    (k < 10 ->
       has_marker (heard (line start (tx start)) (clock start) k) = true).
Proof.
  intros Huse Hcmd start.
  rewrite (send_command_start command self Huse Hcmd). fold start.
  destruct (read_response_run 10 "" start eq_refl eq_refl has_marker_empty)
    as (k & Hk & Hrun & Hbefore & Hstop).
  exists k. unfold mbind, method_bind.
  rewrite Hrun. rewrite Text.app_nil. repeat split; auto.
Qed.

(** Without a port the command is answered by the empty string and
    nothing else happens. *)
Lemma send_command_unconnected (command : string) (self : ProjectorController) :
  is_open self = false -> openable self = false ->
  _send_command command self = (Return "", self).
Proof.
  intros Hopen Hcan. unfold _send_command, mbind, method_bind, connect.
  rewrite Hopen, Hcan, Hopen. reflexivity.
Qed.

End Reader.

Lemma heard_silent (ln : nat -> bytes) (t k : nat) :
  (forall u, ln u = "") -> heard ln t k = "".
Proof.
  intros Hquiet. revert t.
  induction k as [|k IH]; intros t; [reflexivity |].
  cbn [heard]. now rewrite Hquiet, IH.
Qed.

(** C4. [_send_command] polls at most 10 times, each poll after one
    sleep of 100 ms (one tick of the clock); what it holds after [polls]
    polls is everything that arrived during them; it stops at the first
    poll after which the accumulator contains ['Ok'], ['P'] or ['F'];
    when no such poll exists it uses all 10 and returns what it has,
    decoded and stripped; on a line where nothing arrives that is the
    empty string, after exactly 10 polls. *)
Theorem send_command_poll_budget (command : string)
    (self : ProjectorController) :
  usable self = true -> all_ascii command = true ->
  let start := sent command self in
  let accumulated := heard (line start (tx start)) (clock start) in
  exists (polls : nat) (response : string) (self' : ProjectorController),
    _send_command command self = (Return response, self') /\
    polls <= 10 /\
    clock self' = clock start + polls /\
    response = strip (decode_ascii_ignore (accumulated polls)) /\
    (forall j, j < polls -> has_marker (accumulated j) = false) /\
    (polls < 10 -> has_marker (accumulated polls) = true) /\
    (has_marker (accumulated polls) = false -> polls = 10) /\
    ((forall t, line start (tx start) t = "") -> polls = 10 /\ response = "").
Proof.
  intros Huse Hcmd start accumulated.
  destruct (Reader.send_command_run command self Huse Hcmd)
    as (k & Hk & Hrun & Hbefore & Hstop).
  fold start in Hrun, Hbefore, Hstop. fold accumulated in Hrun, Hbefore, Hstop.
  assert (Hfull : has_marker (accumulated k) = false -> k = 10).
  { intros Hnone. destruct (Nat.eq_dec k 10) as [|Hne]; [assumption |].
    rewrite Hstop in Hnone by lia. discriminate. }
  exists k, (strip (decode_ascii_ignore (accumulated k))),
    (Nat.iter k advance start).
  repeat split; auto.
  - apply Reader.clock_iter_advance.
  - apply Hfull. unfold accumulated. now rewrite heard_silent.
  - unfold accumulated. now rewrite heard_silent.
Qed.

Lemma send_command_poll_budget_witness :
  usable (bench silent) = true /\ all_ascii "124 1" = true /\
  exists self',
    _send_command "124 1" (bench silent) = (Return "", self') /\
    clock self' = clock (sent "124 1" (bench silent)) + 10.
Proof.
  split; [reflexivity |]. split; [reflexivity |].
  destruct (send_command_poll_budget "124 1" (bench silent) eq_refl eq_refl)
    as (polls & response & self' & Hrun & _ & Hclock & _ & _ & _ & _ & Hquiet).
  destruct (Hquiet (fun _ => eq_refl)) as [-> ->].
  exists self'. split; assumption.
Defined.

(** ** Setters *)

Module Calls.

Lemma all_ascii_uint (d : Decimal.uint) :
  all_ascii (NilEmpty.string_of_uint d) = true.
Proof. induction d; simpl; auto. Qed.

Lemma all_ascii_nilzero (d : Decimal.uint) :
  all_ascii (NilZero.string_of_uint d) = true.
Proof.
  destruct d; [reflexivity | ..];
    unfold NilZero.string_of_uint; apply all_ascii_uint.
Qed.

Lemma all_ascii_str_of_int (z : Z) : all_ascii (str_of_int z) = true.
Proof.
  unfold str_of_int, NilZero.string_of_int.
  destruct (Z.to_int z) as [d|d]; [apply all_ascii_nilzero |].
  cbn [all_ascii]. now rewrite all_ascii_nilzero.
Qed.

Lemma all_ascii_setter (op : setter) : all_ascii (setter_command op) = true.
Proof.
  destruct op; try reflexivity;
    unfold setter_command; cbn [setter_feature setter_field];
    rewrite !Text.all_ascii_app, all_ascii_str_of_int; reflexivity.
Qed.

(** Every setter is one exchange followed by [_check_success]. *)
Lemma call_setter_unfold (op : setter) :
  accepted op = true ->
  call_setter op =
    (response ← _send_command (setter_command op);
     mret (_check_success response)).
Proof.
  intros Hok. destruct op; try reflexivity; cbn in Hok;
    cbn [call_setter]; unfold set_brightness, set_contrast, set_digital_zoom;
    rewrite Hok; reflexivity.
Qed.

Lemma send_command_returns (command : string) (self : ProjectorController) :
  all_ascii (device_id self) = true -> all_ascii command = true ->
  exists response self', _send_command command self = (Return response, self').
Proof.
  intros Hid Hcmd.
  destruct (is_open self || openable self) eqn:Hconn.
  - assert (Huse : usable self = true) by (unfold usable; now rewrite Hconn, Hid).
    destruct (Reader.send_command_run command self Huse Hcmd)
      as (k & _ & Hrun & _). eauto.
  - apply orb_false_elim in Hconn as [Hopen Hcan].
    rewrite (Reader.send_command_unconnected command self Hopen Hcan). eauto.
Qed.

Lemma check_success_spec (response : string) :
  _check_success response = true <->
  response = "P" \/ exists payload, response = "Ok" ++ payload.
Proof.
  unfold _check_success. rewrite orb_true_iff, String.eqb_eq.
  now rewrite Text.startswith_spec.
Qed.

End Calls.

(** C1. A response is classified in exactly one way: ['P'] alone is
    Success, a response that starts with ['Ok'] is Data with what
    follows the prefix (possibly nothing), anything else is Failure.
    [_check_success] is true on Success and Data and false on Failure,
    and every setter whose argument passes its range check returns
    [_check_success] of the response of its exchange. *)
Theorem setters_follow_classification :
  (forall response : string,
     (classify_spec response = Success <-> response = "P") /\
     (forall payload,
        classify_spec response = Data payload <-> response = "Ok" ++ payload) /\
     (classify_spec response = Failure <->
        response <> "P" /\ forall payload, response <> "Ok" ++ payload) /\
     (_check_success response = true <->
        response = "P" \/ exists payload, response = "Ok" ++ payload) /\
     _check_success response =
       match classify_spec response with Failure => false | _ => true end /\
     decode_text response =
       match classify_spec response with Data p => Some p | _ => None end) /\
  (forall (op : setter) (self : ProjectorController),
     accepted op = true -> all_ascii (device_id self) = true ->
     exists response self',
       _send_command (setter_command op) self = (Return response, self') /\
       call_setter op self = (Return (_check_success response), self')).
Proof.
  split.
  - intros response.
    assert (Hdata : forall payload,
               startswith "Ok" response = true ->
               (slice_from 2 response = payload <-> response = "Ok" ++ payload)).
    { intros payload Hpre. apply Text.startswith_spec in Hpre as [rest ->].
      change (slice_from 2 ("Ok" ++ rest)) with rest. split; [now intros -> |].
      intros Heq. now inversion Heq. }
    pose proof (Calls.check_success_spec response) as Hcheck.
    unfold classify_spec, decode_text.
    unfold _check_success in Hcheck |- *.
    destruct (String.eqb_spec response "P") as [->|HneP].
    + cbn. split; [tauto |]. split; [split; discriminate |].
      split; [split; [discriminate | intros []; congruence] |].
      split; [tauto |]. split; reflexivity.
    + destruct (startswith "Ok" response) eqn:Hpre;
        cbn -[slice_from String.append] in Hcheck |- *.
      * specialize (fun payload => Hdata payload eq_refl).
        split; [split; [discriminate | congruence] |].
        split.
        { intros payload. rewrite <- Hdata. split; congruence. }
        split.
        { split; [discriminate |]. intros [_ Hno].
          destruct (Hno (slice_from 2 response)). now apply Hdata. }
        split; [exact Hcheck |]. split; reflexivity.
      * assert (Hno : forall payload, response <> "Ok" ++ payload).
        { intros payload ->. now rewrite Text.startswith_app in Hpre. }
        split; [split; [discriminate | congruence] |].
        split.
        { intros payload. split; [discriminate |].
          intros Heq. now destruct (Hno payload). }
        split; [tauto |].
        split; [exact Hcheck |]. split; reflexivity.
  - intros op self Hok Hid.
    destruct (Calls.send_command_returns (setter_command op) self Hid
                (Calls.all_ascii_setter op)) as (response & self' & Hrun).
    exists response, self'. split; [exact Hrun |].
    rewrite (Calls.call_setter_unfold op Hok).
    unfold mbind, method_bind. now rewrite Hrun.
Qed.

Lemma setters_follow_classification_witness :
  accepted (Brightness 5) = true /\
  all_ascii (device_id (bench (answering (fun _ => "P")))) = true /\
  exists self',
    call_setter (Brightness 5) (bench (answering (fun _ => "P")))
    = (Return true, self').
Proof.
  split; [reflexivity |]. split; [reflexivity |].
  destruct (proj2 setters_follow_classification (Brightness 5)
              (bench (answering (fun _ => "P"))) eq_refl eq_refl)
    as (response & self' & Hrun & Hcall).
  exists self'. rewrite Hcall. vm_compute in Hrun.
  injection Hrun as <- _. reflexivity.
Defined.

(** C3. Outside 0..10, [set_brightness] and [set_contrast] return
    [False] and leave the controller as it was: the port is not opened,
    nothing is written, no time passes; likewise [set_digital_zoom]
    outside 0..6. *)
Theorem out_of_range_is_rejected_without_io (value : Z)
    (self : ProjectorController) :
  ((value < 0 \/ 10 < value)%Z ->
     set_brightness value self = (Return false, self) /\
     set_contrast value self = (Return false, self)) /\
  ((value < 0 \/ 6 < value)%Z ->
     set_digital_zoom value self = (Return false, self)).
Proof.
  split; intros Hout.
  - assert (Hchk : (0 <=? value)%Z && (value <=? 10)%Z = false).
    { apply andb_false_iff. rewrite !Z.leb_gt. lia. }
    unfold set_brightness, set_contrast. rewrite Hchk. split; reflexivity.
  - assert (Hchk : (0 <=? value)%Z && (value <=? 6)%Z = false).
    { apply andb_false_iff. rewrite !Z.leb_gt. lia. }
    unfold set_digital_zoom. rewrite Hchk. reflexivity.
Qed.

Lemma out_of_range_is_rejected_without_io_witness :
  (11 < 0 \/ 10 < 11)%Z /\ (-1 < 0 \/ 6 < -1)%Z /\
  set_brightness 11 (bench silent) = (Return false, bench silent) /\
  tx (snd (set_brightness 11 (bench silent))) = [] /\
  set_digital_zoom (-1) (bench silent) = (Return false, bench silent).
Proof.
  split; [lia |]. split; [lia |].
  pose proof (proj1 (out_of_range_is_rejected_without_io 11 (bench silent))
                (or_intror eq_refl)) as [Hbright _].
  pose proof (proj2 (out_of_range_is_rejected_without_io (-1) (bench silent))
                (or_introl eq_refl)) as Hzoom.
  split; [exact Hbright |]. split; [now rewrite Hbright | exact Hzoom].
Defined.

(** C7, as the specification states it, fails: [_check_success] gives
    the empty response and ['F'] the same value. *)
Lemma empty_and_F_not_told_apart :
  ~ (_check_success "" <> _check_success "F").
Proof. intros Hdiff. apply Hdiff. reflexivity. Qed.

(** C7, amended. [_check_success] is [False] on the empty response and
    on ['F'] alike, so a setter returns the same [False] whether nothing
    was received or the projector refused; the two cases differ only in
    the response string of [_send_command]. *)
Theorem empty_and_F_both_fail (op : setter)
    (quiet refusing quiet' refusing' : ProjectorController) :
  accepted op = true ->
  _send_command (setter_command op) quiet = (Return "", quiet') ->
  _send_command (setter_command op) refusing = (Return "F", refusing') ->
  _check_success "" = false /\ _check_success "F" = false /\
  call_setter op quiet = (Return false, quiet') /\
  call_setter op refusing = (Return false, refusing').
Proof.
  intros Hok Hquiet Hrefuse.
  rewrite (Calls.call_setter_unfold op Hok). unfold mbind, method_bind.
  rewrite Hquiet, Hrefuse. repeat split.
Qed.

Lemma empty_and_F_both_fail_witness :
  accepted PowerOn = true /\
  fst (_send_command (setter_command PowerOn) (bench silent)) = Return "" /\
  fst (_send_command (setter_command PowerOn)
         (bench (answering (fun _ => "F")))) = Return "F" /\
  fst (call_setter PowerOn (bench silent)) = Return false /\
  fst (call_setter PowerOn (bench (answering (fun _ => "F")))) = Return false.
Proof.
  split; [reflexivity |]. split; [reflexivity |]. split; [reflexivity |].
  destruct (_send_command (setter_command PowerOn) (bench silent))
    as [r1 s1] eqn:H1.
  destruct (_send_command (setter_command PowerOn)
              (bench (answering (fun _ => "F")))) as [r2 s2] eqn:H2.
  assert (E1 : r1 = Return "") by (vm_compute in H1; congruence).
  assert (E2 : r2 = Return "F") by (vm_compute in H2; congruence).
  subst r1 r2.
  destruct (empty_and_F_both_fail PowerOn _ _ _ _ eq_refl H1 H2)
    as (_ & _ & Hq & Hr).
  rewrite Hq, Hr. split; reflexivity.
Defined.

(** ** Frames *)

Module Frames.

Lemma count_char_app (c : ascii) (a b : string) :
  count_char c (a ++ b) = count_char c a + count_char c b.
Proof.
  induction a as [|d a IH]; [reflexivity |].
  rewrite Text.app_cons. cbn [count_char]. rewrite IH. lia.
Qed.

Lemma tx_after_exchange (k : nat) (command : string)
    (self : ProjectorController) :
  tx (Nat.iter k advance (sent command self)) =
  (tx self ++ [frame self command])%list.
Proof.
  destruct (Reader.fields_iter_advance k (sent command self))
    as (_ & _ & _ & Htx & _).
  rewrite Htx. reflexivity.
Qed.

Lemma frame_as_spec (self : ProjectorController) (feature field : string) :
  frame self (feature ++ " " ++ field) =
  encode_spec (device_id self) feature field None.
Proof.
  unfold frame, encode_spec. rewrite Text.app_nil.
  now rewrite !Text.app_assoc.
Qed.

Lemma call_setter_state (op : setter) (self : ProjectorController) :
  accepted op = true -> usable self = true ->
  exists k, snd (call_setter op self)
            = Nat.iter k advance (sent (setter_command op) self).
Proof.
  intros Hok Huse.
  destruct (Reader.send_command_run (setter_command op) self Huse
              (Calls.all_ascii_setter op)) as (k & _ & Hrun & _).
  exists k. rewrite (Calls.call_setter_unfold op Hok).
  unfold mbind, method_bind. now rewrite Hrun.
Qed.

Ltac literal_command H :=
  match type of H with
  | context [query_command ?q] =>
      let c := eval vm_compute in (query_command q) in
      change (query_command q) with c in H
  end.

Ltac split_cases :=
  repeat (match goal with
          | |- context [match ?x with _ => _ end] =>
              match type of x with
              | bool => destruct x
              | option _ => destruct x
              end
          end; cbv beta iota).

(** Decoding a response leaves the controller alone. *)
Lemma call_query_state (q : query) (self self' : ProjectorController)
    (response : string) :
  _send_command (query_command q) self = (Return response, self') ->
  snd (call_query q self) = self'.
Proof.
  intros Hrun.
  destruct q; literal_command Hrun; cbn [call_query];
    unfold fmap, method_fmap;
    unfold get_power_state, get_av_mute_state, get_audio_mute_state,
      get_input_source, get_projection_mode, get_display_mode, get_brightness,
      get_contrast, get_color_temperature, get_aspect_ratio, get_v_keystone,
      get_digital_zoom, get_volume, get_system_info, get_software_version,
      get_ddp_software_version, get_android_software_version, get_lamp_hours,
      get_system_hours, get_temperature, get_mac_address, get_device_id,
      get_network_status, get_signal_status, get_resolution, get_refresh_rate,
      get_digital_signage_status;
    unfold mbind, method_bind; rewrite Hrun;
    unfold decode_int, try_except, py_int, py_index, mbind, method_bind,
      mret, method_ret, raise;
    split_cases; reflexivity.
Qed.

Lemma all_ascii_query (q : query) : all_ascii (query_command q) = true.
Proof. destruct q; reflexivity. Qed.

End Frames.

(** ** Queries on a projector with one fixed reply *)

(** C5. A projector that answers ['Ok8'], a code that no table knows.
    The input-source and display-mode queries build ['Unknown (8)'];
    the projection-mode, colour-temperature, aspect-ratio and
    digital-zoom queries return the bare label ['Unknown'], in which the
    code does not occur. *)
Theorem unknown_code_dropped_by_four_queries :
  let self := bench (answering (fun _ => "Ok8")) in
  fst (get_input_source self) = Return (Some "Unknown (8)") /\
  fst (get_display_mode self) = Return (Some "Unknown (8)") /\
  fst (get_projection_mode self) = Return (Some "Unknown") /\
  fst (get_color_temperature self) = Return (Some "Unknown") /\
  fst (get_aspect_ratio self) = Return (Some "Unknown") /\
  fst (get_digital_zoom self) = Return (Some "Unknown") /\
  py_in "8" "Unknown" = false.
Proof. vm_compute. repeat split. Qed.

(** C6. A projector that answers ['Ok'] and nothing more: the queries
    that take [response[2]] raise [IndexError], while their siblings
    that slice ([response[2:]]) or guard [int] return.  And a
    system-information payload of 13 characters whose lamp-hours field
    is not a number makes [get_system_info] raise [ValueError]. *)
Theorem empty_payload_raises_in_three_queries :
  let self := bench (answering (fun _ => "Ok")) in
  fst (get_projection_mode self) = Raise IndexError /\
  fst (get_color_temperature self) = Raise IndexError /\
  fst (get_digital_zoom self) = Raise IndexError /\
  fst (get_aspect_ratio self) = Return (Some "Unknown") /\
  fst (get_input_source self) = Return (Some "Unknown ()") /\
  fst (get_brightness self) = Return None /\
  fst (get_power_state self) = Return None /\
  fst (get_system_info (bench (answering (fun _ => "Ok1abcde0772000"))))
  = Raise ValueError.
Proof. vm_compute. repeat split. Qed.

(** ** [int] on digits *)

Module Digits.

Lemma digit_not_space (c : ascii) : is_digit c = true -> int_isspace c = false.
Proof.
  destruct c as [[] [] [] [] [] [] [] []]; try discriminate; reflexivity.
Qed.

Lemma lstrip_digits (s : string) :
  digits_only s = true -> lstrip int_isspace s = s.
Proof.
  destruct s as [|c rest]; [reflexivity |].
  cbn [digits_only lstrip]. intros H. apply andb_prop in H as [Hc _].
  now rewrite (digit_not_space c Hc).
Qed.

Lemma rstrip_digits (s : string) :
  digits_only s = true -> rstrip int_isspace s = s.
Proof.
  induction s as [|c rest IH]; [reflexivity |].
  cbn [digits_only rstrip]. intros H. apply andb_prop in H as [Hc Hrest].
  rewrite (IH Hrest), (digit_not_space c Hc). now destruct rest.
Qed.

Lemma count_digits_le (s : string) : count_digits s <= String.length s.
Proof.
  induction s as [|c rest IH]; [reflexivity |].
  cbn [count_digits String.length]. destruct (is_digit c); lia.
Qed.

Lemma int_digits_run (s : string) :
  digits_only s = true ->
  forall (acc : Z) (after_digit : bool),
    s <> "" \/ after_digit = true ->
    int_digits s acc after_digit = Some (decimal_value s acc).
Proof.
  induction s as [|c rest IH]; intros Hd acc after_digit Hne.
  - destruct Hne as [Hne | ->]; [now destruct Hne | reflexivity].
  - cbn [digits_only] in Hd. apply andb_prop in Hd as [Hc Hrest].
    cbn [int_digits decimal_value]. rewrite Hc.
    apply IH; auto.
Qed.

(** [int] accepts a non-empty run of at most 4300 digits and returns
    the number it spells. *)
Lemma int_literal_digits (s : string) :
  digits_only s = true -> s <> "" -> String.length s <= max_str_digits ->
  int_literal s = Some (decimal_value s 0).
Proof.
  intros Hd Hne Hlen. unfold int_literal.
  rewrite (lstrip_digits s Hd), (rstrip_digits s Hd).
  pose proof (count_digits_le s) as Hcount.
  assert (Hlim : (max_str_digits <? count_digits s)%nat = false)
    by (apply Nat.ltb_ge; lia).
  rewrite Hlim.
  destruct s as [|c rest]; [now destruct Hne |].
  assert (Hc : is_digit c = true).
  { cbn [digits_only] in Hd. now apply andb_prop in Hd as [Hc _]. }
  rewrite <- (int_digits_run (String c rest) Hd 0 false) by (left; discriminate).
  destruct c as [[] [] [] [] [] [] [] []]; try discriminate Hc; reflexivity.
Qed.

End Digits.

(** ** The system-information record *)

Module SystemInfo.

Lemma length_slice_from (i : nat) (s : string) :
  String.length (slice_from i s) = String.length s - i.
Proof.
  revert s. induction i as [|i IH]; intros [|c s];
    cbn [slice_from String.length]; try lia.
  rewrite IH. lia.
Qed.

Lemma length_slice_to (n : nat) (s : string) :
  String.length (slice_to n s) = Nat.min n (String.length s).
Proof.
  revert s. induction n as [|n IH]; intros [|c s];
    cbn [slice_to String.length]; try lia.
  rewrite IH. lia.
Qed.

Lemma length_slice (i j : nat) (s : string) :
  String.length (slice i j s) = Nat.min (j - i) (String.length s - i).
Proof. unfold slice. now rewrite length_slice_to, length_slice_from. Qed.

(** Five digits at offsets 1..5 are a number for [int]. *)
Lemma lamp_hours_digits (data : string) :
  13 <= String.length data -> digits_only (slice 1 6 data) = true ->
  int_literal (slice 1 6 data) = Some (decimal_value (slice 1 6 data) 0).
Proof.
  intros Hlen Hd.
  pose proof (length_slice 1 6 data) as Hfive.
  replace (Nat.min (6 - 1) (String.length data - 1)) with 5 in Hfive by lia.
  apply Digits.int_literal_digits; [exact Hd | | unfold max_str_digits; lia].
  intros Hempty. rewrite Hempty in Hfive. discriminate.
Qed.

Ltac field :=
  repeat (rewrite lookup_insert_ne by discriminate);
  first [rewrite lookup_insert_eq | rewrite lookup_empty]; reflexivity.

Ltac strip_prefix data :=
  change ("Ok" ++ data) with (String "O" (String "k" data));
  change (startswith "Ok" (String "O" (String "k" data))) with true;
  change (String.length (String "O" (String "k" data)))
    with (S (S (String.length data)));
  change (slice_from 2 (String "O" (String "k" data))) with data.

End SystemInfo.

(** X25. The payload of the system-information reply is what follows
    ['Ok'].  With fewer than 13 characters [get_system_info] returns the
    empty dictionary and [parse_system_info] returns [None]: no field is
    filled in.  With 13 or more, [parse_system_info] always, and
    [get_system_info] when the characters at offsets 1..5 are digits,
    read the record at fixed offsets: offset 0 the power flag, 1..5 the
    lamp hours, 6..7 the source code, 8..11 the firmware, 12..13 the
    picture mode when the payload has 14 characters.  Each field
    depends on its own slice only; a source code that the table does
    not know is reported as ['Unknown (<code>)'] next to the other
    fields. *)
Theorem system_info_fixed_offsets (data : string)
    (self self' : ProjectorController) :
  _send_command "150 1" self = (Return ("Ok" ++ data), self') ->
  (String.length data < 13 ->
     get_system_info self = (Return ∅, self') /\
     parse_system_info ("Ok" ++ data) = Return None) /\
  (13 <= String.length data ->
     (digits_only (slice 1 6 data) = true ->
      exists info : gmap string pyval,
        get_system_info self = (Return info, self') /\
        info !! "power" =
          Some (PyStr (if String.eqb (slice 0 1 data) "1" then "On" else "Off")) /\
        info !! "lamp_hours" = Some (PyInt (decimal_value (slice 1 6 data) 0)) /\
        info !! "input_source" =
          Some (PyStr (dict_get system_source_map (slice 6 8 data)
                         ("Unknown (" ++ slice 6 8 data ++ ")"))) /\
        info !! "firmware" = Some (PyStr (slice 8 12 data)) /\
        info !! "picture_mode" =
          (if (14 <=? String.length data)%nat
           then Some (PyStr (dict_get system_mode_map (slice 12 14 data)
                               ("Unknown (" ++ slice 12 14 data ++ ")")))
           else None) /\
        (system_source_map !! slice 6 8 data = None ->
         info !! "input_source" =
           Some (PyStr ("Unknown (" ++ slice 6 8 data ++ ")")))) /\
     (exists info : gmap string string,
        parse_system_info ("Ok" ++ data) = Return (Some info) /\
        info !! "power_status" =
          Some (if String.eqb (slice 0 1 data) "1" then "On" else "Off") /\
        info !! "lamp_hours" = Some (slice 1 6 data) /\
        info !! "input_source_code" = Some (slice 6 8 data) /\
        info !! "firmware_version" = Some (slice 8 12 data) /\
        info !! "picture_mode_code" =
          Some (if (14 <=? String.length data)%nat then slice 12 14 data
                else "N/A") /\
        info !! "input_source" =
          Some (dict_get status_source_map (slice 6 8 data)
                  ("Unknown (" ++ slice 6 8 data ++ ")")) /\
        info !! "picture_mode" =
          Some (dict_get status_mode_map (slice 12 14 data)
                  ("Unknown (" ++ slice 12 14 data ++ ")")) /\
        (status_source_map !! slice 6 8 data = None ->
         info !! "input_source" =
           Some ("Unknown (" ++ slice 6 8 data ++ ")")))).
Proof.
  intros Hrun. split.
  - intros Hshort.
    assert (H15 : (15 <=? S (S (String.length data)))%nat = false)
      by (apply Nat.leb_gt; lia).
    assert (H13 : (13 <=? String.length data)%nat = false)
      by (apply Nat.leb_gt; lia).
    split.
    + unfold get_system_info, mbind, method_bind. rewrite Hrun.
      SystemInfo.strip_prefix data. rewrite H15. reflexivity.
    + unfold parse_system_info. SystemInfo.strip_prefix data.
      cbn [negb]. rewrite H13. reflexivity.
  - intros Hlen. split.
    + intros Hdigits.
      pose proof (SystemInfo.lamp_hours_digits data Hlen Hdigits) as Hint.
      assert (H15 : (15 <=? S (S (String.length data)))%nat = true)
        by (apply Nat.leb_le; lia).
      unfold get_system_info, mbind, method_bind. rewrite Hrun.
      SystemInfo.strip_prefix data. rewrite H15. cbn [andb].
      destruct data as [|c rest]; [cbn in Hlen; lia |].
      unfold py_index. cbn [String.get]. unfold py_int. rewrite Hint.
      unfold mret, method_ret. cbv beta iota.
      change (slice 0 1 (String c rest)) with (String c "").
      destruct (14 <=? String.length (String c rest))%nat;
        (eexists; split; [reflexivity |]);
        repeat (split; [SystemInfo.field |]);
        intros Hunknown; unfold dict_get;
        (rewrite lookup_insert_ne by discriminate);
        try (rewrite lookup_insert_ne by discriminate);
        rewrite lookup_insert_eq, Hunknown; reflexivity.
    + assert (H13 : (13 <=? String.length data)%nat = true)
        by (apply Nat.leb_le; lia).
      unfold parse_system_info. SystemInfo.strip_prefix data.
      cbn [negb]. rewrite H13.
      destruct data as [|c rest]; [cbn in Hlen; lia |].
      cbn [String.get]. cbv zeta.
      change (slice 0 1 (String c rest)) with (String c "").
      assert (Hflag : (if Ascii.eqb c "1" then "On" else "Off")
                      = (if String.eqb (String c "") "1" then "On" else "Off")).
      { cbn [String.eqb]. now destruct (Ascii.eqb c "1"). }
      rewrite Hflag.
      eexists; split; [reflexivity |];
        repeat (split; [SystemInfo.field |]).
      intros Hunknown. unfold dict_get. rewrite Hunknown.
      SystemInfo.field.
Qed.

Lemma system_info_fixed_offsets_witness :
  let self := bench (answering (fun _ => "Ok1001237072001001")) in
  let short := bench (answering (fun _ => "Ok123")) in
  _send_command "150 1" self
  = (Return ("Ok" ++ "1001237072001001"), snd (_send_command "150 1" self)) /\
  _send_command "150 1" short
  = (Return ("Ok" ++ "123"), snd (_send_command "150 1" short)) /\
  13 <= String.length "1001237072001001" /\
  String.length "123" < 13 /\
  digits_only (slice 1 6 "1001237072001001") = true /\
  fst (get_system_info short) = Return ∅ /\
  exists info : gmap string pyval,
    fst (get_system_info self) = Return info /\
    info !! "power" = Some (PyStr "On") /\
    info !! "lamp_hours" = Some (PyInt 123) /\
    info !! "input_source" = Some (PyStr "Unknown (70)") /\
    info !! "firmware" = Some (PyStr "7200").
Proof.
  intros self short.
  assert (Hrun : _send_command "150 1" self
                 = (Return ("Ok" ++ "1001237072001001"),
                    snd (_send_command "150 1" self)))
    by (vm_compute; reflexivity).
  assert (Hshort : _send_command "150 1" short
                   = (Return ("Ok" ++ "123"), snd (_send_command "150 1" short)))
    by (vm_compute; reflexivity).
  assert (Hlen : 13 <= String.length "1001237072001001") by (cbn; lia).
  assert (Hlen' : String.length "123" < 13) by (cbn; lia).
  split; [exact Hrun |]. split; [exact Hshort |].
  split; [exact Hlen |]. split; [exact Hlen' |]. split; [reflexivity |].
  split.
  - destruct (system_info_fixed_offsets "123" short _ Hshort) as [Hlt _].
    destruct (Hlt Hlen') as [Hempty _]. now rewrite Hempty.
  - destruct (system_info_fixed_offsets "1001237072001001" self _ Hrun)
      as [_ Hge].
    destruct (Hge Hlen) as [Hinfo _].
    destruct (Hinfo eq_refl)
      as (info & Hget & Hpower & Hlamp & Hsource & Hfirm & _ & _).
    exists info. rewrite Hget. repeat split; assumption.
Defined.

(** C8. A system-information payload of 16 characters with the unknown
    source code 70 at offsets 6..7 and a lamp-hours field that is not
    a number.  [parse_system_info] decodes each field from its own
    slice and reports ['Unknown (70)'] next to the others.
    [get_system_info] raises [ValueError] from the unguarded [int] of
    the lamp-hours field: one bad field fails the whole record, and
    the unknown source code is not reported at all.  With digits in
    the lamp-hours field the same source code is reported, and where
    the other queries decode a number they guard [int] and return
    [None]. *)
Theorem bad_lamp_hours_fail_the_whole_record :
  let self := bench (answering (fun _ => "Ok1abcde7072001001")) in
  let sound := bench (answering (fun _ => "Ok1001237072001001")) in
  let parsed (key : string) :=
    match parse_system_info "Ok1abcde7072001001" with
    | Return (Some info) => info !! key
    | _ => None
    end in
  fst (_send_command "150 1" self) = Return "Ok1abcde7072001001" /\
  fst (get_system_info self) = Raise ValueError /\
  parsed "power_status" = Some "On" /\
  parsed "lamp_hours" = Some "abcde" /\
  parsed "input_source" = Some "Unknown (70)" /\
  parsed "firmware_version" = Some "7200" /\
  match fst (get_system_info sound) with
  | Return info => info !! "input_source"
  | Raise _ => None
  end = Some (PyStr "Unknown (70)") /\
  fst (get_lamp_hours (bench (answering (fun _ => "Okabcde")))) = Return None.
Proof. vm_compute. repeat split. Qed.

(** ** Restoring the volume *)

Module Volume.

Lemma send_command_refuses (command : string) (self : ProjectorController) :
  (is_open self || openable self) = true ->
  all_ascii (device_id self) = false ->
  exists self', _send_command command self = (Raise UnicodeEncodeError, self').
Proof.
  intros Hconn Hid.
  assert (Hframe : all_ascii ("~" ++ device_id self ++ command ++ CR) = false).
  { rewrite !Text.all_ascii_app, Hid. reflexivity. }
  unfold _send_command. generalize (read_response 10 ""). intros reader.
  destruct (is_open self) eqn:Hopen.
  - unfold mbind, method_bind, mret, method_ret, encode_ascii,
      reset_input_buffer, reset_output_buffer, flush, write, raise.
    cbn. rewrite Hframe. cbn. eauto.
  - simpl in Hconn. unfold connect, sleep.
    unfold mbind, method_bind, mret, method_ret, encode_ascii,
      reset_input_buffer, reset_output_buffer, flush, write, raise.
    rewrite Hopen, Hconn. cbn. rewrite Hframe. cbn. eauto.
Qed.

(** What one exchange does to a controller that can reach the projector *)
Lemma exchange_effect (command : string) (self : ProjectorController) :
  usable self = true -> all_ascii command = true ->
  exists response self',
    _send_command command self = (Return response, self') /\
    tx self' = (tx self ++ [frame self command])%list /\
    device_id self' = device_id self /\
    usable self' = true.
Proof.
  intros Huse Hcmd.
  destruct (Reader.send_command_run command self Huse Hcmd)
    as (k & _ & Hrun & _).
  destruct (Reader.fields_iter_advance k (sent command self))
    as (Hid & Hopen & _ & _ & _).
  eexists _, _. split; [exact Hrun |].
  split; [apply Frames.tx_after_exchange |].
  split; [exact Hid |].
  unfold usable. rewrite Hopen, Hid. cbn.
  unfold usable in Huse. now apply andb_prop in Huse as [_ ->].
Qed.

(** A response that is not empty came through a usable port. *)
Lemma answered_means_usable (command response : string)
    (self self' : ProjectorController) :
  _send_command command self = (Return response, self') ->
  response <> "" -> usable self = true.
Proof.
  intros Hrun Hne. unfold usable.
  destruct (is_open self || openable self) eqn:Hconn.
  - destruct (all_ascii (device_id self)) eqn:Hid; [reflexivity |].
    destruct (send_command_refuses command self Hconn Hid) as (s & Hraise).
    congruence.
  - apply orb_false_elim in Hconn as [Hopen Hcan].
    rewrite (Reader.send_command_unconnected command self Hopen Hcan) in Hrun.
    congruence.
Qed.

End Volume.

Module Fans.

Lemma read_fan_effect (fan_num : Z) (fan_name : string)
    (fans : gmap string (option Z)) (self : ProjectorController) :
  usable self = true ->
  exists fans' self',
    read_fan (fan_num, fan_name) fans self = (Return fans', self') /\
    tx self' = (tx self ++ [frame self ("351 " ++ str_of_int fan_num)])%list /\
    device_id self' = device_id self /\
    usable self' = true.
Proof.
  intros Huse.
  assert (Hcmd : all_ascii ("351 " ++ str_of_int fan_num) = true).
  { now rewrite Text.all_ascii_app, Calls.all_ascii_str_of_int. }
  destruct (Volume.exchange_effect _ self Huse Hcmd)
    as (r & s & Hrun & Htx & Hid & Huse').
  unfold read_fan, mbind at 1, method_bind at 1. rewrite Hrun.
  destruct (startswith "Ok" r); [| eauto 10].
  unfold try_except, mbind, method_bind, py_int, mret, method_ret, raise.
  destruct (int_literal (slice_from 2 r)); eauto 10.
Qed.

Lemma fan_frames (self : ProjectorController) :
  usable self = true ->
  tx (snd (get_fan_speeds self)) =
  (tx self ++ [frame self "351 0"; frame self "351 1"; frame self "351 2"])%list.
Proof.
  intros Huse. unfold get_fan_speeds, fan_table. cbn [for_each].
  destruct (read_fan_effect 0 "System Fan 1" ∅ self Huse)
    as (f1 & s1 & H1 & Htx1 & Hid1 & Huse1).
  destruct (read_fan_effect 1 "System Fan 2" f1 s1 Huse1)
    as (f2 & s2 & H2 & Htx2 & Hid2 & Huse2).
  destruct (read_fan_effect 2 "Optical Fan" f2 s2 Huse2)
    as (f3 & s3 & H3 & Htx3 & Hid3 & Huse3).
  unfold mbind, method_bind. rewrite H1, H2, H3. cbn [snd mret method_ret].
  rewrite Htx3, Htx2, Htx1. unfold frame. rewrite Hid2, Hid1.
  rewrite <- !app_assoc. reflexivity.
Qed.

End Fans.

(** C2, as the specification states it, fails: the frame that
    [set_brightness(5)] writes is not the address, a feature code, a
    space, a sub-code, a space and the argument. *)
Lemma brightness_frame_has_two_fields :
  ~ exists feature_code sub_code : string,
      tx (snd (set_brightness 5 (bench silent)))
      = [encode_spec "00" feature_code sub_code (Some 5%Z)].
Proof.
  intros (feature_code & sub_code & Heq).
  assert (Htx : tx (snd (set_brightness 5 (bench silent))) = ["~0021 5" ++ CR])
    by (vm_compute; reflexivity).
  rewrite Htx in Heq. injection Heq as Heq.
  apply (f_equal (count_char " ")) in Heq.
  unfold encode_spec in Heq.
  rewrite !Frames.count_char_app in Heq.
  change (count_char " " "21 5") with 1 in Heq.
  change (count_char " " " ") with 1 in Heq.
  lia.
Qed.

(** C2, amended. Whatever the address (as long as it encodes as ASCII
    and the port can be opened), an operation writes exactly one frame:
    ['~'], the address, the feature-code digits, one space, one field
    and a carriage return.  The field is the fixed sub-code of the
    operation when it takes no argument, and the decimal argument
    itself when it takes one; no frame has a third field.
    [get_fan_speeds] writes three such frames, one per fan. *)
Theorem frames_have_one_field (self : ProjectorController) :
  usable self = true ->
  (forall op : setter, accepted op = true ->
     tx (snd (call_setter op self)) =
     (tx self ++ [encode_spec (device_id self) (setter_feature op)
                    (setter_field op) None])%list) /\
  (forall q : query,
     tx (snd (call_query q self)) =
     (tx self ++ [encode_spec (device_id self) (query_feature q)
                    (query_field q) None])%list) /\
  tx (snd (get_fan_speeds self)) =
    (tx self ++ [encode_spec (device_id self) "351" "0" None;
                 encode_spec (device_id self) "351" "1" None;
                 encode_spec (device_id self) "351" "2" None])%list /\
  (forall value : Z, (0 <= value <= 10)%Z ->
     tx (snd (set_brightness value self)) =
     (tx self ++
      [("~" ++ device_id self ++ "21 " ++ str_of_int value ++ CR)%string])%list).
Proof.
  intros Huse.
  assert (Hset : forall op : setter, accepted op = true ->
            tx (snd (call_setter op self)) =
            (tx self ++ [encode_spec (device_id self) (setter_feature op)
                           (setter_field op) None])%list).
  { intros op Hok.
    destruct (Frames.call_setter_state op self Hok Huse) as (k & ->).
    rewrite Frames.tx_after_exchange. unfold setter_command.
    now rewrite Frames.frame_as_spec. }
  split; [exact Hset |]. split; [| split].
  - intros q.
    destruct (Reader.send_command_run (query_command q) self Huse
                (Frames.all_ascii_query q)) as (k & _ & Hrun & _).
    rewrite (Frames.call_query_state q self _ _ Hrun).
    rewrite Frames.tx_after_exchange. unfold query_command.
    now rewrite Frames.frame_as_spec.
  - rewrite (Fans.fan_frames self Huse).
    change "351 0" with ("351" ++ " " ++ "0").
    change "351 1" with ("351" ++ " " ++ "1").
    change "351 2" with ("351" ++ " " ++ "2").
    now rewrite !Frames.frame_as_spec.
  - intros value Hrange.
    assert (Hok : accepted (Brightness value) = true).
    { cbn. apply andb_true_iff. rewrite !Z.leb_le. lia. }
    change (set_brightness value) with (call_setter (Brightness value)).
    rewrite (Hset (Brightness value) Hok). reflexivity.
Qed.

Lemma frames_have_one_field_witness :
  usable (bench silent) = true /\
  tx (snd (call_setter (Brightness 5) (bench silent))) = ["~0021 5" ++ CR] /\
  tx (snd (call_query GetVolume (bench silent))) = ["~00120 1" ++ CR].
Proof.
  split; [reflexivity |].
  destruct (frames_have_one_field (bench silent) eq_refl) as (Hset & Hask & _ & _).
  split; [exact (Hset (Brightness 5%Z) eq_refl) | exact (Hask GetVolume)].
Defined.

Module Restore.

Lemma get_volume_read (self self1 : ProjectorController) (current : Z) :
  get_volume self = (Return (Some current), self1) ->
  usable self1 = true /\
  tx self1 = (tx self ++ [frame self "120 1"])%list /\
  device_id self1 = device_id self.
Proof.
  unfold get_volume, mbind, method_bind.
  destruct (_send_command "120 1" self) as [[response|e] s] eqn:Hrun;
    [| discriminate].
  unfold decode_int.
  destruct (startswith "Ok" response) eqn:Hpre; [| discriminate].
  intros Hdec.
  assert (Hstate : s = self1).
  { unfold try_except, mbind, method_bind, py_int, mret, method_ret, raise
      in Hdec.
    destruct (int_literal (slice_from 2 response)); congruence. }
  subst s.
  assert (Hne : response <> "") by (intros ->; discriminate).
  pose proof (Volume.answered_means_usable _ _ _ _ Hrun Hne) as Huse.
  destruct (Volume.exchange_effect "120 1" self Huse eq_refl)
    as (r & s & Hrun' & Htx & Hid & Huse').
  rewrite Hrun in Hrun'. injection Hrun' as _ <-. auto.
Qed.

Lemma step_effect (command : string) (self : ProjectorController) :
  usable self = true -> all_ascii command = true ->
  exists ok self',
    (response ← _send_command command; mret (_check_success response)) self
    = (Return ok, self') /\
    tx self' = (tx self ++ [frame self command])%list /\
    device_id self' = device_id self /\
    usable self' = true.
Proof.
  intros Huse Hcmd.
  destruct (Volume.exchange_effect command self Huse Hcmd)
    as (r & s & Hrun & Hrest).
  exists (_check_success r), s. unfold mbind, method_bind.
  rewrite Hrun. auto.
Qed.

Lemma for_range_effect (command : string) (n : nat) :
  all_ascii command = true ->
  forall self : ProjectorController,
    usable self = true ->
    exists self',
      for_range n (response ← _send_command command;
                   mret (_check_success response)) self
      = (Return tt, self') /\
      tx self' = (tx self ++ repeat (frame self command) n)%list /\
      device_id self' = device_id self /\
      usable self' = true.
Proof.
  intros Hcmd. induction n as [|n IH]; intros self Huse.
  - exists self. cbn [for_range repeat]. rewrite app_nil_r. auto.
  - destruct (step_effect command self Huse Hcmd)
      as (ok & s & Hstep & Htx & Hid & Huse').
    destruct (IH s Huse') as (s' & Hloop & Htx' & Hid' & Huse'').
    exists s'. cbn [for_range]. unfold mbind at 1, method_bind at 1.
    rewrite Hstep, Hloop. repeat split; auto; [| congruence].
    rewrite Htx', Htx. unfold frame. rewrite Hid.
    cbn [repeat]. now rewrite <- app_assoc.
Qed.

(** The volume block, once the current volume has been read *)
Lemma apply_volume_run (audio : gmap string pyval) (results : Results)
    (self self1 : ProjectorController) (target current : Z) :
  audio !! "volume" = Some (PyInt target) ->
  get_volume self = (Return (Some current), self1) ->
  exists self2,
    apply_volume audio results self
    = (Return (append_success results (volume_item target current)), self2) /\
    tx self2 =
      (tx self1 ++ repeat (frame self (step_command target current))
                     (Z.abs_nat (target - current)))%list.
Proof.
  intros Hkey Hread.
  destruct (get_volume_read self self1 current Hread) as (Huse & _ & Hid).
  unfold apply_volume. rewrite Hkey. cbn [is_not_none].
  unfold mbind at 1, method_bind at 1. rewrite Hread.
  cbn [as_int]. unfold mbind at 1, method_bind at 1, mret at 1, method_ret at 1.
  unfold volume_item, step_command, py_str, range_len, frame.
  rewrite <- Hid.
  destruct (Z.ltb_spec current target) as [Hup | Hnotup].
  - destruct (for_range_effect "140 18" (Z.to_nat (target - current)) eq_refl
                self1 Huse) as (s & Hloop & Htx & _).
    exists s. unfold volume_up. unfold mbind at 1, method_bind at 1.
    rewrite Hloop.
    replace (target =? current)%Z with false by (symmetry; apply Z.eqb_neq; lia).
    rewrite Text.app_empty_r. split; [reflexivity |].
    rewrite Htx. unfold frame. do 2 f_equal. lia.
  - destruct (Z.ltb_spec target current) as [Hdown | Hsame].
    + destruct (for_range_effect "140 17" (Z.to_nat (current - target)) eq_refl
                  self1 Huse) as (s & Hloop & Htx & _).
      exists s. unfold volume_down. unfold mbind at 1, method_bind at 1.
      rewrite Hloop.
      replace (target =? current)%Z with false
        by (symmetry; apply Z.eqb_neq; lia).
      rewrite Text.app_empty_r. split; [reflexivity |].
      rewrite Htx. unfold frame. do 2 f_equal. lia.
    + exists self1.
      replace (target =? current)%Z with true by (symmetry; apply Z.eqb_eq; lia).
      split; [reflexivity |].
      replace (Z.abs_nat (target - current)) with 0 by lia.
      cbn [repeat]. now rewrite app_nil_r.
Qed.

End Restore.

(** C9. Restoring a stored volume reads the current volume in one
    exchange and then writes exactly [|target - current|] step frames
    and nothing else: volume-up frames (['140 18']) when the target is
    above the current volume, volume-down frames (['140 17']) when it
    is below, none when they are equal. *)
Theorem volume_restore_step_count (audio : gmap string pyval)
    (results : Results) (self self1 : ProjectorController)
    (target current : Z) :
  audio !! "volume" = Some (PyInt target) ->
  get_volume self = (Return (Some current), self1) ->
  exists (results' : Results) (self2 : ProjectorController)
         (steps : list bytes),
    apply_volume audio results self = (Return results', self2) /\
    tx self1 = (tx self ++ [frame self "120 1"])%list /\
    tx self2 = (tx self1 ++ steps)%list /\
    length steps = Z.abs_nat (target - current) /\
    ((current < target)%Z ->
       steps = repeat (frame self "140 18") (Z.to_nat (target - current))) /\
    ((target < current)%Z ->
       steps = repeat (frame self "140 17") (Z.to_nat (current - target))) /\
    (target = current -> steps = []).
Proof.
  intros Hkey Hread.
  destruct (Restore.apply_volume_run audio results self self1 target current
              Hkey Hread) as (self2 & Hrun & Htx).
  destruct (Restore.get_volume_read self self1 current Hread)
    as (_ & Htx1 & _).
  eexists _, self2, _. split; [exact Hrun |]. split; [exact Htx1 |].
  split; [exact Htx |]. split; [apply repeat_length |].
  unfold step_command. repeat split.
  - intros Hup.
    replace (current <? target)%Z with true by (symmetry; apply Z.ltb_lt; lia).
    f_equal. lia.
  - intros Hdown.
    replace (current <? target)%Z with false by (symmetry; apply Z.ltb_ge; lia).
    f_equal. lia.
  - intros ->. now rewrite Z.sub_diag.
Qed.

Lemma volume_restore_step_count_witness :
  let self := bench (volume_three "P") in
  let up := "~00140 18" ++ CR in
  let down := "~00140 17" ++ CR in
  let query := "~00120 1" ++ CR in
  ({["volume" := PyInt 7]} : gmap string pyval) !! "volume" = Some (PyInt 7) /\
  get_volume self = (Return (Some 3%Z), snd (get_volume self)) /\
  tx (snd (apply_volume {["volume" := PyInt 7]}
             {| success := []; failed := []; skipped := [] |} self))
  = [query; up; up; up; up] /\
  tx (snd (apply_volume {["volume" := PyInt 1]}
             {| success := []; failed := []; skipped := [] |} self))
  = [query; down; down] /\
  tx (snd (apply_volume {["volume" := PyInt 3]}
             {| success := []; failed := []; skipped := [] |} self))
  = [query].
Proof.
  intros self up down query.
  assert (Hread : get_volume self = (Return (Some 3%Z), snd (get_volume self)))
    by (vm_compute; reflexivity).
  assert (Hrun : forall target : Z,
            exists steps,
              tx (snd (apply_volume {["volume" := PyInt target]}
                         {| success := []; failed := []; skipped := [] |} self))
              = (query :: steps) /\
              ((3 < target)%Z -> steps = repeat up (Z.to_nat (target - 3))) /\
              ((target < 3)%Z -> steps = repeat down (Z.to_nat (3 - target))) /\
              (target = 3%Z -> steps = [])).
  { intros target.
    destruct (volume_restore_step_count {["volume" := PyInt target]}
                {| success := []; failed := []; skipped := [] |} self _ target 3
                (lookup_singleton_eq _ _) Hread)
      as (results' & self2 & steps & Happly & Htx1 & Htx2 & _ & Hup & Hdown & Hsame).
    exists steps. rewrite Happly. cbn [snd]. rewrite Htx2, Htx1.
    repeat split; assumption. }
  split; [apply lookup_singleton_eq |]. split; [exact Hread |].
  split; [| split].
  - destruct (Hrun 7%Z) as (steps & -> & Hup & _). now rewrite Hup.
  - destruct (Hrun 1%Z) as (steps & -> & _ & Hdown & _). now rewrite Hdown.
  - destruct (Hrun 3%Z) as (steps & -> & _ & _ & Hsame). now rewrite Hsame.
Defined.

(** C10. Once the current volume has been read, the volume block ends
    by appending its item to the ['success'] list and leaves ['failed']
    and ['skipped'] as they were, whatever the projector answers to the
    step exchanges: the results of [volume_up] and [volume_down] are
    not looked at. *)
Theorem volume_restore_always_recorded_as_success
    (audio : gmap string pyval) (results : Results)
    (self self1 : ProjectorController) (target current : Z) :
  audio !! "volume" = Some (PyInt target) ->
  get_volume self = (Return (Some current), self1) ->
  exists (results' : Results) (self2 : ProjectorController),
    apply_volume audio results self = (Return results', self2) /\
    success results' = (success results ++ [volume_item target current])%list /\
    failed results' = failed results /\
    skipped results' = skipped results.
Proof.
  intros Hkey Hread.
  destruct (Restore.apply_volume_run audio results self self1 target current
              Hkey Hread) as (self2 & Hrun & _).
  eexists _, self2. split; [exact Hrun |]. repeat split.
Qed.

Lemma volume_restore_always_recorded_as_success_witness :
  let self := bench (volume_three "F") in
  let start := {| success := []; failed := []; skipped := ["power.state"] |} in
  ({["volume" := PyInt 7]} : gmap string pyval) !! "volume" = Some (PyInt 7) /\
  get_volume self = (Return (Some 3%Z), snd (get_volume self)) /\
  fst (volume_up (snd (get_volume self))) = Return false /\
  fst (apply_volume {["volume" := PyInt 7]} start self)
  = Return {| success := ["audio.volume=7"]; failed := [];
              skipped := ["power.state"] |}.
Proof.
  intros self start.
  assert (Hread : get_volume self = (Return (Some 3%Z), snd (get_volume self)))
    by (vm_compute; reflexivity).
  split; [apply lookup_singleton_eq |]. split; [exact Hread |].
  split; [vm_compute; reflexivity |].
  destruct (volume_restore_always_recorded_as_success {["volume" := PyInt 7]}
              start self _ 7 3 (lookup_singleton_eq _ _) Hread)
    as (results' & self2 & Happly & Hsucc & Hfail & Hskip).
  rewrite Happly. cbn [fst]. destruct results' as [s f k].
  cbn in Hsucc, Hfail, Hskip. now subst.
Defined.

(** * Further properties of the code *)

(** ** A port that cannot be reached, an address that does not encode *)

Module Unreachable.

Lemma send_command_encode_error (command : string)
    (self : ProjectorController) :
  (is_open self || openable self) = true ->
  all_ascii (device_id self) = false ->
  exists self',
    _send_command command self = (Raise UnicodeEncodeError, self') /\
    tx self' = tx self /\ is_open self' = true /\
    device_id self' = device_id self.
Proof.
  intros Hconn Hid.
  assert (Hframe : all_ascii ("~" ++ device_id self ++ command ++ CR) = false).
  { rewrite !Text.all_ascii_app, Hid. reflexivity. }
  unfold _send_command. generalize (read_response 10 ""). intros reader.
  destruct (is_open self) eqn:Hopen.
  - unfold mbind, method_bind, mret, method_ret, encode_ascii,
      reset_input_buffer, reset_output_buffer, flush, write, raise.
    cbn. rewrite Hframe. cbn. eexists. repeat split. exact Hopen.
  - simpl in Hconn. unfold connect, sleep.
    unfold mbind, method_bind, mret, method_ret, encode_ascii,
      reset_input_buffer, reset_output_buffer, flush, write, raise.
    rewrite Hopen, Hconn. cbn. rewrite Hframe. cbn. eexists. repeat split.
Qed.

End Unreachable.

(** X1. When the port is closed and cannot be opened, every setter
    returns [False] (whatever its argument), every query returns its
    "unavailable" value ([None], or an empty dictionary), the fan query
    reports [None] for each of the three fans, nothing raises, and the
    controller is left exactly as it was: nothing is written, no time
    is spent polling. *)
Theorem unreachable_port_fails_quietly (self : ProjectorController) :
  is_open self = false -> openable self = false ->
  (forall op : setter, call_setter op self = (Return false, self)) /\
  (forall q : query, call_query q self = (Return (unavailable q), self)) /\
  get_fan_speeds self =
    (Return (<["Optical Fan" := None]>
             (<["System Fan 2" := None]>
              (<["System Fan 1" := None]> ∅))), self).
Proof.
  intros Hopen Hcan.
  pose proof (fun c => Reader.send_command_unconnected c self Hopen Hcan) as Hq.
  split; [| split].
  - intros op.
    destruct op; cbn [call_setter];
      unfold power_on, power_off, av_mute_on, av_mute_off, audio_mute_on,
        audio_mute_off, freeze_on, freeze_off, set_source_hdmi, set_source_usb,
        set_source_sd_card, set_source_android_home,
        set_projection_front_desktop, set_projection_rear_desktop,
        set_projection_front_ceiling, set_projection_rear_ceiling,
        set_display_mode_presentation, set_display_mode_bright,
        set_display_mode_cinema, set_display_mode_srgb, set_display_mode_photo,
        set_display_mode_eco, set_display_mode_3d, set_display_mode_game,
        set_display_mode_hdr, set_display_mode_hlg, set_display_mode_ai_pq,
        set_display_mode_wcg, set_brightness, set_contrast,
        set_color_temp_standard, set_color_temp_cold, set_color_temp_warm,
        set_aspect_4_3, set_aspect_16_9, set_aspect_16_10, set_aspect_auto,
        set_auto_keystone_on, set_auto_keystone_off,
        set_digital_zoom_50, set_digital_zoom_75, set_digital_zoom_100,
        set_digital_zoom_125, set_digital_zoom_150, set_digital_zoom_175,
        set_digital_zoom_200, set_digital_zoom,
        volume_up, volume_down, set_language, remote_menu, remote_up,
        remote_down, remote_left, remote_right, remote_enter,
        set_digital_signage_on, set_digital_signage_off, factory_reset,
        reset_osd_settings;
      try match goal with
          | |- context [negb ?b] => destruct b; [| reflexivity]
          end;
      cbn [negb]; unfold mbind, method_bind; rewrite Hq; reflexivity.
  - intros q.
    destruct q; cbn [call_query unavailable]; unfold fmap, method_fmap;
      unfold get_power_state, get_av_mute_state, get_audio_mute_state,
        get_input_source, get_projection_mode, get_display_mode,
        get_brightness, get_contrast, get_color_temperature, get_aspect_ratio,
        get_v_keystone, get_digital_zoom, get_volume, get_system_info,
        get_software_version, get_ddp_software_version,
        get_android_software_version, get_lamp_hours, get_system_hours,
        get_temperature, get_mac_address, get_device_id, get_network_status,
        get_signal_status, get_resolution, get_refresh_rate,
        get_digital_signage_status;
      unfold mbind, method_bind; rewrite Hq; reflexivity.
  - assert (Hfan : forall fan_num fan_name fans,
              read_fan (fan_num, fan_name) fans self
              = (Return (<[fan_name := None]> fans), self)).
    { intros. unfold read_fan, mbind, method_bind. rewrite Hq. reflexivity. }
    unfold get_fan_speeds, fan_table. cbn [for_each].
    unfold mbind, method_bind. rewrite !Hfan. reflexivity.
Qed.

Lemma unreachable_port_fails_quietly_witness :
  let dead :=
    {| device_id := "00"; is_open := false; openable := false; rx := "";
       tx := []; clock := 0; line := silent |} in
  is_open dead = false /\ openable dead = false /\
  power_on dead = (Return false, dead) /\
  get_volume dead = (Return None, dead).
Proof.
  intros dead. split; [reflexivity |]. split; [reflexivity |].
  destruct (unreachable_port_fails_quietly dead eq_refl eq_refl)
    as (Hset & Hask & _).
  split; [exact (Hset PowerOn) |].
  pose proof (Hask GetVolume) as Hvol. cbn [call_query unavailable] in Hvol.
  unfold fmap, method_fmap in Hvol.
  destruct (get_volume dead) as [[v|e] s]; [| discriminate].
  injection Hvol as -> ->. reflexivity.
Defined.

(** X2. When the port can be reached but the device address holds a
    character outside ASCII, [_send_command] raises
    [UnicodeEncodeError] after it has opened the port and before it has
    written anything, and so does every setter that passes its range
    check and every query. *)
Theorem address_outside_ascii_raises (self : ProjectorController) :
  (is_open self || openable self) = true ->
  all_ascii (device_id self) = false ->
  (forall command : string,
     exists self',
       _send_command command self = (Raise UnicodeEncodeError, self') /\
       tx self' = tx self /\ is_open self' = true) /\
  (forall op : setter, accepted op = true ->
     exists self',
       call_setter op self = (Raise UnicodeEncodeError, self') /\
       tx self' = tx self) /\
  (forall q : query,
     exists self',
       call_query q self = (Raise UnicodeEncodeError, self') /\
       tx self' = tx self).
Proof.
  intros Hconn Hid.
  pose proof (fun c => Unreachable.send_command_encode_error c self Hconn Hid)
    as Hraise.
  split; [| split].
  - intros command. destruct (Hraise command) as (s & Hrun & Htx & Hopen & _).
    eauto.
  - intros op Hok. rewrite (Calls.call_setter_unfold op Hok).
    destruct (Hraise (setter_command op)) as (s & Hrun & Htx & _).
    exists s. unfold mbind, method_bind. rewrite Hrun. auto.
  - intros q.
    destruct (Hraise (query_command q)) as (s & Hrun & Htx & _).
    exists s. split; [| exact Htx].
    destruct q; Frames.literal_command Hrun; cbn [call_query];
      unfold fmap, method_fmap;
      unfold get_power_state, get_av_mute_state, get_audio_mute_state,
        get_input_source, get_projection_mode, get_display_mode,
        get_brightness, get_contrast, get_color_temperature, get_aspect_ratio,
        get_v_keystone, get_digital_zoom, get_volume, get_system_info,
        get_software_version, get_ddp_software_version,
        get_android_software_version, get_lamp_hours, get_system_hours,
        get_temperature, get_mac_address, get_device_id, get_network_status,
        get_signal_status, get_resolution, get_refresh_rate,
        get_digital_signage_status;
      unfold mbind, method_bind; rewrite Hrun; reflexivity.
Qed.

Lemma address_outside_ascii_raises_witness :
  let self :=
    {| device_id := String "233" "1"; is_open := false; openable := true;
       rx := ""; tx := []; clock := 0; line := silent |} in
  (is_open self || openable self) = true /\
  all_ascii (device_id self) = false /\
  fst (power_on self) = Raise UnicodeEncodeError /\
  tx (snd (power_on self)) = [].
Proof.
  intros self. split; [reflexivity |]. split; [reflexivity |].
  destruct (address_outside_ascii_raises self eq_refl eq_refl) as (_ & Hset & _).
  destruct (Hset PowerOn eq_refl) as (s & Hrun & Htx).
  change (call_setter PowerOn) with power_on in Hrun.
  rewrite Hrun. split; [reflexivity | exact Htx].
Defined.

(** ** White space around a response *)

Module Strip.

Lemma length_lstrip (f : ascii -> bool) (s : string) :
  String.length (lstrip f s) <= String.length s.
Proof.
  induction s as [|c rest IH]; [reflexivity |].
  cbn [lstrip String.length]. destruct (f c); cbn [String.length]; lia.
Qed.

Lemma length_rstrip (f : ascii -> bool) (s : string) :
  String.length (rstrip f s) <= String.length s.
Proof.
  induction s as [|c rest IH]; [reflexivity |].
  cbn [rstrip String.length].
  destruct (rstrip f rest) as [|d kept]; [destruct (f c) |];
    cbn [String.length] in *; lia.
Qed.

Lemma rstrip_cons (f : ascii -> bool) (c : ascii) (rest : string) :
  f c = false -> exists kept, rstrip f (String c rest) = String c kept.
Proof.
  intros Hc. cbn [rstrip]. rewrite Hc.
  destruct (rstrip f rest); eauto.
Qed.

Lemma rstrip_idem (f : ascii -> bool) (s : string) :
  rstrip f (rstrip f s) = rstrip f s.
Proof.
  induction s as [|c rest IH]; [reflexivity |].
  cbn [rstrip]. destruct (rstrip f rest) as [|d kept] eqn:Hk.
  - destruct (f c) eqn:Hc; [reflexivity |]. cbn [rstrip]. now rewrite Hc.
  - change (rstrip f (String c (String d kept)))
      with (match rstrip f (String d kept) with
            | EmptyString => if f c then EmptyString else String c EmptyString
            | String e k => String c (String e k)
            end).
    now rewrite IH.
Qed.

Lemma lstrip_head (f : ascii -> bool) (s : string) :
  match lstrip f s with
  | EmptyString => True
  | String c _ => f c = false
  end.
Proof.
  induction s as [|c rest IH]; [exact I |].
  cbn [lstrip]. destruct (f c) eqn:Hc; [exact IH | exact Hc].
Qed.

Lemma strip_idem (s : string) : strip (strip s) = strip s.
Proof.
  unfold strip. pose proof (lstrip_head py_isspace s) as Hhead.
  destruct (lstrip py_isspace s) as [|c rest]; [reflexivity |].
  destruct (rstrip_cons py_isspace c rest Hhead) as (kept & Hk).
  assert (Hl : lstrip py_isspace (rstrip py_isspace (String c rest))
               = rstrip py_isspace (String c rest)).
  { rewrite Hk. cbn [lstrip]. now rewrite Hhead. }
  rewrite Hl. apply rstrip_idem.
Qed.

Lemma all_ascii_lstrip (f : ascii -> bool) (s : string) :
  all_ascii s = true -> all_ascii (lstrip f s) = true.
Proof.
  induction s as [|c rest IH]; [reflexivity |].
  intros H. cbn [lstrip]. destruct (f c); [| exact H].
  cbn [all_ascii] in H. apply andb_prop in H as [_ H]. auto.
Qed.

Lemma all_ascii_rstrip (f : ascii -> bool) (s : string) :
  all_ascii s = true -> all_ascii (rstrip f s) = true.
Proof.
  induction s as [|c rest IH]; [reflexivity |].
  intros H. cbn [all_ascii] in H. apply andb_prop in H as [Hc Hrest].
  cbn [rstrip]. specialize (IH Hrest).
  destruct (rstrip f rest) as [|d kept].
  - destruct (f c); [reflexivity |]. cbn [all_ascii]. now rewrite Hc.
  - cbn [all_ascii] in *. now rewrite Hc, IH.
Qed.

Lemma all_ascii_decode (b : bytes) : all_ascii (decode_ascii_ignore b) = true.
Proof.
  induction b as [|c rest IH]; [reflexivity |].
  cbn [decode_ascii_ignore]. destruct (is_ascii c) eqn:Hc; [| exact IH].
  cbn [all_ascii]. now rewrite Hc, IH.
Qed.

Lemma decode_ascii (b : bytes) :
  all_ascii b = true -> decode_ascii_ignore b = b.
Proof.
  induction b as [|c rest IH]; [reflexivity |].
  intros H. cbn [all_ascii] in H. apply andb_prop in H as [Hc Hrest].
  cbn [decode_ascii_ignore]. now rewrite Hc, (IH Hrest).
Qed.

Lemma lstrip_pad (pad t : string) :
  all_space pad = true ->
  lstrip py_isspace (pad ++ t) = lstrip py_isspace t.
Proof.
  induction pad as [|c pad IH]; [reflexivity |].
  intros H. cbn [all_space] in H. apply andb_prop in H as [Hc Hpad].
  rewrite Text.app_cons. cbn [lstrip]. rewrite Hc. auto.
Qed.

Lemma rstrip_all_space (pad : string) :
  all_space pad = true -> rstrip py_isspace pad = "".
Proof.
  induction pad as [|c pad IH]; [reflexivity |].
  intros H. cbn [all_space] in H. apply andb_prop in H as [Hc Hpad].
  cbn [rstrip]. now rewrite (IH Hpad), Hc.
Qed.

Lemma rstrip_pad (pad t : string) :
  all_space pad = true ->
  rstrip py_isspace (t ++ pad) = rstrip py_isspace t.
Proof.
  intros Hpad. induction t as [|c t IH].
  - rewrite Text.app_nil. now apply rstrip_all_space.
  - rewrite Text.app_cons. cbn [rstrip]. now rewrite IH.
Qed.

(** A trimmed text is left alone by both halves of [strip]. *)
Lemma trimmed_fixed (core : string) :
  trimmed core = true ->
  lstrip py_isspace core = core /\ rstrip py_isspace core = core.
Proof.
  unfold trimmed. rewrite String.eqb_eq. intros Hfix.
  assert (Hl : lstrip py_isspace core = core).
  { destruct core as [|c rest]; [reflexivity |].
    cbn [lstrip]. destruct (py_isspace c) eqn:Hc; [| reflexivity].
    exfalso. unfold strip in Hfix. cbn [lstrip] in Hfix. rewrite Hc in Hfix.
    pose proof (length_rstrip py_isspace (lstrip py_isspace rest)) as H1.
    pose proof (length_lstrip py_isspace rest) as H2.
    rewrite Hfix in H1. cbn [String.length] in H1. lia. }
  split; [exact Hl |]. unfold strip in Hfix. now rewrite Hl in Hfix.
Qed.

Lemma strip_padded (pad1 core pad2 : string) :
  all_space pad1 = true -> all_space pad2 = true -> trimmed core = true ->
  strip (pad1 ++ core ++ pad2) = core.
Proof.
  intros H1 H2 Hcore. destruct (trimmed_fixed core Hcore) as [Hl Hr].
  unfold strip. rewrite (lstrip_pad pad1 _ H1).
  destruct core as [|c rest].
  - rewrite Text.app_nil.
    assert (Hpad : lstrip py_isspace pad2 = "").
    { clear -H2. induction pad2 as [|d pad IH]; [reflexivity |].
      cbn [all_space] in H2. apply andb_prop in H2 as [Hd Hp].
      cbn [lstrip]. rewrite Hd. auto. }
    now rewrite Hpad.
  - assert (Hc : py_isspace c = false).
    { cbn [lstrip] in Hl. destruct (py_isspace c); [| reflexivity].
      exfalso. pose proof (length_lstrip py_isspace rest) as Hlen.
      rewrite Hl in Hlen. cbn [String.length] in Hlen. lia. }
    rewrite Text.app_cons. cbn [lstrip]. rewrite Hc.
    rewrite <- Text.app_cons. rewrite (rstrip_pad pad2 _ H2). exact Hr.
Qed.

Lemma startswith_app_l (needle s b : string) :
  startswith needle s = true -> startswith needle (s ++ b) = true.
Proof.
  revert s. induction needle as [|c needle IH]; intros s H; [reflexivity |].
  destruct s as [|d s]; [discriminate |].
  rewrite Text.app_cons. cbn [startswith] in *.
  apply andb_prop in H as [Hc Hrest]. now rewrite Hc, (IH s Hrest).
Qed.

Lemma py_in_app_l (needle s b : string) :
  py_in needle s = true -> py_in needle (s ++ b) = true.
Proof.
  induction s as [|c s IH]; intros H.
  - cbn [py_in] in H. rewrite orb_false_r in H.
    rewrite Text.app_nil. destruct needle; [| discriminate].
    destruct b; reflexivity.
  - rewrite Text.app_cons. cbn [py_in] in *.
    apply orb_prop in H as [H | H].
    + rewrite <- Text.app_cons, (startswith_app_l _ _ b H). reflexivity.
    + rewrite (IH H). apply orb_true_r.
Qed.

Lemma py_in_app_r (needle a s : string) :
  py_in needle s = true -> py_in needle (a ++ s) = true.
Proof.
  intros H. induction a as [|c a IH]; [exact H |].
  rewrite Text.app_cons. cbn [py_in]. rewrite IH. apply orb_true_r.
Qed.

Lemma has_marker_padded (pad1 core pad2 : string) :
  has_marker core = true -> has_marker (pad1 ++ core ++ pad2) = true.
Proof.
  unfold has_marker. intros H.
  apply orb_prop in H as [H | H]; [apply orb_prop in H as [H | H] |];
    apply (py_in_app_l _ _ pad2) in H; apply (py_in_app_r _ pad1) in H;
    rewrite H; rewrite ?orb_true_r; reflexivity.
Qed.

(** How a returned response came about *)
Lemma response_shape (command response : string)
    (self self' : ProjectorController) :
  _send_command command self = (Return response, self') ->
  response = "" \/ exists raw, response = strip (decode_ascii_ignore raw).
Proof.
  unfold _send_command. generalize (read_response 10 ""). intros reader.
  unfold connect, sleep.
  unfold mbind, method_bind, mret, method_ret, encode_ascii,
    reset_input_buffer, reset_output_buffer, flush, write, raise.
  destruct (is_open self) eqn:Hopen; [| destruct (openable self) eqn:Hcan];
    cbn; try rewrite Hopen; cbn [negb]; cbv beta iota.
  - destruct (all_ascii ("~" ++ device_id self ++ command ++ CR));
      cbn; [| discriminate].
    match goal with
    | |- context [reader ?st] => destruct (reader st) as [[raw|e] s]
    end; intros H; [| discriminate]. right; exists raw; congruence.
  - destruct (all_ascii ("~" ++ device_id self ++ command ++ CR));
      cbn; [| discriminate].
    match goal with
    | |- context [reader ?st] => destruct (reader st) as [[raw|e] s]
    end; intros H; [| discriminate]. right; exists raw; congruence.
  - intros H; left; congruence.
Qed.

End Strip.

(** X3. Whatever the projector sends, a response that [_send_command]
    returns is ASCII text without white space at either end: stripping
    it again changes nothing. *)
Theorem response_is_ascii_and_trimmed (command response : string)
    (self self' : ProjectorController) :
  _send_command command self = (Return response, self') ->
  all_ascii response = true /\ strip response = response.
Proof.
  intros Hrun.
  destruct (Strip.response_shape _ _ _ _ Hrun) as [-> | (raw & ->)];
    [split; reflexivity |].
  split; [| apply Strip.strip_idem].
  unfold strip. apply Strip.all_ascii_rstrip, Strip.all_ascii_lstrip,
    Strip.all_ascii_decode.
Qed.

Lemma response_is_ascii_and_trimmed_witness :
  let self := bench (answering (fun _ => " Ok1" ++ String "200" CR)) in
  _send_command "124 1" self = (Return "Ok1", snd (_send_command "124 1" self)) /\
  all_ascii "Ok1" = true /\ strip "Ok1" = "Ok1".
Proof.
  intros self.
  assert (Hrun : _send_command "124 1" self
                 = (Return "Ok1", snd (_send_command "124 1" self)))
    by (vm_compute; reflexivity).
  split; [exact Hrun |].
  exact (response_is_ascii_and_trimmed _ _ _ _ Hrun).
Defined.

(** X4. A reply that arrives whole in the first poll, wrapped in white
    space (a carriage return after it, say), is returned without the
    white space after that one poll: ['Ok1\r'] is read as ['Ok1']. *)
Theorem padded_reply_is_returned_bare (command pad1 core pad2 : string)
    (self : ProjectorController) :
  usable self = true -> all_ascii command = true ->
  line self (tx self ++ [frame self command])%list (S (clock (opened self)))
  = pad1 ++ core ++ pad2 ->
  all_ascii (pad1 ++ core ++ pad2) = true ->
  all_space pad1 = true -> all_space pad2 = true ->
  trimmed core = true -> has_marker core = true ->
  _send_command command self = (Return core, advance (sent command self)).
Proof.
  intros Huse Hcmd Hline Hascii Hp1 Hp2 Hcore Hmark.
  rewrite (Reader.send_command_start command self Huse Hcmd).
  unfold mbind, method_bind.
  rewrite (Reader.read_response_step 9 "" (sent command self) eq_refl eq_refl
             Reader.has_marker_empty).
  cbv zeta. rewrite Text.app_nil.
  change (line (sent command self) (tx (sent command self))
            (S (clock (sent command self))))
    with (line self (tx self ++ [frame self command])%list
            (S (clock (opened self)))).
  rewrite Hline, (Strip.has_marker_padded pad1 core pad2 Hmark).
  unfold mret, method_ret.
  now rewrite (Strip.decode_ascii _ Hascii), Strip.strip_padded.
Qed.

Lemma padded_reply_is_returned_bare_witness :
  let self := bench (answering (fun _ => " " ++ "Ok1" ++ CR)) in
  usable self = true /\ all_ascii "124 1" = true /\
  all_space " " = true /\ all_space CR = true /\ trimmed "Ok1" = true /\
  has_marker "Ok1" = true /\
  fst (_send_command "124 1" self) = Return "Ok1" /\
  fst (get_power_state self) = Return (Some true).
Proof.
  intros self.
  pose proof (padded_reply_is_returned_bare "124 1" " " "Ok1" CR self
                eq_refl eq_refl eq_refl eq_refl eq_refl eq_refl eq_refl eq_refl)
    as Hrun.
  do 6 (split; [reflexivity |]).
  split; [now rewrite Hrun |].
  unfold get_power_state, mbind, method_bind. now rewrite Hrun.
Defined.

(** ** Numbers in decimal *)

Module Decimals.

Lemma digits_only_uint (d : Decimal.uint) :
  digits_only (NilEmpty.string_of_uint d) = true.
Proof. induction d; simpl; auto. Qed.

Lemma value_acc (d : Decimal.uint) :
  forall acc : positive,
    decimal_value (NilEmpty.string_of_uint d) (Z.pos acc)
    = Z.pos (Pos.of_uint_acc d acc).
Proof.
  induction d; intros acc; cbn [NilEmpty.string_of_uint decimal_value
                                 Pos.of_uint_acc];
    [reflexivity | rewrite <- IHd; f_equal ..];
    match goal with
    | |- context [digit_value ?c] =>
        let v := eval vm_compute in (digit_value c) in
        change (digit_value c) with v
    end; lia.
Qed.

Lemma value_uint (d : Decimal.uint) :
  decimal_value (NilEmpty.string_of_uint d) 0 = Z.of_N (Pos.of_uint d).
Proof.
  induction d; cbn [NilEmpty.string_of_uint decimal_value Pos.of_uint];
    [reflexivity | exact IHd | apply (value_acc d) ..].
Qed.

Lemma string_of_pos_nonempty (p : positive) :
  NilEmpty.string_of_uint (Pos.to_uint p) <> "".
Proof.
  pose proof (DecimalPos.Unsigned.to_uint_nonnil p) as Hnil.
  destruct (Pos.to_uint p); [now destruct Hnil | discriminate ..].
Qed.

Lemma nilzero_pos (p : positive) :
  NilZero.string_of_uint (Pos.to_uint p)
  = NilEmpty.string_of_uint (Pos.to_uint p).
Proof.
  pose proof (DecimalPos.Unsigned.to_uint_nonnil p) as Hnil.
  unfold NilZero.string_of_uint.
  destruct (Pos.to_uint p); [now destruct Hnil | reflexivity ..].
Qed.

Lemma value_pos (p : positive) :
  decimal_value (NilEmpty.string_of_uint (Pos.to_uint p)) 0 = Z.pos p.
Proof. now rewrite value_uint, DecimalPos.Unsigned.of_to. Qed.

(** [int] reads back what the decimal printer wrote. *)
Lemma int_literal_str_of_int (z : Z) :
  String.length (str_of_int z) <= max_str_digits ->
  int_literal (str_of_int z) = Some z.
Proof.
  unfold str_of_int. destruct z as [|p|p]; cbn [Z.to_int NilZero.string_of_int].
  - reflexivity.
  - rewrite nilzero_pos. intros Hlen.
    rewrite Digits.int_literal_digits;
      [now rewrite value_pos | apply digits_only_uint
       | apply string_of_pos_nonempty | exact Hlen].
  - rewrite nilzero_pos. set (ds := NilEmpty.string_of_uint (Pos.to_uint p)).
    intros Hlen. cbn [String.length] in Hlen.
    assert (Hd : digits_only ds = true) by apply digits_only_uint.
    assert (Hne : ds <> "") by apply string_of_pos_nonempty.
    unfold int_literal.
    assert (Hl : lstrip int_isspace (String "-" ds) = String "-" ds)
      by reflexivity.
    assert (Hr : rstrip int_isspace (String "-" ds) = String "-" ds).
    { cbn [rstrip]. rewrite (Digits.rstrip_digits ds Hd).
      destruct ds; [now destruct Hne | reflexivity]. }
    rewrite Hl, Hr.
    assert (Hcount : count_digits (String "-" ds) = count_digits ds)
      by reflexivity.
    pose proof (Digits.count_digits_le ds) as Hle.
    assert (Hlim : (max_str_digits <? count_digits (String "-" ds))%nat = false)
      by (apply Nat.ltb_ge; rewrite Hcount; lia).
    rewrite Hlim.
    rewrite (Digits.int_digits_run ds Hd 0 false (or_introl Hne)).
    unfold ds. now rewrite value_pos.
Qed.

End Decimals.

(** X5. Decoding a number undoes the decimal notation: when the
    response to a numeric query is ['Ok'] followed by an integer written
    in decimal (with its sign, and no longer than the 4300 digits that
    [int] accepts), the query returns that integer. *)
Theorem numeric_reply_round_trip (q : query) (z : Z)
    (self self' : ProjectorController) :
  numeric_query q = true ->
  String.length (str_of_int z) <= max_str_digits ->
  _send_command (query_command q) self = (Return ("Ok" ++ str_of_int z), self') ->
  call_query q self = (Return (ANumber (Some z)), self').
Proof.
  intros Hnum Hlen Hrun.
  pose proof (Decimals.int_literal_str_of_int z Hlen) as Hint.
  destruct q; try discriminate Hnum; Frames.literal_command Hrun;
    cbn [call_query]; unfold fmap, method_fmap;
    unfold get_brightness, get_contrast, get_v_keystone, get_volume,
      get_lamp_hours, get_system_hours, get_temperature;
    unfold mbind at 1, method_bind at 1; rewrite Hrun;
    unfold decode_int;
    change (startswith "Ok" ("Ok" ++ str_of_int z)) with true;
    change (slice_from 2 ("Ok" ++ str_of_int z)) with (str_of_int z);
    unfold try_except, mbind, method_bind, py_int; rewrite Hint; reflexivity.
Qed.

Lemma numeric_reply_round_trip_witness :
  let self := bench (answering (fun _ => "Ok-12" ++ CR)) in
  numeric_query GetVKeystone = true /\
  String.length (str_of_int (-12)) <= max_str_digits /\
  fst (get_v_keystone self) = Return (Some (-12)%Z).
Proof.
  intros self.
  assert (Hrun : _send_command (query_command GetVKeystone) self
                 = (Return ("Ok" ++ str_of_int (-12)),
                    snd (_send_command (query_command GetVKeystone) self)))
    by (vm_compute; reflexivity).
  assert (Hlen : String.length (str_of_int (-12)) <= max_str_digits)
    by (vm_compute; lia).
  split; [reflexivity |]. split; [exact Hlen |].
  pose proof (numeric_reply_round_trip GetVKeystone (-12) self _ eq_refl Hlen Hrun)
    as Hq.
  cbn [call_query] in Hq. unfold fmap, method_fmap in Hq.
  destruct (get_v_keystone self) as [[v|e] s]; [| discriminate].
  injection Hq as -> _. reflexivity.
Defined.

(** ** Which queries can raise *)

Module Guards.

Ltac unfold_queries :=
  unfold get_power_state, get_av_mute_state, get_audio_mute_state,
    get_input_source, get_projection_mode, get_display_mode,
    get_brightness, get_contrast, get_color_temperature, get_aspect_ratio,
    get_v_keystone, get_digital_zoom, get_volume, get_system_info,
    get_software_version, get_ddp_software_version,
    get_android_software_version, get_lamp_hours, get_system_hours,
    get_temperature, get_mac_address, get_device_id, get_network_status,
    get_signal_status, get_resolution, get_refresh_rate,
    get_digital_signage_status.

Lemma bare_ok (response : string) :
  startswith "Ok" response = true ->
  (String.get 2 response = None <-> response = "Ok").
Proof.
  intros Hpre. apply Text.startswith_spec in Hpre as [rest ->].
  change ("Ok" ++ rest) with (String "O" (String "k" rest)).
  cbn [String.get]. destruct rest; cbn [String.get]; split;
    try reflexivity; discriminate.
Qed.

End Guards.

(** X6. With an address that encodes, the guarded queries (all but
    [get_projection_mode], [get_color_temperature], [get_digital_zoom]
    and [get_system_info]) return a value whatever the projector sends
    and whether or not the port can be opened: they never raise. *)
Theorem guarded_queries_never_raise (q : query) (self : ProjectorController) :
  guarded_query q = true -> all_ascii (device_id self) = true ->
  exists (a : answer) (self' : ProjectorController),
    call_query q self = (Return a, self').
Proof.
  intros Hsafe Hid.
  destruct (Calls.send_command_returns (query_command q) self Hid
              (Frames.all_ascii_query q)) as (response & self' & Hrun).
  destruct q; try discriminate Hsafe; Frames.literal_command Hrun;
    cbn [call_query]; unfold fmap, method_fmap; Guards.unfold_queries;
    unfold mbind at 1, method_bind at 1; rewrite Hrun;
    unfold decode_int, try_except, py_int, mbind, method_bind,
      mret, method_ret, raise;
    Frames.split_cases; eauto.
Qed.

Lemma guarded_queries_never_raise_witness :
  guarded_query GetBrightness = true /\
  all_ascii (device_id (bench (answering (fun _ => "Ok--")))) = true /\
  fst (get_brightness (bench (answering (fun _ => "Ok--")))) = Return None.
Proof.
  split; [reflexivity |]. split; [reflexivity |].
  destruct (guarded_queries_never_raise GetBrightness
              (bench (answering (fun _ => "Ok--"))) eq_refl eq_refl)
    as (a & s & Hq).
  cbn [call_query] in Hq. unfold fmap, method_fmap in Hq.
  destruct (get_brightness (bench (answering (fun _ => "Ok--"))))
    as [[v|e] s'] eqn:Hget; [| discriminate].
  vm_compute in Hget. injection Hget as <- _. reflexivity.
Defined.

(** X7. [get_projection_mode], [get_color_temperature] and
    [get_digital_zoom] raise [IndexError] exactly when the response is
    the bare ['Ok']; on every other response they return: [None] when
    it does not start with ['Ok'], a label otherwise. *)
Theorem index_queries_raise_on_bare_ok_only (q : query) (response : string)
    (self self' : ProjectorController) :
  index_query q = true ->
  _send_command (query_command q) self = (Return response, self') ->
  (response = "Ok" -> call_query q self = (Raise IndexError, self')) /\
  (response <> "Ok" ->
     exists label : option string,
       call_query q self = (Return (AText label), self') /\
       (label = None <-> startswith "Ok" response = false)).
Proof.
  intros Hidx Hrun.
  destruct q; try discriminate Hidx; Frames.literal_command Hrun;
    cbn [call_query]; unfold fmap, method_fmap; Guards.unfold_queries;
    unfold py_index, mbind, method_bind; rewrite !Hrun;
    (split; [intros ->; reflexivity |]); intros Hne;
    (destruct (startswith "Ok" response) eqn:Hpre;
     [| exists None; split; [reflexivity | tauto]]);
    (destruct (String.get 2 response) as [c|] eqn:Hget;
     [| now apply (Guards.bare_ok response Hpre) in Hget]);
    eexists; (split; [reflexivity |]); split; discriminate.
Qed.

Lemma index_queries_raise_on_bare_ok_only_witness :
  let self := bench (answering (fun _ => "Ok")) in
  index_query GetDigitalZoom = true /\
  _send_command (query_command GetDigitalZoom) self
  = (Return "Ok", snd (_send_command (query_command GetDigitalZoom) self)) /\
  fst (get_digital_zoom self) = Raise IndexError.
Proof.
  intros self.
  assert (Hrun : _send_command (query_command GetDigitalZoom) self
                 = (Return "Ok",
                    snd (_send_command (query_command GetDigitalZoom) self)))
    by (vm_compute; reflexivity).
  split; [reflexivity |]. split; [exact Hrun |].
  destruct (index_queries_raise_on_bare_ok_only GetDigitalZoom "Ok" self _
              eq_refl Hrun) as [Hraise _].
  specialize (Hraise eq_refl). cbn [call_query] in Hraise.
  unfold fmap, method_fmap in Hraise.
  destruct (get_digital_zoom self) as [[v|e] s]; [discriminate |].
  injection Hraise as -> _. reflexivity.
Defined.

(** X8. [get_system_info] raises exactly when the response starts with
    ['Ok'], has at least 15 characters and [int] rejects the five
    characters of the lamp-hours field; the exception is [ValueError],
    and in every other case a dictionary is returned. *)
Theorem system_info_raises_on_bad_lamp_hours_only (response : string)
    (self self' : ProjectorController) :
  _send_command "150 1" self = (Return response, self') ->
  let bad :=
    startswith "Ok" response && (15 <=? String.length response)%nat
    && negb (is_Some_bool (int_literal (slice 1 6 (slice_from 2 response)))) in
  (bad = true -> get_system_info self = (Raise ValueError, self')) /\
  (bad = false ->
     exists info, get_system_info self = (Return info, self')).
Proof.
  intros Hrun bad. subst bad.
  unfold get_system_info, py_index, py_int, mbind, method_bind,
    mret, method_ret, raise.
  rewrite !Hrun.
  destruct (startswith "Ok" response) eqn:Hpre; cbn [andb];
    [| split; [discriminate | eauto]].
  destruct (15 <=? String.length response)%nat eqn:Hlen; cbn [andb];
    [| split; [discriminate | eauto]].
  assert (Hflag : exists c, String.get 0 (slice_from 2 response) = Some c).
  { apply Text.startswith_spec in Hpre as [rest ->].
    change (slice_from 2 ("Ok" ++ rest)) with rest.
    change (String.length ("Ok" ++ rest)) with (S (S (String.length rest)))
      in Hlen.
    apply Nat.leb_le in Hlen. destruct rest; cbn in Hlen; [lia |].
    cbn [String.get]. eauto. }
  destruct Hflag as (c & Hc). rewrite !Hc.
  destruct (int_literal (slice 1 6 (slice_from 2 response))) as [hours|];
    cbn [is_Some_bool negb].
  - split; [discriminate |]. intros _.
    destruct (14 <=? String.length (slice_from 2 response))%nat; eauto.
  - split; [reflexivity | discriminate].
Qed.

Lemma system_info_raises_on_bad_lamp_hours_only_witness :
  let self := bench (answering (fun _ => "Ok1abcde072001001")) in
  _send_command "150 1" self
  = (Return "Ok1abcde072001001", snd (_send_command "150 1" self)) /\
  fst (get_system_info self) = Raise ValueError.
Proof.
  intros self.
  assert (Hrun : _send_command "150 1" self
                 = (Return "Ok1abcde072001001",
                    snd (_send_command "150 1" self)))
    by (vm_compute; reflexivity).
  split; [exact Hrun |].
  pose proof (system_info_raises_on_bad_lamp_hours_only
                "Ok1abcde072001001" self _ Hrun) as H.
  cbv zeta in H. destruct H as [Hbad _].
  rewrite (Hbad eq_refl). reflexivity.
Defined.

(** ** One exchange, from any state *)

Module Anywhere.

Lemma read_response_fields (n : nat) :
  forall (acc : bytes) (self : ProjectorController),
    exists raw self',
      read_response n acc self = (Return raw, self') /\
      device_id self' = device_id self /\ tx self' = tx self /\
      is_open self' = is_open self /\ openable self' = openable self /\
      line self' = line self.
Proof.
  induction n as [|n IH]; intros acc self.
  - exists acc, self. repeat split.
  - cbn [read_response]. unfold mbind, method_bind, sleep, in_waiting, read.
    change (Nat.iter 1 tick self) with (tick self).
    destruct (0 <? String.length (rx (tick self)))%nat.
    + cbv beta iota zeta.
      match goal with
      | |- context [has_marker ?r] => destruct (has_marker r)
      end.
      * eexists _, _. split; [reflexivity |]. cbn. repeat split.
      * match goal with
        | |- context [read_response n ?a ?st] =>
            destruct (IH a st) as (raw & s & Hrun & Hid & Htx & Hopen & Hcan & Hline)
        end.
        exists raw, s. split; [exact Hrun |]. cbn in *. repeat split; assumption.
    + destruct (IH acc (tick self)) as (raw & s & Hrun & Hid & Htx & Hopen & Hcan & Hline).
      exists raw, s. split; [exact Hrun |]. cbn in *. repeat split; assumption.
Qed.

Lemma send_command_effect (command : string) (self : ProjectorController) :
  exists r self',
    _send_command command self = (r, self') /\
    device_id self' = device_id self /\ openable self' = openable self /\
    line self' = line self /\
    ((r = Return "" /\ self' = self) \/
     (r = Raise UnicodeEncodeError /\ tx self' = tx self) \/
     (exists response, r = Return response /\
        tx self' = (tx self ++ [frame self command])%list /\
        is_open self' = true)).
Proof.
  unfold _send_command, frame.
  remember (read_response 10 "") as reader eqn:Hreader.
  unfold connect, sleep.
  unfold mbind, method_bind, mret, method_ret, encode_ascii,
    reset_input_buffer, reset_output_buffer, flush, write, raise.
  destruct (is_open self) eqn:Hopen; [| destruct (openable self) eqn:Hcan];
    cbn; try rewrite Hopen; cbn [negb]; cbv beta iota.
  - destruct (all_ascii ("~" ++ device_id self ++ command ++ CR)); cbn.
    + match goal with
      | |- context [reader ?st] =>
          subst reader;
          destruct (read_response_fields 10 "" st)
            as (raw & s & -> & Hid & Htx & Ho & Hc & Hl)
      end.
      cbn in *. eexists _, _. split; [reflexivity |].
      do 3 (split; [assumption |]). right. right. eauto.
    + eexists _, _. split; [reflexivity |]. cbn.
      do 3 (split; [reflexivity |]). right. left. auto.
  - destruct (all_ascii ("~" ++ device_id self ++ command ++ CR)); cbn.
    + match goal with
      | |- context [reader ?st] =>
          subst reader;
          destruct (read_response_fields 10 "" st)
            as (raw & s & -> & Hid & Htx & Ho & Hc & Hl)
      end.
      cbn in *. eexists _, _. split; [reflexivity |].
      do 3 (split; [congruence |]). right. right. eauto.
    + eexists _, _. split; [reflexivity |]. cbn.
      do 3 (split; [congruence |]). right. left. auto.
  - eexists _, _. split; [reflexivity |].
    do 3 (split; [congruence |]). left. auto.
Qed.

End Anywhere.

(** ** Software versions *)

Module Versions.

Lemma replace_marks (s : string) :
  followed_by_space "R" (replace_char "R" "R " s) = true.
Proof.
  induction s as [|c rest IH]; [reflexivity |].
  cbn [replace_char]. destruct (Ascii.eqb_spec c "R") as [-> | Hne].
  - change ("R " ++ replace_char "R" "R " rest)
      with (String "R" (String " " (replace_char "R" "R " rest))).
    cbn [followed_by_space]. rewrite IH. reflexivity.
  - cbn [followed_by_space]. rewrite IH.
    apply Ascii.eqb_neq in Hne. now rewrite Hne.
Qed.

Lemma replace_keeps_marks (c1 : ascii) (s : string) :
  py_isspace c1 = false -> c1 <> "R"%char ->
  followed_by_space "R" s = true ->
  followed_by_space "R" (replace_char c1 (String " " (String c1 "")) s) = true.
Proof.
  intros Hsp Hne. induction s as [|c rest IH]; [reflexivity |].
  intros H. cbn [followed_by_space] in H. apply andb_prop in H as [Hc Hrest].
  specialize (IH Hrest). cbn [replace_char].
  destruct (Ascii.eqb_spec c c1) as [-> | Hc1].
  - change (String " " (String c1 "") ++ replace_char c1 (String " " (String c1 "")) rest)
      with (String " " (String c1 (replace_char c1 (String " " (String c1 "")) rest))).
    cbn [followed_by_space]. rewrite IH.
    apply Ascii.eqb_neq in Hne. now rewrite Hne.
  - cbn [followed_by_space]. rewrite IH, andb_true_r.
    destruct (Ascii.eqb c "R"); [| reflexivity].
    destruct rest as [|d rest']; [discriminate |].
    cbn [replace_char].
    destruct (Ascii.eqb_spec d c1) as [-> | Hd]; [congruence | exact Hc].
Qed.

Lemma followed_suffix (a b : string) :
  followed_by_space "R" (a ++ b) = true -> followed_by_space "R" b = true.
Proof.
  induction a as [|c a IH]; [trivial |].
  rewrite Text.app_cons. cbn [followed_by_space].
  intros H. apply andb_prop in H as [_ H]. auto.
Qed.

Lemma word_only_last (w t : string) :
  no_space w = true -> followed_by_space "R" (w ++ t) = true ->
  only_last "R" w = true.
Proof.
  induction w as [|x w IH]; [reflexivity |].
  intros Hns H. cbn [no_space] in Hns. apply andb_prop in Hns as [Hx Hns].
  rewrite Text.app_cons in H. cbn [followed_by_space] in H.
  apply andb_prop in H as [Hhead Htail].
  cbn [only_last]. rewrite (IH Hns Htail), andb_true_r.
  destruct (Ascii.eqb x "R"); [| reflexivity].
  destruct w as [|y w']; [reflexivity |].
  rewrite Text.app_cons in Hhead. cbn [no_space] in Hns.
  apply andb_prop in Hns as [Hy _]. now rewrite Hhead in Hy.
Qed.

Lemma no_space_snoc (w : string) (c : ascii) :
  no_space w = true -> py_isspace c = false ->
  no_space (w ++ String c "") = true.
Proof.
  intros Hw Hc. induction w as [|x w IH].
  - rewrite Text.app_nil. cbn [no_space]. now rewrite Hc.
  - rewrite Text.app_cons. cbn [no_space] in *.
    apply andb_prop in Hw as [Hx Hw]. now rewrite Hx, IH.
Qed.

Lemma split_only_last (s : string) :
  forall word : string,
    no_space word = true -> followed_by_space "R" (word ++ s) = true ->
    Forall (fun part => only_last "R" part = true) (split_words s word).
Proof.
  induction s as [|c rest IH]; intros word Hns H.
  - cbn [split_words]. destruct (String.eqb word ""); constructor;
      [eapply word_only_last; eauto | constructor].
  - cbn [split_words]. destruct (py_isspace c) eqn:Hc.
    + assert (Hrest : followed_by_space "R" ("" ++ rest) = true).
      { apply followed_suffix in H. cbn [followed_by_space] in H.
        now apply andb_prop in H as [_ H]. }
      destruct (String.eqb word "").
      * now apply IH.
      * constructor; [eapply word_only_last; eauto | now apply IH].
    + apply IH; [now apply no_space_snoc |].
      now rewrite Text.app_assoc.
Qed.

Lemma parts_only_last (data : string) :
  Forall (fun part => only_last "R" part = true)
    (py_split
       (replace_char "X" " X"
        (replace_char "S" " S"
         (replace_char "H" " H"
          (replace_char "L" " L"
           (replace_char "M" " M"
            (replace_char "R" "R " data))))))).
Proof.
  apply split_only_last; [reflexivity |]. rewrite Text.app_nil.
  repeat (apply replace_keeps_marks; [reflexivity | discriminate |]).
  apply replace_marks.
Qed.

(** What one part adds: one of the six names, and under ['Android']
    only the empty text. *)
Lemma record_version_keeps (versions : gmap string string) (part : string) :
  only_last "R" part = true ->
  (forall key, is_Some (versions !! key) -> In key version_names) ->
  (versions !! "Android" = None \/ versions !! "Android" = Some "") ->
  (forall key, is_Some (record_version versions part !! key) ->
     In key version_names) /\
  (record_version versions part !! "Android" = None \/
   record_version versions part !! "Android" = Some "").
Proof.
  intros Hpart Hkeys Handroid. unfold record_version.
  assert (Hins : forall name value,
            In name version_names ->
            forall key, is_Some (<[name := value]> versions !! key) ->
                        In key version_names).
  { intros name value Hname key Hkey.
    destruct (decide (name = key)) as [<- | Hne]; [exact Hname |].
    rewrite lookup_insert_ne in Hkey by exact Hne. auto. }
  unfold version_names in *.
  destruct (startswith "C" part);
    [split; [apply Hins; cbn; tauto | now rewrite lookup_insert_ne] |].
  destruct (startswith "M" part);
    [split; [apply Hins; cbn; tauto | now rewrite lookup_insert_ne] |].
  destruct (startswith "R" part) eqn:HR.
  - split; [apply Hins; cbn; tauto |]. right. rewrite lookup_insert_eq.
    destruct part as [|c rest]; [discriminate |].
    cbn [startswith] in HR. rewrite andb_true_r in HR.
    cbn [only_last] in Hpart. rewrite Ascii.eqb_sym in HR.
    rewrite HR in Hpart. apply andb_prop in Hpart as [Hrest _].
    apply String.eqb_eq in Hrest. subst rest. reflexivity.
  - destruct (startswith "L" part);
      [split; [apply Hins; cbn; tauto | now rewrite lookup_insert_ne] |].
    destruct (startswith "H" part);
      [split; [apply Hins; cbn; tauto | now rewrite lookup_insert_ne] |].
    destruct (startswith "S" part);
      [split; [apply Hins; cbn; tauto | now rewrite lookup_insert_ne] |].
    auto.
Qed.

Lemma fold_versions (parts : list string) :
  Forall (fun part => only_last "R" part = true) parts ->
  forall versions : gmap string string,
    (forall key, is_Some (versions !! key) -> In key version_names) ->
    (versions !! "Android" = None \/ versions !! "Android" = Some "") ->
    (forall key, is_Some (fold_left record_version parts versions !! key) ->
       In key version_names) /\
    (fold_left record_version parts versions !! "Android" = None \/
     fold_left record_version parts versions !! "Android" = Some "").
Proof.
  induction 1 as [|part parts Hpart _ IH]; intros versions Hkeys Handroid;
    [auto |].
  cbn [fold_left].
  destruct (record_version_keeps versions part Hpart Hkeys Handroid).
  now apply IH.
Qed.

End Versions.

(** X9. [get_software_version] never raises once the exchange has
    returned. Its dictionary is empty unless the payload contains both
    ['C'] and ['M'], its keys are among the six component names, and
    the ['Android'] entry, when present, is always the empty text:
    because ['R'] is replaced by ['R '] before the split, the version
    that follows an ['R'] is cut off from it and dropped. *)
Theorem software_version_android_is_empty (response : string)
    (self self' : ProjectorController) :
  _send_command "122 1" self = (Return response, self') ->
  exists versions : gmap string string,
    get_software_version self = (Return versions, self') /\
    (forall key, is_Some (versions !! key) -> In key version_names) /\
    (versions !! "Android" = None \/ versions !! "Android" = Some "") /\
    (startswith "Ok" response
     && py_in "C" (slice_from 2 response)
     && py_in "M" (slice_from 2 response) = false -> versions = ∅).
Proof.
  intros Hrun.
  unfold get_software_version, mbind, method_bind. rewrite Hrun.
  assert (Hempty : (forall key, is_Some ((∅ : gmap string string) !! key) ->
                      In key version_names) /\
                   ((∅ : gmap string string) !! "Android" = None \/
                    (∅ : gmap string string) !! "Android" = Some "")).
  { split; [| now left]. intros key [v Hv]. now rewrite lookup_empty in Hv. }
  destruct (startswith "Ok" response); cbn [andb];
    [| exists ∅; repeat split; tauto].
  destruct (py_in "C" (slice_from 2 response)
            && py_in "M" (slice_from 2 response)) eqn:Hcm;
    [| exists ∅; repeat split; tauto].
  eexists. split; [reflexivity |].
  destruct (Versions.fold_versions _
              (Versions.parts_only_last (slice_from 2 response)) ∅
              (proj1 Hempty) (proj2 Hempty)) as [Hkeys Handroid].
  repeat split; [exact Hkeys | exact Handroid |].
  intros H. cbn [andb] in H. congruence.
Qed.

Lemma software_version_android_is_empty_witness :
  let self := bench (answering (fun _ => "OkC01M02 R03")) in
  _send_command "122 1" self
  = (Return "OkC01M02 R03", snd (_send_command "122 1" self)) /\
  exists versions : gmap string string,
    fst (get_software_version self) = Return versions /\
    versions !! "DDP" = Some "01" /\
    versions !! "MCU" = Some "02" /\
    versions !! "Android" = Some "".
Proof.
  intros self.
  assert (Hrun : _send_command "122 1" self
                 = (Return "OkC01M02 R03", snd (_send_command "122 1" self)))
    by (vm_compute; reflexivity).
  split; [exact Hrun |].
  destruct (software_version_android_is_empty _ _ _ Hrun)
    as (versions & Hget & _ & _ & _).
  exists versions. rewrite Hget. split; [reflexivity |].
  assert (Heq : fst (get_software_version self) = Return versions)
    by now rewrite Hget.
  vm_compute in Heq. injection Heq as <-. repeat split.
Defined.

(** ** Fan speeds, and the context manager *)

Module Quiet.

(** One fan: an entry under its name, whatever came back. *)
Lemma read_fan_entry (fan_num : Z) (fan_name : string)
    (fans : gmap string (option Z)) (self : ProjectorController) :
  all_ascii (device_id self) = true ->
  exists (rpm : option Z) (self' : ProjectorController),
    read_fan (fan_num, fan_name) fans self
    = (Return (<[fan_name := rpm]> fans), self') /\
    all_ascii (device_id self') = true.
Proof.
  intros Hid.
  assert (Hcmd : all_ascii ("351 " ++ str_of_int fan_num) = true).
  { now rewrite Text.all_ascii_app, Calls.all_ascii_str_of_int. }
  destruct (Calls.send_command_returns _ self Hid Hcmd) as (r & s & Hrun).
  destruct (Anywhere.send_command_effect ("351 " ++ str_of_int fan_num) self)
    as (r' & s' & Hrun' & Hsame & _).
  rewrite Hrun in Hrun'. injection Hrun' as <- <-.
  unfold read_fan, mbind at 1, method_bind at 1. rewrite Hrun.
  rewrite <- Hsame in Hid.
  destruct (startswith "Ok" r); [| eauto].
  unfold try_except, mbind, method_bind, py_int, mret, method_ret, raise.
  destruct (int_literal (slice_from 2 r)); eauto.
Qed.

Lemma connect_then_send (command : string) (self : ProjectorController) :
  _send_command command (snd (connect self)) = _send_command command self.
Proof.
  unfold connect. destruct (is_open self) eqn:Hopen; [reflexivity |].
  destruct (openable self) eqn:Hcan; [| reflexivity].
  unfold _send_command. generalize (read_response 10 ""). intros reader.
  unfold connect, sleep.
  unfold mbind, method_bind, mret, method_ret, encode_ascii,
    reset_input_buffer, reset_output_buffer, flush, write, raise.
  cbn. rewrite !Hopen, ?Hcan. cbn. rewrite ?Hopen, ?Hcan. reflexivity.
Qed.

End Quiet.

(** X10. With an address that encodes, [get_fan_speeds] never raises
    and always returns a dictionary with exactly the three fan names as
    keys, whatever the projector answers and whether or not the port
    can be opened; a fan whose reply cannot be read is listed with
    [None], not left out. *)
Theorem fan_speeds_always_three_entries (self : ProjectorController) :
  all_ascii (device_id self) = true ->
  exists (fans : gmap string (option Z)) (self' : ProjectorController),
    get_fan_speeds self = (Return fans, self') /\
    dom fans = ({["System Fan 1"; "System Fan 2"; "Optical Fan"]} : gset string).
Proof.
  intros Hid. unfold get_fan_speeds, fan_table. cbn [for_each].
  destruct (Quiet.read_fan_entry 0 "System Fan 1" ∅ self Hid)
    as (r1 & s1 & H1 & Hid1).
  destruct (Quiet.read_fan_entry 1 "System Fan 2" (<["System Fan 1" := r1]> ∅)
              s1 Hid1) as (r2 & s2 & H2 & Hid2).
  destruct (Quiet.read_fan_entry 2 "Optical Fan"
              (<["System Fan 2" := r2]> (<["System Fan 1" := r1]> ∅)) s2 Hid2)
    as (r3 & s3 & H3 & _).
  unfold mbind, method_bind. rewrite H1, H2, H3.
  eexists _, _. split; [reflexivity |].
  rewrite !dom_insert_L, dom_empty_L. set_solver.
Qed.

Lemma fan_speeds_always_three_entries_witness :
  let self := bench (answering (fun _ => "Ok12x0")) in
  all_ascii (device_id self) = true /\
  exists fans : gmap string (option Z),
    fst (get_fan_speeds self) = Return fans /\
    fans !! "Optical Fan" = Some None.
Proof.
  intros self. split; [reflexivity |].
  destruct (fan_speeds_always_three_entries self eq_refl)
    as (fans & s & Hget & _).
  exists fans. rewrite Hget. split; [reflexivity |].
  assert (Heq : fst (get_fan_speeds self) = Return fans) by now rewrite Hget.
  vm_compute in Heq. injection Heq as <-. reflexivity.
Defined.

(** X11. Inside [with ProjectorController(...) as proj:] a command has
    the same outcome and writes the same frames as without the [with]
    (the explicit [connect] of [__enter__] adds nothing to the lazy
    connect of [_send_command], and a failed [connect] is not
    reported), and the port is closed afterwards, also when the body
    raised. *)
Theorem context_manager_closes_port {A : Type} (body : M A)
    (command : string) (self : ProjectorController) :
  is_open (snd (with_controller body self)) = false /\
  fst (with_controller body self) = fst (body (snd (connect self))) /\
  fst (with_controller (_send_command command) self)
  = fst (_send_command command self) /\
  tx (snd (with_controller (_send_command command) self))
  = tx (snd (_send_command command self)).
Proof.
  assert (Hclosed : forall s, is_open (snd (disconnect s)) = false).
  { intros s. unfold disconnect. destruct (is_open s) eqn:Hs; [reflexivity |].
    exact Hs. }
  assert (Htx : forall s, tx (snd (disconnect s)) = tx s).
  { intros s. unfold disconnect. now destruct (is_open s). }
  unfold with_controller.
  destruct (connect self) as [c entered] eqn:Hconn.
  assert (Hentered : entered = snd (connect self)) by now rewrite Hconn.
  split; [| split; [| split]].
  - destruct (body entered). apply Hclosed.
  - cbn [snd]. now destruct (body entered).
  - rewrite Hentered, Quiet.connect_then_send.
    now destruct (_send_command command self).
  - rewrite Hentered, Quiet.connect_then_send.
    destruct (_send_command command self). apply Htx.
Qed.

(** ** The reader of [projector_status.py] *)

Module Status.

Lemma status_read_step (n : nat) (acc : bytes) (self : ProjectorController) :
  is_open self = true -> rx self = "" -> has_marker acc = false ->
  status_read (S n) acc self =
    let chunk := line self (tx self) (S (clock self)) in
    if (0 <? String.length chunk)%nat then
      if has_marker (acc ++ chunk) then (Return (acc ++ chunk), advance self)
      else status_read n (acc ++ chunk) (advance self)
    else
      if negb (String.eqb acc "") then (Return acc, advance self)
      else status_read n acc (advance self).
Proof.
  intros Hopen Hrx Hacc.
  cbn [status_read]. unfold mbind, method_bind, sleep, in_waiting, read.
  change (Nat.iter 1 tick self) with (tick self).
  set (chunk := line self (tx self) (S (clock self))).
  assert (Hrt : rx (tick self) = chunk).
  { unfold tick; cbn. now rewrite Hopen, Hrx. }
  cbv zeta. rewrite Hrt.
  destruct (0 <? String.length chunk)%nat eqn:Hlen.
  - cbv beta. rewrite Hrt, Text.slice_to_length, Text.slice_from_length.
    destruct (has_marker (acc ++ chunk)); reflexivity.
  - apply Text.length_zero in Hlen.
    assert (Hsame : tick self = advance self).
    { unfold tick, advance. f_equal. rewrite Hopen, Hrx. exact Hlen. }
    rewrite Hsame. destruct (negb (String.eqb acc "")); reflexivity.
Qed.

Lemma status_read_run (n : nat) :
  forall (acc : bytes) (self : ProjectorController),
    is_open self = true -> rx self = "" -> has_marker acc = false ->
    exists k,
      k <= n /\
      status_read n acc self =
        (Return (acc ++ heard (line self (tx self)) (clock self) k),
         Nat.iter k advance self) /\
      (forall j, j < k ->
         has_marker (acc ++ heard (line self (tx self)) (clock self) j) = false).
Proof.
  induction n as [|n IH]; intros acc self Hopen Hrx Hacc.
  - exists 0. simpl. rewrite Text.app_empty_r.
    repeat split; [lia |]. intros; lia.
  - rewrite (status_read_step n acc self Hopen Hrx Hacc). cbv zeta.
    set (chunk := line self (tx self) (S (clock self))).
    assert (Hone : forall j, j < 1 ->
              has_marker (acc ++ heard (line self (tx self)) (clock self) j)
              = false).
    { intros j Hj. replace j with 0 by lia. simpl.
      now rewrite Text.app_empty_r. }
    assert (Hrec : forall acc', has_marker acc' = false ->
              acc' = acc ++ chunk ->
              exists k, k <= S n /\
                status_read n acc' (advance self) =
                  (Return (acc ++ heard (line self (tx self)) (clock self) k),
                   Nat.iter k advance self) /\
                (forall j, j < k ->
                   has_marker
                     (acc ++ heard (line self (tx self)) (clock self) j)
                   = false)).
    { intros acc' Hmark ->.
      destruct (IH (acc ++ chunk) (advance self) Hopen eq_refl Hmark)
        as (k & Hk & Hrun & Hbefore).
      exists (S k). cbn [heard]. fold chunk.
      change (line (advance self)) with (line self) in *.
      change (tx (advance self)) with (tx self) in *.
      change (clock (advance self)) with (S (clock self)) in *.
      rewrite <- Text.app_assoc. repeat split.
      - lia.
      - rewrite Hrun, Reader.iter_advance. reflexivity.
      - intros [|j] Hj.
        + simpl. now rewrite Text.app_empty_r.
        + cbn [heard]. fold chunk. rewrite <- Text.app_assoc.
          apply Hbefore. lia. }
    destruct (0 <? String.length chunk)%nat eqn:Hlen.
    + destruct (has_marker (acc ++ chunk)) eqn:Hmark.
      * exists 1. cbn [heard Nat.iter]. fold chunk. rewrite Text.app_empty_r.
        repeat split; [lia | exact Hone].
      * now apply Hrec.
    + apply Text.length_zero in Hlen.
      destruct (negb (String.eqb acc "")).
      * exists 1. cbn [heard Nat.iter]. fold chunk.
        rewrite Hlen, !Text.app_empty_r.
        repeat split; [lia | exact Hone].
      * apply Hrec; [| now rewrite Hlen, Text.app_empty_r].
        exact Hacc.
Qed.

Lemma endswith_self (s : string) : endswith s s = true.
Proof. destruct s; cbn [endswith]; now rewrite String.eqb_refl. Qed.

Lemma endswith_app (a s : string) : endswith s (a ++ s) = true.
Proof.
  induction a as [|c a IH]; [apply endswith_self |].
  rewrite Text.app_cons. cbn [endswith]. rewrite IH. apply orb_true_r.
Qed.

Lemma terminated_ends (command : string) :
  endswith CR (terminated command) = true.
Proof.
  unfold terminated. destruct (endswith CR command) eqn:H; [exact H |].
  apply endswith_app.
Qed.

(** The state in which the reader of [send_command] starts *)
Lemma status_command_start (command : string) (ser : ProjectorController) :
  is_open ser = true -> all_ascii (terminated command) = true ->
  send_command command ser =
    let (outcome, ser') :=
      (response ← status_read 10 "";
       mret (strip (decode_ascii_ignore response)))
        {| device_id := device_id ser;
           is_open := true;
           openable := openable ser;
           rx := "";
           tx := (tx ser ++ [terminated command])%list;
           clock := clock ser;
           line := line ser |} in
    (Done outcome, ser').
Proof.
  intros Hopen Hascii. unfold send_command. rewrite Hopen.
  generalize (status_read 10 ""). intros reader.
  unfold mbind, method_bind, mret, method_ret, encode_ascii,
    reset_input_buffer, reset_output_buffer, flush, write.
  cbn. rewrite Hascii. cbn. rewrite Hopen. reflexivity.
Qed.

End Status.

(** X12. [send_command] of [projector_status.py] refuses a closed port
    and otherwise writes one frame: the command as given when it
    already ends with a carriage return, the command plus one carriage
    return when it does not; either way the frame written ends with a
    carriage return, terminating twice adds nothing, and at most 10
    polls follow.  A command outside ASCII raises before anything is
    written. *)
Theorem status_command_is_terminated_once (command : string)
    (ser : ProjectorController) :
  (is_open ser = false -> send_command command ser = (PortNotOpenError, ser)) /\
  (is_open ser = true ->
     (all_ascii command = true ->
      exists (response : string) (ser' : ProjectorController),
        send_command command ser = (Done (Return response), ser') /\
        tx ser' = (tx ser ++ [terminated command])%list /\
        clock ser' <= clock ser + 10) /\
     (all_ascii command = false ->
      exists ser' : ProjectorController,
        send_command command ser = (Done (Raise UnicodeEncodeError), ser') /\
        tx ser' = tx ser)) /\
  endswith CR (terminated command) = true /\
  terminated (terminated command) = terminated command /\
  (endswith CR command = true -> terminated command = command).
Proof.
  split; [| split; [| split; [| split]]].
  - intros Hclosed. unfold send_command. now rewrite Hclosed.
  - intros Hopen. split.
    + intros Hascii.
      assert (Hterm : all_ascii (terminated command) = true).
      { unfold terminated. destruct (endswith CR command); [exact Hascii |].
        now rewrite Text.all_ascii_app, Hascii. }
      rewrite (Status.status_command_start command ser Hopen Hterm).
      match goal with
      | |- context [(status_read 10 "" ≫= _) ?st] =>
          destruct (Status.status_read_run 10 "" st eq_refl eq_refl
                      Reader.has_marker_empty) as (k & Hk & Hrun & _);
          unfold mbind, method_bind; rewrite Hrun
      end.
      eexists _, _. split; [reflexivity |].
      match goal with
      | |- context [Nat.iter k advance ?st] =>
          destruct (Reader.fields_iter_advance k st) as (_ & _ & _ & Htx & _);
          pose proof (Reader.clock_iter_advance k st) as Hclock
      end.
      rewrite Htx, Hclock. cbn [tx clock]. split; [reflexivity | lia].
    + intros Hascii.
      assert (Hterm : all_ascii (terminated command) = false).
      { unfold terminated. destruct (endswith CR command); [exact Hascii |].
        now rewrite Text.all_ascii_app, Hascii. }
      unfold send_command. rewrite Hopen.
      unfold mbind, method_bind, mret, method_ret, encode_ascii,
        reset_input_buffer, reset_output_buffer, flush, write, raise.
      cbn. rewrite Hterm. cbn. eauto.
  - apply Status.terminated_ends.
  - unfold terminated at 1. now rewrite Status.terminated_ends.
  - intros H. unfold terminated. now rewrite H.
Qed.

Lemma status_command_is_terminated_once_witness :
  let ser := snd (connect (bench (answering (fun _ => "P")))) in
  is_open ser = true /\ all_ascii "~00150 1" = true /\
  is_open (bench silent) = false /\
  tx (snd (send_command "~00150 1" ser)) = ["~00150 1" ++ CR] /\
  tx (snd (send_command ("~00150 1" ++ CR) ser)) = ["~00150 1" ++ CR] /\
  fst (send_command "~00150 1" (bench silent)) = PortNotOpenError.
Proof.
  intros ser.
  split; [reflexivity |]. split; [reflexivity |]. split; [reflexivity |].
  destruct (status_command_is_terminated_once "~00150 1" ser)
    as (_ & Hopen & _).
  destruct (Hopen eq_refl) as [Hok _].
  destruct (Hok eq_refl) as (r & s & Hrun & Htx & _).
  destruct (status_command_is_terminated_once ("~00150 1" ++ CR) ser)
    as (_ & Hopen' & _).
  destruct (Hopen' eq_refl) as [Hok' _].
  destruct (Hok' eq_refl) as (r' & s' & Hrun' & Htx' & _).
  destruct (status_command_is_terminated_once "~00150 1" (bench silent))
    as (Hclosed & _).
  rewrite Hrun, Hrun', (Hclosed eq_refl). cbn [fst snd].
  rewrite Htx, Htx'. repeat split.
Defined.

(** X13. Handed the frame that the controller builds for a command,
    [send_command] of [projector_status.py] writes the same bytes as
    [_send_command] and reads the same line, but stops no later: it
    also gives up on the first quiet poll after some bytes.  When it
    stops on a marker, both return the same response. *)
Theorem status_reader_stops_no_later (command : string)
    (self : ProjectorController) :
  is_open self = true ->
  all_ascii (device_id self) = true -> all_ascii command = true ->
  endswith CR ("~" ++ device_id self ++ command) = false ->
  let start := sent command self in
  let accumulated := heard (line start (tx start)) (clock start) in
  exists polls_status polls_control,
    polls_status <= polls_control /\ polls_control <= 10 /\
    send_command ("~" ++ device_id self ++ command) self =
      (Done (Return (strip (decode_ascii_ignore (accumulated polls_status)))),
       Nat.iter polls_status advance start) /\
    _send_command command self =
      (Return (strip (decode_ascii_ignore (accumulated polls_control))),
       Nat.iter polls_control advance start) /\
    (has_marker (accumulated polls_status) = true ->
     polls_status = polls_control).
Proof.
  intros Hopen Hid Hcmd Hend start accumulated.
  assert (Huse : usable self = true) by (unfold usable; now rewrite Hopen, Hid).
  destruct (Reader.send_command_run command self Huse Hcmd)
    as (kc & Hkc & Hcontrol & Hbefore & Hstop).
  fold start in Hcontrol, Hbefore, Hstop.
  fold accumulated in Hcontrol, Hbefore, Hstop.
  assert (Hframe : terminated ("~" ++ device_id self ++ command)
                   = frame self command).
  { unfold terminated, frame. rewrite Hend.
    change ("~" ++ device_id self ++ command)
      with (String "~" (device_id self ++ command)).
    change ("~" ++ device_id self ++ command ++ CR)
      with (String "~" (device_id self ++ command ++ CR)).
    rewrite Text.app_cons. now rewrite Text.app_assoc. }
  assert (Hascii : all_ascii (terminated ("~" ++ device_id self ++ command))
                   = true).
  { rewrite Hframe. now apply Reader.all_ascii_frame. }
  rewrite (Status.status_command_start _ self Hopen Hascii), Hframe.
  match goal with
  | |- context [(status_read 10 "" ≫= _) ?st] =>
      assert (Hstart : st = start)
        by (unfold start, sent, opened; now rewrite Hopen);
      rewrite Hstart
  end.
  destruct (Status.status_read_run 10 "" start eq_refl eq_refl
              Reader.has_marker_empty) as (ks & Hks & Hstatus & Hquiet).
  fold accumulated in Hstatus, Hquiet.
  unfold mbind, method_bind. rewrite Hstatus, Text.app_nil.
  assert (Hle : ks <= kc).
  { destruct (Nat.le_gt_cases ks kc) as [Hle | Hgt]; [exact Hle |].
    assert (Hlt : kc < 10) by lia.
    specialize (Hstop Hlt). specialize (Hquiet kc Hgt).
    rewrite Text.app_nil in Hquiet. congruence. }
  exists ks, kc. repeat split; auto.
  intros Hmark. destruct (Nat.eq_dec ks kc) as [Heq | Hne]; [exact Heq |].
  assert (Hlt : ks < kc) by lia.
  specialize (Hbefore ks Hlt). congruence.
Qed.

Lemma status_reader_stops_no_later_witness :
  let self := snd (connect (bench (answering (fun _ => "Ok1")))) in
  is_open self = true /\ all_ascii (device_id self) = true /\
  all_ascii "150 1" = true /\
  endswith CR ("~" ++ device_id self ++ "150 1") = false /\
  exists ser',
    send_command "~00150 1" self = (Done (Return "Ok1"), ser') /\
    _send_command "150 1" self = (Return "Ok1", ser').
Proof.
  intros self.
  do 4 (split; [reflexivity |]).
  destruct (status_reader_stops_no_later "150 1" self
              eq_refl eq_refl eq_refl eq_refl)
    as (ks & kc & Hle & Hkc & Hstatus & Hcontrol & Hsame).
  assert (Hks : ks = 1).
  { destruct ks as [|[|ks]]; [| reflexivity |].
    - change (send_command ("~" ++ device_id self ++ "150 1") self)
        with (send_command "~00150 1" self) in Hstatus.
      vm_compute in Hstatus. discriminate.
    - change (send_command ("~" ++ device_id self ++ "150 1") self)
        with (send_command "~00150 1" self) in Hstatus.
      apply (f_equal (fun p => clock (snd p))) in Hstatus.
      cbv beta in Hstatus.
      change (snd (?a, ?b)) with b in Hstatus.
      rewrite Reader.clock_iter_advance in Hstatus.
      vm_compute in Hstatus. lia. }
  subst ks. rewrite <- (Hsame eq_refl) in Hcontrol.
  eexists. split; [exact Hstatus | exact Hcontrol].
Defined.

(** ** What [apply_config] writes *)

Module Trace.

Section Keeps.

Variable I : ProjectorController -> Prop.
Variable R : ProjectorController -> ProjectorController -> Prop.
Hypothesis R_refl : forall self, R self self.
Hypothesis R_trans : forall a b c, R a b -> R b c -> R a c.

Lemma keeps_ret {A : Type} (good : result A -> Prop) (a : A) :
  good (Return a) -> keeps I R good (mret a).
Proof. intros Hgood self HI. cbn. auto. Qed.

Lemma keeps_raise {A : Type} (good : result A -> Prop) (e : exn) :
  good (Raise e) -> keeps I R good (raise e).
Proof. intros Hgood self HI. cbn. auto. Qed.

Lemma keeps_bind {A B : Type} (seen : result A -> Prop)
    (good : result B -> Prop) (m : M A) (k : A -> M B) :
  keeps I R seen m ->
  (forall a, seen (Return a) -> keeps I R good (k a)) ->
  (forall e, seen (Raise e) -> good (Raise e)) ->
  keeps I R good (m ≫= k).
Proof.
  intros Hm Hk Hraise self HI.
  destruct (Hm self HI) as (HI' & HR & Hseen).
  unfold mbind, method_bind.
  destruct (m self) as [[a | e] self'] eqn:Hrun; cbn [fst snd] in *.
  - destruct (Hk a Hseen self' HI') as (HI'' & HR' & Hgood).
    eauto.
  - eauto.
Qed.

Lemma keeps_weaken {A : Type} (seen good : result A -> Prop) (m : M A) :
  keeps I R seen m -> (forall r, seen r -> good r) -> keeps I R good m.
Proof.
  intros Hm Himp self HI. destruct (Hm self HI) as (? & ? & ?). auto.
Qed.

(** A computation that leaves the state alone *)
Lemma keeps_pure {A : Type} (good : result A -> Prop) (m : M A) :
  (forall self, snd (m self) = self) ->
  (forall self, good (fst (m self))) ->
  keeps I R good m.
Proof.
  intros Hstate Hgood self HI. rewrite Hstate. auto.
Qed.

Lemma keeps_for_range (step : M bool) (n : nat) :
  keeps I R (fun _ => True) step ->
  keeps I R (fun _ => True) (for_range n step).
Proof.
  intros Hstep. induction n as [|n IH]; cbn [for_range].
  - now apply keeps_ret.
  - eapply keeps_bind; [exact Hstep | intros _ _; exact IH | auto].
Qed.

End Keeps.

Lemma decode_int_pure (response : string) (self : ProjectorController) :
  exists value, decode_int response self = (Return value, self).
Proof.
  unfold decode_int, try_except, py_int, mbind, method_bind.
  destruct (startswith "Ok" response); [| cbn; eauto].
  destruct (int_literal (slice_from 2 response)); cbn; eauto.
Qed.

Lemma wrote_refl (allowed : string -> bool) (self : ProjectorController) :
  wrote allowed self self.
Proof.
  split; [reflexivity |]. exists []. split; [now rewrite app_nil_r | constructor].
Qed.

Lemma wrote_trans (allowed : string -> bool) (a b c : ProjectorController) :
  wrote allowed a b -> wrote allowed b c -> wrote allowed a c.
Proof.
  intros (Hid & new & Htx & Hnew) (Hid' & new' & Htx' & Hnew').
  split; [congruence |].
  exists (new ++ new')%list. split.
  - rewrite Htx', Htx. now rewrite <- app_assoc.
  - apply Forall_app. split; [exact Hnew |].
    eapply Forall_impl; [exact Hnew' |].
    intros written (command & -> & Hok). exists command.
    split; [| exact Hok]. unfold frame. now rewrite Hid.
Qed.

Lemma send_wrote (allowed : string -> bool) (command : string) :
  allowed command = true ->
  keeps (fun _ => True) (wrote allowed) (fun _ => True) (_send_command command).
Proof.
  intros Hok self _.
  destruct (Anywhere.send_command_effect command self)
    as (r & self' & -> & Hid & _ & _ & Hcases).
  cbn [fst snd]. repeat split; auto.
  destruct Hcases as [[_ ->] | [[_ Htx] | (response & _ & Htx & _)]].
  - exists []. split; [now rewrite app_nil_r | constructor].
  - exists []. split; [now rewrite app_nil_r | constructor].
  - exists [frame self command]. split; [exact Htx |].
    constructor; [| constructor]. eauto.
Qed.


Lemma keeps_bind_ret (I : ProjectorController -> Prop)
    (R : ProjectorController -> ProjectorController -> Prop)
    {A B : Type} (good : result B -> Prop) (a : A) (k : A -> M B) :
  keeps I R good (k a) -> keeps I R good (mret a ≫= k).
Proof. intros H. exact H. Qed.

Lemma keeps_bind_raise (I : ProjectorController -> Prop)
    (R : ProjectorController -> ProjectorController -> Prop)
    {A B : Type} (good : result B -> Prop) (e : exn) (k : A -> M B) :
  keeps I R good (raise e) -> keeps I R good (raise e ≫= k).
Proof. intros H. exact H. Qed.

Lemma keeps_assoc (I : ProjectorController -> Prop)
    (R : ProjectorController -> ProjectorController -> Prop)
    {A B C : Type} (good : result C -> Prop) (m : M A) (k : A -> M B)
    (k' : B -> M C) :
  keeps I R good (m ≫= fun a => k a ≫= k') ->
  keeps I R good ((m ≫= k) ≫= k').
Proof.
  intros H self HI. specialize (H self HI).
  unfold mbind, method_bind in *.
  destruct (m self) as [[a | e] self']; exact H.
Qed.

(** Symbolic execution of a section of [apply_config]: [action] solves
    the goals about setters and queries, [leaf] those about outcomes. *)
Ltac walk action leaf :=
  repeat
    (cbv beta zeta;
     lazymatch goal with
     | |- keeps _ _ _ ((_ ≫= _) ≫= _) => apply keeps_assoc
     | |- keeps _ _ _ (mret _ ≫= _) => apply keeps_bind_ret
     | |- keeps _ _ _ (raise _ ≫= _) => apply keeps_bind_raise
     | |- keeps _ _ _ ((if ?b then _ else _) ≫= _) => destruct b eqn:?
     | |- keeps _ _ _ ((match ?x with _ => _ end) ≫= _) => destruct x eqn:?
     | |- keeps _ _ _ (contained _ (PyStr _) ≫= _) => cbn [contained]
     | |- keeps _ _ _ (contained _ ?v ≫= _) =>
         destruct v; cbn [contained]
     | |- keeps _ _ _ (as_int ?v ≫= _) =>
         destruct v; cbn [as_int]
     | |- keeps _ _ _ (call_bounded _ _ ?v ≫= _) =>
         destruct v; cbn [call_bounded]
     | |- keeps _ _ _ (_ ≫= _) =>
         eapply keeps_bind;
           [leaf | solve [action] | intros ? ? | intros ? ?; leaf]
     | |- keeps _ _ _ (if ?b then _ else _) => destruct b eqn:?
     | |- keeps _ _ _ (match ?x with _ => _ end) => destruct x eqn:?
     | |- keeps _ _ _ (mret _) => apply keeps_ret; leaf
     | |- keeps _ _ _ (raise _) => apply keeps_raise; leaf
     end).

End Trace.

Module Written.

Section Allowed.

Variable allowed : string -> bool.
Hypothesis allowed_ok :
  forall command, startswith "00 " command = false -> allowed command = true.

Lemma exchange_wrote (command : string) :
  allowed command = true ->
  keeps any_state (wrote allowed) (fun _ => True)
    (response ← _send_command command; mret (_check_success response)).
Proof.
  intros Hok.
  eapply Trace.keeps_bind;
    [apply (Trace.wrote_trans allowed) | apply Trace.send_wrote, Hok | |];
    [| auto].
  intros response _.
  apply Trace.keeps_ret; [apply Trace.wrote_refl | exact Logic.I].
Qed.

Lemma get_volume_wrote :
  keeps any_state (wrote allowed) (fun _ => True) get_volume.
Proof.
  eapply Trace.keeps_bind;
    [apply (Trace.wrote_trans allowed)
    | apply Trace.send_wrote, allowed_ok; reflexivity | |];
    [| auto].
  intros response _ self _.
  destruct (Trace.decode_int_pure response self) as (value & ->).
  cbn [fst snd]. repeat split. apply Trace.wrote_refl.
Qed.

Lemma guarded_exchange_wrote (inside : bool) (command : string) :
  startswith "00 " command = false ->
  keeps any_state (wrote allowed) (fun _ => True)
    (if negb inside then mret false
     else response ← _send_command command; mret (_check_success response)).
Proof.
  intros Hcommand. destruct inside; cbn [negb].
  - apply exchange_wrote, allowed_ok, Hcommand.
  - apply Trace.keeps_ret; [apply Trace.wrote_refl | exact Logic.I].
Qed.

Ltac sends :=
  first
    [ apply exchange_wrote; apply allowed_ok; reflexivity
    | apply get_volume_wrote
    | apply Trace.keeps_for_range;
        [apply (Trace.wrote_refl allowed) | apply (Trace.wrote_trans allowed)
        | apply exchange_wrote; apply allowed_ok; reflexivity]
    | apply guarded_exchange_wrote; reflexivity ].

Ltac same_skipped :=
  first
    [ exact Logic.I
    | apply Trace.wrote_refl
    | apply Trace.wrote_trans
    | cbn [unless_raised]; unfold record;
      repeat match goal with
             | |- context [if ?b then _ else _] => destruct b
             end;
      cbn; congruence ].

Ltac section_wrote :=
  Trace.walk sends same_skipped.

Lemma source_wrote (config : gmap string (gmap string pyval))
    (results : Results) :
  keeps any_state (wrote allowed)
    (unless_raised (fun results' => skipped results' = skipped results))
    (apply_source config results).
Proof. unfold apply_source. section_wrote. Qed.

Ltac then_section lemma :=
  eapply Trace.keeps_bind;
    [ same_skipped
    | apply lemma
    | let H := fresh "Hskipped" in intros ? H; cbn [unless_raised] in H
    | intros ? ?; exact Logic.I ].

Ltac last_section lemma :=
  eapply Trace.keeps_weaken;
    [ apply lemma
    | let r := fresh "r" in
      intros [r | ?] ?; cbn [unless_raised] in *; [congruence | exact Logic.I] ].

Lemma display_mode_wrote (display : gmap string pyval) (results : Results) :
  keeps any_state (wrote allowed)
    (unless_raised (fun results' => skipped results' = skipped results))
    (apply_display_mode display results).
Proof. unfold apply_display_mode. section_wrote. Qed.

Lemma projection_mode_wrote (display : gmap string pyval)
    (results : Results) :
  keeps any_state (wrote allowed)
    (unless_raised (fun results' => skipped results' = skipped results))
    (apply_projection_mode display results).
Proof. unfold apply_projection_mode. section_wrote. Qed.

Lemma aspect_ratio_wrote (display : gmap string pyval) (results : Results) :
  keeps any_state (wrote allowed)
    (unless_raised (fun results' => skipped results' = skipped results))
    (apply_aspect_ratio display results).
Proof. unfold apply_aspect_ratio. section_wrote. Qed.

Lemma digital_zoom_wrote (display : gmap string pyval) (results : Results) :
  keeps any_state (wrote allowed)
    (unless_raised (fun results' => skipped results' = skipped results))
    (apply_digital_zoom display results).
Proof. unfold apply_digital_zoom. section_wrote. Qed.

Lemma display_wrote (config : gmap string (gmap string pyval))
    (results : Results) :
  keeps any_state (wrote allowed)
    (unless_raised (fun results' => skipped results' = skipped results))
    (apply_display config results).
Proof.
  unfold apply_display.
  destruct (config !! "display") as [display |];
    [| apply Trace.keeps_ret; same_skipped].
  then_section display_mode_wrote.
  then_section projection_mode_wrote.
  then_section aspect_ratio_wrote.
  last_section digital_zoom_wrote.
Qed.

Lemma bounded_wrote (image : gmap string pyval) (key feature : string)
    (setter : Z -> M bool) (results : Results) :
  (forall rest, startswith "00 " (feature ++ rest) = false) ->
  (forall z, keeps any_state (wrote allowed) (fun _ => True) (setter z)) ->
  keeps any_state (wrote allowed)
    (unless_raised (fun results' => skipped results' = skipped results))
    (apply_bounded image key feature setter results).
Proof.
  intros Hfeature Hsetter. unfold apply_bounded.
  Trace.walk
    ltac:(first [apply Hsetter
                | apply Trace.send_wrote, allowed_ok, Hfeature])
    same_skipped.
Qed.

Lemma color_temperature_wrote (image : gmap string pyval)
    (results : Results) :
  keeps any_state (wrote allowed)
    (unless_raised (fun results' => skipped results' = skipped results))
    (apply_color_temperature image results).
Proof. unfold apply_color_temperature. section_wrote. Qed.

Lemma image_wrote (config : gmap string (gmap string pyval))
    (results : Results) :
  keeps any_state (wrote allowed)
    (unless_raised (fun results' => skipped results' = skipped results))
    (apply_image config results).
Proof.
  unfold apply_image.
  destruct (config !! "image") as [image |];
    [| apply Trace.keeps_ret; same_skipped].
  then_section bounded_wrote;
    [reflexivity | intros z; apply guarded_exchange_wrote; reflexivity |].
  then_section bounded_wrote;
    [reflexivity | intros z; apply guarded_exchange_wrote; reflexivity |].
  last_section color_temperature_wrote.
Qed.

Lemma volume_wrote (audio : gmap string pyval) (results : Results) :
  keeps any_state (wrote allowed)
    (unless_raised (fun results' => skipped results' = skipped results))
    (apply_volume audio results).
Proof. unfold apply_volume. section_wrote. Qed.

Lemma mute_wrote (audio : gmap string pyval) (key : string)
    (turn_on turn_off : M bool) (results : Results) :
  keeps any_state (wrote allowed) (fun _ => True) turn_on ->
  keeps any_state (wrote allowed) (fun _ => True) turn_off ->
  keeps any_state (wrote allowed)
    (unless_raised (fun results' => skipped results' = skipped results))
    (apply_mute audio key turn_on turn_off results).
Proof.
  intros Hon Hoff. unfold apply_mute.
  Trace.walk ltac:(first [apply Hon | apply Hoff]) same_skipped.
Qed.

Lemma audio_wrote (config : gmap string (gmap string pyval))
    (results : Results) :
  keeps any_state (wrote allowed)
    (unless_raised (fun results' => skipped results' = skipped results))
    (apply_config_audio config results).
Proof.
  unfold apply_config_audio.
  destruct (config !! "audio") as [audio |];
    [| apply Trace.keeps_ret; same_skipped].
  then_section volume_wrote.
  then_section mute_wrote; [sends | sends |].
  last_section mute_wrote; sends.
Qed.

Lemma power_wrote (config : gmap string (gmap string pyval))
    (skip_power : bool) (results : Results) :
  (skip_power = false -> forall command, allowed command = true) ->
  keeps any_state (wrote allowed)
    (unless_raised (fun results' =>
       skipped results' =
         (skipped results ++ if skip_power then ["power.state"] else [])%list))
    (apply_power config skip_power results).
Proof.
  intros Hall. unfold apply_power.
  destruct skip_power.
  - apply Trace.keeps_ret; [apply Trace.wrote_refl | reflexivity].
  - specialize (Hall eq_refl).
    Trace.walk ltac:(apply exchange_wrote, Hall)
               ltac:(first [ same_skipped
                           | cbn [unless_raised]; unfold record;
                             repeat match goal with
                                    | |- context [if ?b then _ else _] =>
                                        destruct b
                                    end;
                             cbn; now rewrite app_nil_r ]).
Qed.

Lemma config_wrote (config : gmap string (gmap string pyval))
    (skip_power : bool) :
  (skip_power = false -> forall command, allowed command = true) ->
  keeps any_state (wrote allowed)
    (unless_raised (fun results =>
       skipped results = if skip_power then ["power.state"] else []))
    (apply_config config skip_power).
Proof.
  intros Hall. unfold apply_config.
  then_section power_wrote; [exact Hall |].
  cbn [skipped app] in *.
  then_section source_wrote.
  then_section display_wrote.
  then_section image_wrote.
  last_section audio_wrote.
Qed.

End Allowed.

End Written.

(** X14. Whatever the configuration and the projector, the frames that
    [apply_config] writes carry the controller's address; with
    [skip_power] none of them is a frame of feature [00], the power
    switch, and ['power.state'] is the one skipped item; without
    [skip_power] nothing is skipped. *)
Theorem skipped_power_is_never_switched
    (config : gmap string (gmap string pyval)) (skip_power : bool)
    (self : ProjectorController) :
  let run := apply_config config skip_power self in
  wrote (fun command => negb skip_power || negb (startswith "00 " command))
    self (snd run) /\
  (forall results,
     fst run = Return results ->
     skipped results = if skip_power then ["power.state"] else []).
Proof.
  intros run.
  destruct (Written.config_wrote
              (fun command =>
                 negb skip_power || negb (startswith "00 " command))
              (fun command H =>
                 eq_trans
                   (f_equal (fun b => negb skip_power || negb b) H)
                   (orb_true_r _))
              config skip_power
              (fun H command => f_equal (fun b => negb b || _) H)
              self Logic.I)
    as (_ & Hwrote & Hskipped).
  fold run in Hwrote, Hskipped. split; [exact Hwrote |].
  intros results Hrun. rewrite Hrun in Hskipped. exact Hskipped.
Qed.

(** ** Restoring without a port *)

Module Dead.

Lemma eq_trans_state (a b c : ProjectorController) : a = b -> b = c -> a = c.
Proof. congruence. Qed.

Lemma exchange_dead (command : string) :
  keeps unreachable eq (returning (fun ok => ok = false))
    (response ← _send_command command; mret (_check_success response)).
Proof.
  intros self [Hopen Hcan]. unfold mbind, method_bind.
  rewrite (Reader.send_command_unconnected command self Hopen Hcan).
  cbn. repeat split; assumption.
Qed.

Lemma send_dead (command : string) :
  keeps unreachable eq (returning (fun response => response = ""))
    (_send_command command).
Proof.
  intros self [Hopen Hcan].
  rewrite (Reader.send_command_unconnected command self Hopen Hcan).
  cbn. repeat split; assumption.
Qed.

Lemma guarded_exchange_dead (inside : bool) (command : string) :
  keeps unreachable eq (returning (fun ok => ok = false))
    (if negb inside then mret false
     else response ← _send_command command; mret (_check_success response)).
Proof.
  destruct inside; cbn [negb]; [apply exchange_dead |].
  apply Trace.keeps_ret; reflexivity.
Qed.

Lemma get_volume_dead :
  keeps unreachable eq (returning (fun current => current = None)) get_volume.
Proof.
  intros self [Hopen Hcan]. unfold get_volume, mbind, method_bind.
  rewrite (Reader.send_command_unconnected "120 1" self Hopen Hcan).
  cbn. repeat split; assumption.
Qed.

Lemma unreached {A : Type} (m : M A) :
  False -> keeps unreachable eq (fun _ => True) m.
Proof. intros []. Qed.

Ltac absurd :=
  exfalso; cbn [returning unless_raised] in *; congruence.

Ltac fails :=
  first
    [ apply unreached; cbn [returning unless_raised] in *; congruence
    | apply exchange_dead
    | apply send_dead
    | apply guarded_exchange_dead
    | apply get_volume_dead ].

Ltac success_kept :=
  first
    [ absurd
    | reflexivity
    | exact eq_trans_state
    | exact Logic.I
    | cbn [returning unless_raised] in *; subst; unfold record;
      cbn; congruence ].

Ltac section_dead := Trace.walk fails success_kept.

Ltac then_section lemma :=
  eapply Trace.keeps_bind;
    [ exact eq_trans_state
    | apply lemma
    | let H := fresh "Hsuccess" in
      intros ? H; unfold same_success in H; cbn [unless_raised] in H
    | intros ? ?; exact Logic.I ].

Ltac last_section lemma :=
  eapply Trace.keeps_weaken;
    [ apply lemma
    | let r := fresh "r" in
      intros [r | ?] ?; unfold same_success in *; cbn [unless_raised] in *;
      [congruence | exact Logic.I] ].

Section Success.

Variable results : Results.

Lemma power_dead (config : gmap string (gmap string pyval))
    (skip_power : bool) :
  keeps unreachable eq (same_success results)
    (apply_power config skip_power results).
Proof. unfold apply_power, same_success. section_dead. Qed.

Lemma source_dead (config : gmap string (gmap string pyval)) :
  keeps unreachable eq (same_success results)
    (apply_source config results).
Proof. unfold apply_source, same_success. section_dead. Qed.

Lemma display_mode_dead (display : gmap string pyval) :
  keeps unreachable eq (same_success results)
    (apply_display_mode display results).
Proof. unfold apply_display_mode, same_success. section_dead. Qed.

Lemma projection_mode_dead (display : gmap string pyval) :
  keeps unreachable eq (same_success results)
    (apply_projection_mode display results).
Proof. unfold apply_projection_mode, same_success. section_dead. Qed.

Lemma aspect_ratio_dead (display : gmap string pyval) :
  keeps unreachable eq (same_success results)
    (apply_aspect_ratio display results).
Proof. unfold apply_aspect_ratio, same_success. section_dead. Qed.

Lemma digital_zoom_dead (display : gmap string pyval) :
  keeps unreachable eq (same_success results)
    (apply_digital_zoom display results).
Proof. unfold apply_digital_zoom, same_success. section_dead. Qed.

Lemma bounded_dead (image : gmap string pyval) (key feature : string)
    (setter : Z -> M bool) :
  (forall z, keeps unreachable eq (returning (fun ok => ok = false))
               (setter z)) ->
  keeps unreachable eq (same_success results)
    (apply_bounded image key feature setter results).
Proof.
  intros Hsetter. unfold apply_bounded, same_success.
  Trace.walk ltac:(first [apply Hsetter | fails]) success_kept.
Qed.

Lemma color_temperature_dead (image : gmap string pyval) :
  keeps unreachable eq (same_success results)
    (apply_color_temperature image results).
Proof. unfold apply_color_temperature, same_success. section_dead. Qed.

Lemma volume_dead (audio : gmap string pyval) :
  keeps unreachable eq (same_success results)
    (apply_volume audio results).
Proof. unfold apply_volume, same_success. section_dead. Qed.

Lemma mute_dead (audio : gmap string pyval) (key : string)
    (turn_on turn_off : M bool) :
  keeps unreachable eq (returning (fun ok => ok = false)) turn_on ->
  keeps unreachable eq (returning (fun ok => ok = false)) turn_off ->
  keeps unreachable eq (same_success results)
    (apply_mute audio key turn_on turn_off results).
Proof.
  intros Hon Hoff. unfold apply_mute, same_success.
  Trace.walk ltac:(first [apply Hon | apply Hoff]) success_kept.
Qed.

End Success.

Lemma display_dead (config : gmap string (gmap string pyval))
    (results : Results) :
  keeps unreachable eq
    (unless_raised (fun results' => success results' = success results))
    (apply_display config results).
Proof.
  unfold apply_display.
  destruct (config !! "display") as [display |];
    [| apply Trace.keeps_ret; reflexivity].
  then_section display_mode_dead.
  then_section projection_mode_dead.
  then_section aspect_ratio_dead.
  last_section digital_zoom_dead.
Qed.

Lemma image_dead (config : gmap string (gmap string pyval))
    (results : Results) :
  keeps unreachable eq
    (unless_raised (fun results' => success results' = success results))
    (apply_image config results).
Proof.
  unfold apply_image.
  destruct (config !! "image") as [image |];
    [| apply Trace.keeps_ret; reflexivity].
  then_section bounded_dead; [intros z; apply guarded_exchange_dead |].
  then_section bounded_dead; [intros z; apply guarded_exchange_dead |].
  last_section color_temperature_dead.
Qed.

Lemma audio_dead (config : gmap string (gmap string pyval))
    (results : Results) :
  keeps unreachable eq
    (unless_raised (fun results' => success results' = success results))
    (apply_config_audio config results).
Proof.
  unfold apply_config_audio.
  destruct (config !! "audio") as [audio |];
    [| apply Trace.keeps_ret; reflexivity].
  then_section volume_dead.
  then_section mute_dead; [apply exchange_dead | apply exchange_dead |].
  last_section mute_dead; apply exchange_dead.
Qed.

Lemma config_dead (config : gmap string (gmap string pyval))
    (skip_power : bool) :
  keeps unreachable eq (unless_raised (fun results => success results = []))
    (apply_config config skip_power).
Proof.
  unfold apply_config.
  then_section power_dead. cbn [success] in *.
  then_section source_dead.
  then_section display_dead.
  then_section image_dead.
  last_section audio_dead.
Qed.

End Dead.

(** X15. Without a port to reach, [apply_config] touches nothing and
    reports no success, whatever the configuration asks for: every
    setter fails and the volume cannot be read. *)
Theorem unreachable_restore_reports_no_success
    (config : gmap string (gmap string pyval)) (skip_power : bool)
    (self : ProjectorController) :
  is_open self = false -> openable self = false ->
  snd (apply_config config skip_power self) = self /\
  (forall results,
     fst (apply_config config skip_power self) = Return results ->
     success results = []).
Proof.
  intros Hopen Hcan.
  destruct (Dead.config_dead config skip_power self (conj Hopen Hcan))
    as (_ & Hstate & Hsuccess).
  split; [now symmetry |].
  intros results Hrun. rewrite Hrun in Hsuccess. exact Hsuccess.
Qed.

Lemma unreachable_restore_reports_no_success_witness :
  let config : gmap string (gmap string pyval) :=
    <["audio" := <["audio_mute" := PyBool true]> ∅]> ∅ in
  is_open offline = false /\ openable offline = false /\
  snd (apply_config config true offline) = offline /\
  fst (apply_config config true offline)
  = Return {| success := [];
              failed := ["audio.audio_mute=on"];
              skipped := ["power.state"] |}.
Proof.
  intros config.
  split; [reflexivity |]. split; [reflexivity |].
  destruct (unreachable_restore_reports_no_success config true offline
              eq_refl eq_refl) as [Hstate Hsuccess].
  split; [exact Hstate |]. vm_compute. reflexivity.
Defined.

(** ** Restoring a well-typed configuration *)

Module Typed.

Lemma any_step_trans (a b c : ProjectorController) :
  any_step a b -> any_step b c -> any_step a c.
Proof. intros _ _. exact Logic.I. Qed.

Lemma any_step_refl (a : ProjectorController) : any_step a a.
Proof. exact Logic.I. Qed.

Lemma send_returns (command : string) :
  all_ascii command = true ->
  keeps encodes any_step (returning (fun _ => True)) (_send_command command).
Proof.
  intros Hcommand self Hid.
  destruct (Calls.send_command_returns command self Hid Hcommand)
    as (response & self' & Hrun).
  destruct (Anywhere.send_command_effect command self)
    as (r & s & Hrun' & Hsame & _).
  rewrite Hrun in Hrun'. injection Hrun' as <- <-.
  rewrite Hrun. cbn [fst snd returning]. unfold encodes.
  repeat split. now rewrite Hsame.
Qed.

Lemma exchange_returns (command : string) :
  all_ascii command = true ->
  keeps encodes any_step (returning (fun _ => True))
    (response ← _send_command command; mret (_check_success response)).
Proof.
  intros Hcommand.
  eapply Trace.keeps_bind;
    [exact any_step_trans | apply send_returns, Hcommand | |].
  - intros response _. apply Trace.keeps_ret; [exact any_step_refl |].
    exact Logic.I.
  - intros e [].
Qed.

Lemma all_ascii_numbered (feature : string) (z : Z) :
  all_ascii feature = true -> all_ascii (feature ++ str_of_int z) = true.
Proof.
  intros H. now rewrite Text.all_ascii_app, H, Calls.all_ascii_str_of_int.
Qed.

Lemma guarded_exchange_returns (inside : bool) (command : string) :
  all_ascii command = true ->
  keeps encodes any_step (returning (fun _ => True))
    (if negb inside then mret false
     else response ← _send_command command; mret (_check_success response)).
Proof.
  intros Hcommand. destruct inside; cbn [negb].
  - apply exchange_returns, Hcommand.
  - apply Trace.keeps_ret; [exact any_step_refl | exact Logic.I].
Qed.

Lemma get_volume_returns :
  keeps encodes any_step (returning (fun _ => True)) get_volume.
Proof.
  eapply Trace.keeps_bind;
    [exact any_step_trans | apply send_returns; reflexivity | |].
  - intros response _ self Hid.
    destruct (Trace.decode_int_pure response self) as (value & ->).
    cbn. repeat split. exact Hid.
  - intros e [].
Qed.

Lemma for_range_returns (step : M bool) (n : nat) :
  keeps encodes any_step (returning (fun _ => True)) step ->
  keeps encodes any_step (returning (fun _ => True)) (for_range n step).
Proof.
  intros Hstep. induction n as [|n IH]; cbn [for_range].
  - apply Trace.keeps_ret; [exact any_step_refl | exact Logic.I].
  - eapply Trace.keeps_bind;
      [exact any_step_trans | exact Hstep | intros _ _; exact IH | intros e []].
Qed.

Lemma never_reached {A : Type} (m : M A) :
  False -> keeps encodes any_step (fun _ => True) m.
Proof. intros []. Qed.

Ltac contradict :=
  repeat match goal with
         | E : ?x = Some _, H : context [?x] |- _ => rewrite E in H
         end;
  cbn [text_or_skipped number_or_skipped truthy is_not_none returning] in *;
  repeat match goal with
         | E : ?b = true, H : context [negb ?b] |- _ => rewrite E in H
         end;
  cbn [negb] in *;
  first [contradiction | discriminate | congruence].

Ltac returns :=
  first
    [ apply exchange_returns; reflexivity
    | apply guarded_exchange_returns, all_ascii_numbered; reflexivity
    | apply get_volume_returns
    | apply for_range_returns, exchange_returns; reflexivity
    | apply send_returns;
      repeat match goal with
             | |- context [py_str (PyBool ?b)] => destruct b
             end;
      reflexivity
    | apply never_reached; contradict ].

Ltac fine :=
  first
    [ exact Logic.I
    | exact any_step_refl
    | exact any_step_trans
    | exfalso; contradict ].

Ltac section_returns := Trace.walk returns fine.

Ltac then_section lemma :=
  eapply Trace.keeps_bind;
    [ exact any_step_trans
    | apply lemma
    | intros ? _
    | intros ? [] ].

Lemma power_returns (config : gmap string (gmap string pyval))
    (skip_power : bool) (results : Results) :
  keeps encodes any_step (returning (fun _ => True))
    (apply_power config skip_power results).
Proof. unfold apply_power. section_returns. Qed.

Lemma source_returns (config : gmap string (gmap string pyval))
    (results : Results) :
  keeps encodes any_step (returning (fun _ => True))
    (apply_source config results).
Proof. unfold apply_source. section_returns. Qed.

Lemma display_mode_returns (display : gmap string pyval) (results : Results) :
  keeps encodes any_step (returning (fun _ => True))
    (apply_display_mode display results).
Proof. unfold apply_display_mode. section_returns. Qed.

Lemma projection_mode_returns (display : gmap string pyval)
    (results : Results) :
  text_or_skipped (display !! "projection_mode") = true ->
  keeps encodes any_step (returning (fun _ => True))
    (apply_projection_mode display results).
Proof. intros Htype. unfold apply_projection_mode. section_returns. Qed.

Lemma aspect_ratio_returns (display : gmap string pyval) (results : Results) :
  text_or_skipped (display !! "aspect_ratio") = true ->
  keeps encodes any_step (returning (fun _ => True))
    (apply_aspect_ratio display results).
Proof. intros Htype. unfold apply_aspect_ratio. section_returns. Qed.

Lemma digital_zoom_returns (display : gmap string pyval) (results : Results) :
  keeps encodes any_step (returning (fun _ => True))
    (apply_digital_zoom display results).
Proof. unfold apply_digital_zoom. section_returns. Qed.

Lemma bounded_returns (image : gmap string pyval) (key feature : string)
    (setter : Z -> M bool) (results : Results) :
  all_ascii feature = true ->
  (forall z, keeps encodes any_step (returning (fun _ => True)) (setter z)) ->
  number_or_skipped (image !! key) = true ->
  keeps encodes any_step (returning (fun _ => True))
    (apply_bounded image key feature setter results).
Proof.
  intros Hfeature Hsetter Htype. unfold apply_bounded.
  Trace.walk
    ltac:(first [ apply Hsetter
                | apply send_returns; rewrite Text.all_ascii_app, Hfeature;
                  match goal with
                  | |- context [py_str (PyBool ?b)] => destruct b
                  end; reflexivity
                | returns ])
    fine.
Qed.

Lemma color_temperature_returns (image : gmap string pyval)
    (results : Results) :
  text_or_skipped (image !! "color_temperature") = true ->
  keeps encodes any_step (returning (fun _ => True))
    (apply_color_temperature image results).
Proof. intros Htype. unfold apply_color_temperature. section_returns. Qed.

Lemma volume_returns (audio : gmap string pyval) (results : Results) :
  number_or_skipped (audio !! "volume") = true ->
  keeps encodes any_step (returning (fun _ => True))
    (apply_volume audio results).
Proof. intros Htype. unfold apply_volume. section_returns. Qed.

Lemma mute_returns (audio : gmap string pyval) (key : string)
    (turn_on turn_off : M bool) (results : Results) :
  keeps encodes any_step (returning (fun _ => True)) turn_on ->
  keeps encodes any_step (returning (fun _ => True)) turn_off ->
  keeps encodes any_step (returning (fun _ => True))
    (apply_mute audio key turn_on turn_off results).
Proof.
  intros Hon Hoff. unfold apply_mute.
  Trace.walk ltac:(first [apply Hon | apply Hoff]) fine.
Qed.

Lemma display_returns (config : gmap string (gmap string pyval))
    (results : Results) :
  text_or_skipped (setting_of config "display" "projection_mode") = true ->
  text_or_skipped (setting_of config "display" "aspect_ratio") = true ->
  keeps encodes any_step (returning (fun _ => True))
    (apply_display config results).
Proof.
  unfold setting_of, apply_display. intros Hprojection Haspect.
  destruct (config !! "display") as [display |];
    [| apply Trace.keeps_ret; fine].
  then_section display_mode_returns.
  then_section projection_mode_returns; [assumption |].
  then_section aspect_ratio_returns; [assumption |].
  apply digital_zoom_returns.
Qed.

Lemma image_returns (config : gmap string (gmap string pyval))
    (results : Results) :
  text_or_skipped (setting_of config "image" "color_temperature") = true ->
  number_or_skipped (setting_of config "image" "brightness") = true ->
  number_or_skipped (setting_of config "image" "contrast") = true ->
  keeps encodes any_step (returning (fun _ => True))
    (apply_image config results).
Proof.
  unfold setting_of, apply_image. intros Hcolor Hbrightness Hcontrast.
  destruct (config !! "image") as [image |];
    [| apply Trace.keeps_ret; fine].
  then_section bounded_returns;
    [ reflexivity
    | intros z; apply guarded_exchange_returns, all_ascii_numbered;
      reflexivity
    | assumption |].
  then_section bounded_returns;
    [ reflexivity
    | intros z; apply guarded_exchange_returns, all_ascii_numbered;
      reflexivity
    | assumption |].
  now apply color_temperature_returns.
Qed.

Lemma audio_returns (config : gmap string (gmap string pyval))
    (results : Results) :
  number_or_skipped (setting_of config "audio" "volume") = true ->
  keeps encodes any_step (returning (fun _ => True))
    (apply_config_audio config results).
Proof.
  unfold setting_of, apply_config_audio. intros Hvolume.
  destruct (config !! "audio") as [audio |];
    [| apply Trace.keeps_ret; fine].
  then_section volume_returns; [assumption |].
  then_section mute_returns; [returns | returns |].
  apply mute_returns; returns.
Qed.

Lemma config_returns (config : gmap string (gmap string pyval))
    (skip_power : bool) :
  well_typed config = true ->
  keeps encodes any_step (returning (fun _ => True))
    (apply_config config skip_power).
Proof.
  unfold well_typed. intros Htype.
  repeat (apply andb_prop in Htype as [Htype ?]).
  unfold apply_config.
  then_section power_returns.
  then_section source_returns.
  then_section display_returns; [assumption | assumption |].
  then_section image_returns; [assumption | assumption | assumption |].
  now apply audio_returns.
Qed.

End Typed.



(** ** Capturing a configuration *)

Module Capture.

Lemma raised_through {A : Type} (e : exn) :
  returning (fun _ : A => True) (Raise e) ->
  raising_only IndexError (fun _ : A => True) (Raise e).
Proof. intros []. Qed.

Ltac settled :=
  first
    [ exact Logic.I
    | reflexivity
    | exact Typed.any_step_refl
    | exact Typed.any_step_trans
    | cbn [returning raising_only] in *; first [contradiction | assumption] ].

Ltac query_returns :=
  Trace.walk ltac:(apply Typed.send_returns; reflexivity) settled.

Lemma decoded_returns {A : Type} (command : string) (decode : string -> A) :
  all_ascii command = true ->
  keeps encodes any_step (raising_only IndexError (fun _ => True))
    (response ← _send_command command; mret (decode response)).
Proof.
  intros Hcommand.
  Trace.walk ltac:(apply Typed.send_returns, Hcommand) settled.
Qed.

Lemma number_returns (command : string) :
  all_ascii command = true ->
  keeps encodes any_step (raising_only IndexError (fun _ => True))
    (response ← _send_command command; decode_int response).
Proof.
  intros Hcommand.
  Trace.walk ltac:(apply Typed.send_returns, Hcommand) settled.
  intros self Hid.
  destruct (Trace.decode_int_pure a self) as (value & ->).
  cbn. repeat split. exact Hid.
Qed.

Lemma get_input_source_returns :
  keeps encodes any_step (raising_only IndexError (fun _ => True))
    get_input_source.
Proof. unfold get_input_source. query_returns. Qed.

Lemma get_display_mode_returns :
  keeps encodes any_step (raising_only IndexError (fun _ => True))
    get_display_mode.
Proof. unfold get_display_mode. query_returns. Qed.

Lemma get_aspect_ratio_returns :
  keeps encodes any_step (raising_only IndexError (fun _ => True))
    get_aspect_ratio.
Proof. unfold get_aspect_ratio. query_returns. Qed.

Lemma get_software_version_returns :
  keeps encodes any_step (raising_only IndexError (fun _ => True))
    get_software_version.
Proof. unfold get_software_version. query_returns. Qed.

Lemma get_projection_mode_returns :
  keeps encodes any_step (raising_only IndexError (fun _ => True))
    get_projection_mode.
Proof. unfold get_projection_mode, py_index. query_returns. Qed.

Lemma get_color_temperature_returns :
  keeps encodes any_step (raising_only IndexError (fun _ => True))
    get_color_temperature.
Proof. unfold get_color_temperature, py_index. query_returns. Qed.

Lemma get_digital_zoom_returns :
  keeps encodes any_step (raising_only IndexError (fun _ => True))
    get_digital_zoom.
Proof. unfold get_digital_zoom, py_index. query_returns. Qed.

Lemma read_fan_returns (fan : Z * string) (fans : gmap string (option Z)) :
  keeps encodes any_step (raising_only IndexError (fun _ => True))
    (read_fan fan fans).
Proof.
  destruct fan as [fan_num fan_name]. intros self Hid.
  destruct (Quiet.read_fan_entry fan_num fan_name fans self Hid)
    as (rpm & self' & -> & Hid').
  cbn. repeat split. exact Hid'.
Qed.

Lemma get_fan_speeds_returns :
  keeps encodes any_step (raising_only IndexError (fun _ => True))
    get_fan_speeds.
Proof.
  unfold get_fan_speeds, fan_table. cbn [for_each].
  Trace.walk ltac:(apply read_fan_returns) settled.
Qed.

Ltac asks :=
  first
    [ apply decoded_returns; reflexivity
    | apply number_returns; reflexivity
    | apply get_input_source_returns
    | apply get_display_mode_returns
    | apply get_aspect_ratio_returns
    | apply get_software_version_returns
    | apply get_projection_mode_returns
    | apply get_color_temperature_returns
    | apply get_digital_zoom_returns
    | apply get_fan_speeds_returns ].

Lemma capture_returns (now : string) :
  keeps encodes any_step
    (raising_only IndexError
       (fun config => well_typed (plain_settings config) = true))
    (capture_config now).
Proof.
  unfold capture_config.
  Trace.walk asks settled.
  apply Trace.keeps_ret; [exact Typed.any_step_refl |].
  cbn [raising_only]. vm_compute.
  repeat match goal with
         | |- context [match ?x with _ => _ end] => is_var x; destruct x
         end;
    reflexivity.
Qed.

End Capture.

(** X17. With an address that encodes, [capture_config] raises nothing
    but [IndexError] (from the three queries that take [response[2]],
    which it does not guard), and a configuration that it returns is
    well typed: restoring it, on this or another controller whose
    address encodes, never raises. *)
Theorem captured_configuration_restores_without_raising (now : string)
    (self : ProjectorController) :
  all_ascii (device_id self) = true ->
  match fst (capture_config now self) with
  | Return config =>
      well_typed (plain_settings config) = true /\
      forall (skip_power : bool) (other : ProjectorController),
        all_ascii (device_id other) = true ->
        exists results,
          fst (apply_config (plain_settings config) skip_power other)
          = Return results
  | Raise e => e = IndexError
  end.
Proof.
  intros Hid.
  destruct (Capture.capture_returns now self Hid) as (_ & _ & Hcapture).
  destruct (fst (capture_config now self)) as [config | e];
    cbn [raising_only] in Hcapture; [| exact Hcapture].
  split; [exact Hcapture |].
  intros skip_power other Hother.
  destruct (Typed.config_returns (plain_settings config) skip_power
              Hcapture other Hother) as (_ & _ & Hreturns).
  destruct (fst (apply_config (plain_settings config) skip_power other))
    as [results | e]; [eauto | destruct Hreturns].
Qed.

Lemma captured_configuration_restores_without_raising_witness :
  let self := bench (answering (fun _ => "Ok1")) in
  let bare := bench (answering (fun _ => "Ok")) in
  all_ascii (device_id self) = true /\ all_ascii (device_id bare) = true /\
  (exists config,
     fst (capture_config "2025-01-01T00:00:00" self) = Return config /\
     well_typed (plain_settings config) = true) /\
  fst (capture_config "2025-01-01T00:00:00" bare) = Raise IndexError.
Proof.
  intros self bare.
  split; [reflexivity |]. split; [reflexivity |].
  pose proof (captured_configuration_restores_without_raising
                "2025-01-01T00:00:00" self eq_refl) as Hself.
  pose proof (captured_configuration_restores_without_raising
                "2025-01-01T00:00:00" bare eq_refl) as Hbare.
  split.
  - destruct (fst (capture_config "2025-01-01T00:00:00" self))
      as [config | e] eqn:Hrun.
    + exists config. split; [reflexivity | apply Hself].
    + apply (f_equal (fun outcome =>
                        match outcome with
                        | Return _ => true
                        | Raise _ => false
                        end)) in Hrun.
      vm_compute in Hrun. discriminate Hrun.
  - destruct (fst (capture_config "2025-01-01T00:00:00" bare))
      as [config | e] eqn:Hrun.
    + apply (f_equal (fun outcome =>
                        match outcome with
                        | Return _ => true
                        | Raise _ => false
                        end)) in Hrun.
      vm_compute in Hrun. discriminate Hrun.
    + f_equal. exact Hbare.
Defined.

(** X18. Without a port to reach, [capture_config] still returns a
    configuration and leaves the controller as it was.  Restoring
    that configuration writes nothing on any controller and reports
    exactly one failure, ['source.input=None'], and no success: the
    source is the one setting that [apply_config] does not test for
    [None]. *)
Theorem unreachable_capture_restores_as_one_failure (now : string)
    (self : ProjectorController) :
  is_open self = false -> openable self = false ->
  exists config,
    capture_config now self = (Return config, self) /\
    forall (skip_power : bool) (other : ProjectorController),
      apply_config (plain_settings config) skip_power other
      = (Return {| success := [];
                   failed := ["source.input=None"];
                   skipped := if skip_power then ["power.state"] else [] |},
         other).
Proof.
  intros Hopen Hcan.
  destruct self as [address port_open can_open received written time wire].
  cbn in Hopen, Hcan. subst port_open can_open.
  set (self := {| device_id := address; is_open := false;
                  openable := false; rx := received; tx := written;
                  clock := time; line := wire |}).
  assert (Hstate : snd (capture_config now self) = self)
    by (vm_compute; reflexivity).
  assert (Hrestore :
            forall (skip_power : bool) (other : ProjectorController),
              match fst (capture_config now self) with
              | Return config =>
                  apply_config (plain_settings config) skip_power other
                  = (Return {| success := [];
                               failed := ["source.input=None"];
                               skipped := if skip_power then ["power.state"]
                                          else [] |},
                     other)
              | Raise _ => False
              end)
    by (intros [|] other; vm_compute; reflexivity).
  destruct (capture_config now self) as [[config | e] self'];
    cbn [fst snd] in Hstate, Hrestore.
  - exists config. subst self'. split; [reflexivity | exact Hrestore].
  - destruct (Hrestore true self).
Qed.

Lemma unreachable_capture_restores_as_one_failure_witness :
  is_open offline = false /\ openable offline = false /\
  snd (capture_config "2025-01-01T00:00:00" offline) = offline /\
  exists config,
    fst (capture_config "2025-01-01T00:00:00" offline) = Return config /\
    fst (apply_config (plain_settings config) true
           (bench (answering (fun _ => "P"))))
    = Return {| success := [];
                failed := ["source.input=None"];
                skipped := ["power.state"] |}.
Proof.
  split; [reflexivity |]. split; [reflexivity |].
  destruct (unreachable_capture_restores_as_one_failure
              "2025-01-01T00:00:00" offline eq_refl eq_refl)
    as (config & Hcapture & Hrestore).
  rewrite Hcapture. split; [reflexivity |].
  exists config. split; [reflexivity |].
  now rewrite Hrestore.
Defined.

(** ** Labels, captured and restored *)

Module Labels.

(** The entries of a table given as a list *)
Ltac entries H :=
  apply elem_of_list_to_map_2 in H;
  repeat (apply elem_of_cons in H as [H | H];
          [injection H as -> -> |]);
  [.. | apply elem_of_nil in H; destruct H].

End Labels.

(** X19. Aspect ratio and digital zoom survive capture and restore:
    for every code of the table of [get_aspect_ratio] or of
    [get_digital_zoom], restoring the label captured for that code
    sends the set command with the same code ([60 <code>],
    [62 <code>]) and records its result under the label. *)
Theorem aspect_and_zoom_restore_their_code (code label : string)
    (display : gmap string pyval) (results : Results) :
  (aspect_ratio_map !! code = Some label ->
   display !! "aspect_ratio" = Some (PyStr label) ->
   apply_aspect_ratio display results =
     (ok ← (response ← _send_command ("60 " ++ code);
            mret (_check_success response));
      mret (record results ok ("display.aspect_ratio=" ++ label)))) /\
  (digital_zoom_map !! code = Some label ->
   display !! "digital_zoom" = Some (PyStr label) ->
   apply_digital_zoom display results =
     (ok ← (response ← _send_command ("62 " ++ code);
            mret (_check_success response));
      mret (record results ok ("display.digital_zoom=" ++ label)))).
Proof.
  split; intros Hlabel Hstored.
  - unfold apply_aspect_ratio. rewrite Hstored.
    unfold aspect_ratio_map in Hlabel. Labels.entries Hlabel; reflexivity.
  - unfold apply_digital_zoom. rewrite Hstored.
    unfold digital_zoom_map in Hlabel. Labels.entries Hlabel; reflexivity.
Qed.

Lemma aspect_and_zoom_restore_their_code_witness :
  let display : gmap string pyval :=
    <["aspect_ratio" := PyStr "16:10"]> (<["digital_zoom" := PyStr "125%"]> ∅) in
  let results := {| success := []; failed := []; skipped := [] |} in
  let self := bench (answering (fun _ => "P")) in
  aspect_ratio_map !! "3" = Some "16:10" /\
  digital_zoom_map !! "3" = Some "125%" /\
  display !! "aspect_ratio" = Some (PyStr "16:10") /\
  display !! "digital_zoom" = Some (PyStr "125%") /\
  tx (snd (apply_aspect_ratio display results self)) = ["~0060 3" ++ CR] /\
  tx (snd (apply_digital_zoom display results self)) = ["~0062 3" ++ CR].
Proof.
  intros display results self.
  do 4 (split; [reflexivity |]).
  destruct (aspect_and_zoom_restore_their_code "3" "16:10" display results)
    as [Haspect _].
  destruct (aspect_and_zoom_restore_their_code "3" "125%" display results)
    as [_ Hzoom].
  rewrite (Haspect eq_refl eq_refl), (Hzoom eq_refl eq_refl).
  split; vm_compute; reflexivity.
Defined.

(** X20. The input source does not survive capture and restore: of the
    two labels of the table of [get_input_source], ['HDMI 1'] (code 7)
    restores with [set_source_hdmi], but
    ['Android Home (USB-A/SD Card)'] (code 20) restores with
    [set_source_usb], because ['USB'] is tested before ['Android'];
    [set_source_android_home] is never chosen for a captured label of
    the table. *)
Theorem android_home_restores_as_usb (code label : string)
    (config : gmap string (gmap string pyval)) (results : Results) :
  input_source_map !! code = Some label ->
  setting_of config "source" "input" = Some (PyStr label) ->
  apply_source config results =
    (ok ← (if String.eqb code "7" then set_source_hdmi else set_source_usb);
     mret (record results ok ("source.input=" ++ label))).
Proof.
  intros Hlabel Hstored. unfold setting_of in Hstored. unfold apply_source.
  destruct (config !! "source") as [section |]; [| discriminate].
  rewrite Hstored.
  unfold input_source_map in Hlabel. Labels.entries Hlabel; reflexivity.
Qed.

Lemma android_home_restores_as_usb_witness :
  let label := "Android Home (USB-A/SD Card)" in
  let config : gmap string (gmap string pyval) :=
    <["source" := <["input" := PyStr label]> ∅]> ∅ in
  let results := {| success := []; failed := []; skipped := [] |} in
  let self := bench (answering (fun _ => "P")) in
  input_source_map !! "20" = Some label /\
  setting_of config "source" "input" = Some (PyStr label) /\
  tx (snd (apply_source config results self)) = ["~0012 17" ++ CR] /\
  tx (snd (set_source_android_home self)) = ["~0012 24" ++ CR].
Proof.
  intros label config results self.
  do 2 (split; [reflexivity |]).
  rewrite (android_home_restores_as_usb "20" label config results
             eq_refl eq_refl).
  split; vm_compute; reflexivity.
Defined.

(** ** The two decoders of the system information *)

Module Decoders.

Ltac known code key :=
  destruct (decide (code = key)) as [-> | ?]; [reflexivity |].

Lemma source_labels (code fallback : string) :
  code <> "20" ->
  dict_get system_source_map code fallback
  = dict_get status_source_map code fallback.
Proof.
  intros Hcode. unfold dict_get. known code "07".
  unfold system_source_map, status_source_map.
  rewrite !list_to_map_cons, !list_to_map_nil. cbn [fst snd].
  rewrite !lookup_insert_ne by congruence. reflexivity.
Qed.

Lemma mode_labels (code fallback : string) :
  code <> "29" ->
  dict_get system_mode_map code fallback
  = dict_get status_mode_map code fallback.
Proof.
  intros Hcode. unfold dict_get.
  known code "01". known code "02". known code "03". known code "04".
  known code "14". known code "28".
  unfold system_mode_map, status_mode_map.
  rewrite !list_to_map_cons, !list_to_map_nil. cbn [fst snd].
  rewrite !lookup_insert_ne by congruence. reflexivity.
Qed.

Lemma flag_text (c : ascii) :
  (if String.eqb (String c "") "1" then "On" else "Off")
  = (if Ascii.eqb c "1" then "On" else "Off").
Proof. cbn [String.eqb]. now destruct (Ascii.eqb c "1"). Qed.

Lemma parse_returns (response : string) :
  exists parsed, parse_system_info response = Return parsed.
Proof.
  unfold parse_system_info.
  destruct (negb (startswith "Ok" response)); [eauto |].
  destruct (13 <=? String.length (slice_from 2 response))%nat eqn:Hlen;
    [| eauto].
  destruct (slice_from 2 response) as [|c rest]; [discriminate Hlen |].
  cbn [String.get]. eauto.
Qed.

End Decoders.

(** X21. The two decoders of the system-information reply, on the same
    response: [parse_system_info] never raises; where
    [get_system_info] raises, it is [ValueError] and
    [parse_system_info] holds the lamp-hours text that [int] rejects;
    where both return a record, power and firmware agree, the lamp
    hours of the one are [int] of the lamp-hours text of the other,
    and the labels agree except for source code 20 and picture mode
    29, which the two tables spell differently. *)
Theorem two_decoders_of_system_info (data : string)
    (self self' : ProjectorController) :
  _send_command "150 1" self = (Return ("Ok" ++ data), self') ->
  (forall response, exists parsed, parse_system_info response = Return parsed) /\
  (forall ginfo pinfo,
     get_system_info self = (Return ginfo, self') ->
     parse_system_info ("Ok" ++ data) = Return (Some pinfo) ->
     ginfo !! "power" = fmap (M := option) PyStr (pinfo !! "power_status") /\
     ginfo !! "firmware"
     = fmap (M := option) PyStr (pinfo !! "firmware_version") /\
     (exists text hours,
        pinfo !! "lamp_hours" = Some text /\
        int_literal text = Some hours /\
        ginfo !! "lamp_hours" = Some (PyInt hours)) /\
     (slice 6 8 data <> "20" ->
      ginfo !! "input_source"
      = fmap (M := option) PyStr (pinfo !! "input_source")) /\
     (14 <= String.length data -> slice 12 14 data <> "29" ->
      ginfo !! "picture_mode"
      = fmap (M := option) PyStr (pinfo !! "picture_mode"))) /\
  (forall e,
     fst (get_system_info self) = Raise e ->
     e = ValueError /\
     exists pinfo text,
       parse_system_info ("Ok" ++ data) = Return (Some pinfo) /\
       pinfo !! "lamp_hours" = Some text /\ int_literal text = None).
Proof.
  intros Hrun. split; [exact Decoders.parse_returns |].
  assert (Hget : get_system_info self =
            (if (13 <=? String.length data)%nat then
               match data with
               | EmptyString => raise IndexError
               | String c _ =>
                   match int_literal (slice 1 6 data) with
                   | Some hours =>
                       let info : gmap string pyval :=
                         <["firmware" := PyStr (slice 8 12 data)]>
                         (<["input_source" :=
                              PyStr (dict_get system_source_map (slice 6 8 data)
                                       ("Unknown (" ++ slice 6 8 data ++ ")"))]>
                          (<["lamp_hours" := PyInt hours]>
                           (<["power" :=
                                PyStr (if String.eqb (String c "") "1"
                                       then "On" else "Off")]> ∅))) in
                       if (14 <=? String.length data)%nat then
                         mret (<["picture_mode" :=
                                  PyStr (dict_get system_mode_map
                                           (slice 12 14 data)
                                           ("Unknown (" ++ slice 12 14 data
                                            ++ ")"))]> info)
                       else mret info
                   | None => raise ValueError
                   end
               end
             else mret ∅) self').
  { unfold get_system_info, mbind at 1, method_bind at 1. rewrite Hrun.
    SystemInfo.strip_prefix data.
    change (15 <=? S (S (String.length data)))%nat
      with (13 <=? String.length data)%nat.
    destruct (13 <=? String.length data)%nat; cbn [andb]; [| reflexivity].
    destruct data as [|c rest]; [reflexivity |].
    unfold py_index, py_int, mbind, method_bind. cbn [String.get].
    cbn [mret method_ret].
    destruct (int_literal (slice 1 6 (String c rest))); reflexivity. }
  rewrite Hget. clear Hget.
  unfold parse_system_info. SystemInfo.strip_prefix data. cbn [negb].
  destruct (13 <=? String.length data)%nat eqn:Hlen.
  2: { split; [intros ginfo pinfo _ Hparse; discriminate Hparse |].
       intros e He. discriminate He. }
  destruct data as [|c rest]; [discriminate Hlen |].
  cbn [String.get]. cbv zeta.
  destruct (int_literal (slice 1 6 (String c rest))) as [hours |] eqn:Hint.
  - split; [| intros e He;
              destruct (14 <=? String.length (String c rest))%nat;
              discriminate He].
    intros ginfo pinfo Hg Hp. injection Hp as <-.
    assert (Hginfo : exists extra : option pyval,
              ginfo = from_option (fun v => <["picture_mode" := v]>) id extra
                        (<["firmware" := PyStr (slice 8 12 (String c rest))]>
                         (<["input_source" :=
                              PyStr (dict_get system_source_map
                                       (slice 6 8 (String c rest))
                                       ("Unknown ("
                                        ++ slice 6 8 (String c rest) ++ ")"))]>
                          (<["lamp_hours" := PyInt hours]>
                           (<["power" :=
                                PyStr (if String.eqb (String c "") "1"
                                       then "On" else "Off")]> ∅)))) /\
              ((14 <=? String.length (String c rest))%nat = true ->
               extra = Some (PyStr (dict_get system_mode_map
                                      (slice 12 14 (String c rest))
                                      ("Unknown ("
                                       ++ slice 12 14 (String c rest)
                                       ++ ")"))))).
    { destruct (14 <=? String.length (String c rest))%nat;
        injection Hg as <-.
      - eexists (Some _). split; [reflexivity | reflexivity].
      - exists None. split; [reflexivity | discriminate]. }
    destruct Hginfo as (extra & -> & Hextra).
    assert (Hpast : forall key (m : gmap string pyval),
              key <> "picture_mode" ->
              from_option (fun v => <["picture_mode" := v]>) id extra m !! key
              = m !! key).
    { intros key m Hkey. destruct extra; cbn [from_option id];
        [now rewrite lookup_insert_ne by congruence | reflexivity]. }
    split; [| split; [| split; [| split]]].
    + rewrite Hpast by discriminate.
      rewrite Decoders.flag_text. SystemInfo.field.
    + rewrite Hpast by discriminate. SystemInfo.field.
    + exists (slice 1 6 (String c rest)), hours.
      split; [SystemInfo.field |]. split; [exact Hint |].
      rewrite Hpast by discriminate. SystemInfo.field.
    + intros Hcode. rewrite Hpast by discriminate.
      rewrite (Decoders.source_labels _ _ Hcode). SystemInfo.field.
    + intros H14 Hcode. apply Nat.leb_le in H14.
      rewrite (Hextra H14). cbn [from_option].
      rewrite (Decoders.mode_labels _ _ Hcode). SystemInfo.field.
  - split; [intros ginfo pinfo Hg; discriminate Hg |].
    intros e He. injection He as <-. split; [reflexivity |].
    eexists _, (slice 1 6 (String c rest)).
    split; [reflexivity |]. split; [SystemInfo.field | exact Hint].
Qed.

Lemma two_decoders_of_system_info_witness :
  let self := bench (answering (fun _ => "Ok10012320720029")) in
  let self' := snd (_send_command "150 1" self) in
  _send_command "150 1" self = (Return ("Ok" ++ "10012320720029"), self') /\
  exists ginfo pinfo,
    get_system_info self = (Return ginfo, self') /\
    parse_system_info ("Ok" ++ "10012320720029") = Return (Some pinfo) /\
    ginfo !! "firmware" = Some (PyStr "7200") /\
    pinfo !! "firmware_version" = Some "7200" /\
    ginfo !! "input_source" = Some (PyStr "Android Home (USB-A/SD Card)") /\
    pinfo !! "input_source" = Some "Android (USB-A/SD Card/Home)" /\
    ginfo !! "picture_mode" = Some (PyStr "Unknown (29)") /\
    pinfo !! "picture_mode" = Some "iDevice".
Proof.
  intros self self'.
  assert (Hrun : _send_command "150 1" self
                 = (Return ("Ok" ++ "10012320720029"), self'))
    by (vm_compute; reflexivity).
  split; [exact Hrun |].
  destruct (two_decoders_of_system_info "10012320720029" self self' Hrun)
    as (_ & Hagree & _).
  set (ginfo := match fst (get_system_info self) with
                | Return ginfo => ginfo
                | Raise _ => ∅
                end).
  set (pinfo := match parse_system_info ("Ok" ++ "10012320720029") with
                | Return (Some pinfo) => pinfo
                | _ => ∅
                end).
  assert (Hget : get_system_info self = (Return ginfo, self'))
    by reflexivity.
  assert (Hparse : parse_system_info ("Ok" ++ "10012320720029")
                   = Return (Some pinfo))
    by reflexivity.
  destruct (Hagree ginfo pinfo Hget Hparse) as (_ & Hfirmware & _).
  exists ginfo, pinfo.
  split; [exact Hget |]. split; [exact Hparse |].
  split; [etransitivity; [exact Hfirmware | vm_compute; reflexivity] |].
  repeat split; vm_compute; reflexivity.
Defined.

(** ** Confirmations in the menus *)

Module Menus.

Section Allowed.

Variable allowed : string -> bool.

Lemma sent_wrote {A : Type} (command : string) (decode : string -> A) :
  allowed command = true ->
  keeps any_state (wrote allowed) (fun _ => True)
    (response ← _send_command command; mret (decode response)).
Proof.
  intros Hok.
  eapply Trace.keeps_bind;
    [apply (Trace.wrote_trans allowed) | apply Trace.send_wrote, Hok | |];
    [| auto].
  intros response _.
  apply Trace.keeps_ret; [apply Trace.wrote_refl | exact Logic.I].
Qed.

Lemma and_then_wrote {A : Type} (m : M A)
    (k : A -> ProjectorController -> menu_result * ProjectorController)
    (self : ProjectorController) :
  keeps any_state (wrote allowed) (fun _ => True) m ->
  (forall a s, wrote allowed s (snd (k a s))) ->
  wrote allowed self (snd (and_then m k self)).
Proof.
  intros Hm Hk. unfold and_then.
  destruct (Hm self Logic.I) as (_ & Hwrote & _).
  destruct (m self) as [[a | e] self']; cbn [fst snd] in *.
  - eapply Trace.wrote_trans; [exact Hwrote | apply Hk].
  - exact Hwrote.
Qed.

Lemma language_wrote (text : string) :
  (forall z, allowed ("70 " ++ str_of_int z) = true) ->
  keeps any_state (wrote allowed) (fun _ => True)
    (lang ← py_int text; set_language lang).
Proof.
  intros Hok. unfold py_int.
  destruct (int_literal text) as [z |].
  - apply Trace.keeps_bind_ret. apply sent_wrote, Hok.
  - apply Trace.keeps_bind_raise.
    apply Trace.keeps_raise; [apply Trace.wrote_refl | exact Logic.I].
Qed.

End Allowed.

Lemma power_menu_wrote (n : nat) :
  forall (inputs : list string) (self : ProjectorController),
    length inputs <= n ->
    Forall (fun line => yes_or_y (answer_of line) = false) inputs ->
    wrote (fun command => negb (String.eqb command "00 0")) self
      (snd (power_menu inputs self)).
Proof.
  induction n as [|n IH]; intros inputs self Hlen Hno.
  - destruct inputs; [apply Trace.wrote_refl | cbn in Hlen; lia].
  - destruct inputs as [|line rest]; [apply Trace.wrote_refl |].
    cbn [length] in Hlen. apply Forall_cons in Hno as [_ Hrest].
    assert (Hnext : forall s, wrote (fun command =>
                                       negb (String.eqb command "00 0")) s
                                (snd (power_menu rest s)))
      by (intros s; apply IH; [lia | exact Hrest]).
    cbn [power_menu]. cbv zeta.
    destruct (String.eqb (strip line) "1").
    { apply and_then_wrote; [apply sent_wrote; reflexivity | auto]. }
    destruct (String.eqb (strip line) "2").
    { destruct rest as [|answer rest']; [apply Trace.wrote_refl |].
      cbn [length] in Hlen. apply Forall_cons in Hrest as [Hanswer Hrest'].
      unfold answer_of in Hanswer. rewrite Hanswer.
      apply IH; [lia | exact Hrest']. }
    destruct (String.eqb (strip line) "3").
    { apply and_then_wrote; [apply sent_wrote; reflexivity | auto]. }
    destruct (String.eqb (strip line) "0"); [apply Trace.wrote_refl |].
    apply Hnext.
Qed.

Lemma advanced_menu_wrote (osd factory : bool) (n : nat) :
  forall (inputs : list string) (self : ProjectorController),
    length inputs <= n ->
    Forall (fun line =>
              (osd || negb (yes_or_y (answer_of line)))
              && (factory || negb (String.eqb (answer_of line) "yes"))
              = true) inputs ->
    wrote (fun command =>
             (osd || negb (String.eqb command "546 1"))
             && (factory || negb (String.eqb command "112 1")))
      self (snd (advanced_menu inputs self)).
Proof.
  set (allowed := fun command =>
         (osd || negb (String.eqb command "546 1"))
         && (factory || negb (String.eqb command "112 1"))).
  assert (Hother : forall command,
            String.eqb command "546 1" = false ->
            String.eqb command "112 1" = false ->
            allowed command = true).
  { intros command H1 H2. unfold allowed. rewrite H1, H2.
    now rewrite !orb_true_r. }
  induction n as [|n IH]; intros inputs self Hlen Hok.
  - destruct inputs; [| cbn in Hlen; lia].
    cbn [advanced_menu].
    apply and_then_wrote; [apply sent_wrote, Hother; reflexivity |].
    intros _ s. apply Trace.wrote_refl.
  - destruct inputs as [|line rest].
    { cbn [advanced_menu].
      apply and_then_wrote; [apply sent_wrote, Hother; reflexivity |].
      intros _ s. apply Trace.wrote_refl. }
    cbn [length] in Hlen. apply Forall_cons in Hok as [_ Hrest].
    assert (Hnext : forall s, wrote allowed s (snd (advanced_menu rest s)))
      by (intros s; apply IH; [lia | exact Hrest]).
    cbn [advanced_menu].
    apply and_then_wrote; [apply sent_wrote, Hother; reflexivity |].
    intros _ s. cbv zeta.
    destruct (String.eqb (strip line) "1").
    { apply and_then_wrote;
        [apply sent_wrote, Hother; reflexivity | auto]. }
    destruct (String.eqb (strip line) "2").
    { apply and_then_wrote;
        [apply sent_wrote, Hother; reflexivity | auto]. }
    destruct (String.eqb (strip line) "3").
    { destruct rest as [|text rest']; [apply Trace.wrote_refl |].
      cbn [length] in Hlen. apply Forall_cons in Hrest as [_ Hrest'].
      assert (Hlanguage :
                keeps any_state (wrote allowed) (fun _ => True)
                  (lang ← py_int text; set_language lang)).
      { apply language_wrote. intros z. apply Hother; reflexivity. }
      destruct (Hlanguage s Logic.I) as (_ & Hwrote & _).
      destruct ((lang ← py_int text; set_language lang) s)
        as [[ok | e] s']; cbn [fst snd] in Hwrote.
      - eapply Trace.wrote_trans; [exact Hwrote |].
        apply IH; [lia | exact Hrest'].
      - destruct (is_value_error e); [| exact Hwrote].
        eapply Trace.wrote_trans; [exact Hwrote |].
        apply IH; [lia | exact Hrest']. }
    destruct (String.eqb (strip line) "4").
    { destruct rest as [|answer rest']; [apply Trace.wrote_refl |].
      cbn [length] in Hlen. apply Forall_cons in Hrest as [Hanswer Hrest'].
      assert (Hafter : forall s', wrote allowed s'
                                    (snd (advanced_menu rest' s')))
        by (intros s'; apply IH; [lia | exact Hrest']).
      fold (answer_of answer).
      destruct (yes_or_y (answer_of answer)) eqn:Hyes; [| apply Hafter].
      apply and_then_wrote; [| auto].
      apply sent_wrote. unfold allowed.
      destruct osd; [destruct factory; reflexivity |].
      cbn [orb negb andb] in Hanswer. discriminate Hanswer. }
    destruct (String.eqb (strip line) "5").
    { destruct rest as [|answer rest']; [apply Trace.wrote_refl |].
      cbn [length] in Hlen. apply Forall_cons in Hrest as [Hanswer Hrest'].
      assert (Hafter : forall s', wrote allowed s'
                                    (snd (advanced_menu rest' s')))
        by (intros s'; apply IH; [lia | exact Hrest']).
      fold (answer_of answer).
      destruct (String.eqb (answer_of answer) "yes") eqn:Hyes;
        [| apply Hafter].
      apply and_then_wrote; [| auto].
      apply sent_wrote. unfold allowed.
      destruct factory; [destruct osd; reflexivity |].
      rewrite andb_comm in Hanswer. cbn [orb negb andb] in Hanswer.
      discriminate Hanswer. }
    destruct (String.eqb (strip line) "0"); [apply Trace.wrote_refl |].
    apply Hnext.
Qed.

End Menus.

(** X22. In the power menu, power-off needs a confirmation: whatever
    is typed, as long as no line reads ['yes'] or ['y'] (white space
    and case apart), no frame of the power-off command [00 0] is
    written. *)
Theorem power_off_needs_confirmation (inputs : list string)
    (self : ProjectorController) :
  Forall (fun line => yes_or_y (answer_of line) = false) inputs ->
  wrote (fun command => negb (String.eqb command "00 0")) self
    (snd (power_menu inputs self)).
Proof.
  intros Hno. now apply (Menus.power_menu_wrote (length inputs)).
Qed.

Lemma power_off_needs_confirmation_witness :
  let self := bench (answering (fun _ => "P")) in
  let declined := ["2"; "no"; "1"; "0"] in
  Forall (fun line => yes_or_y (answer_of line) = false) declined /\
  wrote (fun command => negb (String.eqb command "00 0")) self
    (snd (power_menu declined self)) /\
  tx (snd (power_menu declined self)) = ["~0000 1" ++ CR] /\
  tx (snd (power_menu ["2"; " Yes "; "0"] self)) = ["~0000 0" ++ CR].
Proof.
  intros self declined.
  assert (Hdeclined : Forall (fun line => yes_or_y (answer_of line) = false)
                        declined)
    by (repeat constructor).
  split; [exact Hdeclined |].
  split; [exact (power_off_needs_confirmation declined self Hdeclined) |].
  split; vm_compute; reflexivity.
Defined.

(** X23. In the advanced menu, the factory reset needs the full word:
    as long as no typed line reads ['yes'], no frame of the factory
    reset [112 1] is written, a ['y'] is not enough for it (it is
    enough for the OSD reset); and as long as no line reads ['yes'] or
    ['y'], neither the OSD reset [546 1] nor the factory reset is
    written. *)
Theorem factory_reset_needs_the_full_word (inputs : list string)
    (self : ProjectorController) :
  (Forall (fun line => String.eqb (answer_of line) "yes" = false) inputs ->
   wrote (fun command => negb (String.eqb command "112 1")) self
     (snd (advanced_menu inputs self))) /\
  (Forall (fun line => yes_or_y (answer_of line) = false) inputs ->
   wrote (fun command =>
            negb (String.eqb command "546 1")
            && negb (String.eqb command "112 1")) self
     (snd (advanced_menu inputs self))).
Proof.
  split; intros Hno.
  - apply (Menus.advanced_menu_wrote true false (length inputs));
      [lia |].
    eapply Forall_impl; [exact Hno |].
    intros line Hline. cbn beta in Hline. now rewrite Hline.
  - apply (Menus.advanced_menu_wrote false false (length inputs));
      [lia |].
    eapply Forall_impl; [exact Hno |].
    intros line Hline. cbn beta in Hline. rewrite Hline. cbn [orb negb andb].
    unfold yes_or_y in Hline. apply orb_false_elim in Hline as [-> _].
    reflexivity.
Qed.

Lemma factory_reset_needs_the_full_word_witness :
  let self := bench (answering (fun _ => "P")) in
  let short := ["5"; "y"; "4"; "y"; "0"] in
  let none := ["5"; "no"; "4"; "n"; "0"] in
  Forall (fun line => String.eqb (answer_of line) "yes" = false) short /\
  Forall (fun line => yes_or_y (answer_of line) = false) none /\
  wrote (fun command => negb (String.eqb command "112 1")) self
    (snd (advanced_menu short self)) /\
  wrote (fun command =>
           negb (String.eqb command "546 1")
           && negb (String.eqb command "112 1")) self
    (snd (advanced_menu none self)) /\
  filter (fun written => negb (String.eqb written ("~00568 1" ++ CR)))
    (tx (snd (advanced_menu short self))) = ["~00546 1" ++ CR] /\
  filter (fun written => negb (String.eqb written ("~00568 1" ++ CR)))
    (tx (snd (advanced_menu ["5"; "YES"; "0"] self))) = ["~00112 1" ++ CR].
Proof.
  intros self short none.
  assert (Hshort : Forall (fun line =>
                             String.eqb (answer_of line) "yes" = false) short)
    by (repeat constructor).
  assert (Hnone : Forall (fun line => yes_or_y (answer_of line) = false) none)
    by (repeat constructor).
  split; [exact Hshort |]. split; [exact Hnone |].
  destruct (factory_reset_needs_the_full_word short self) as [Hfactory _].
  destruct (factory_reset_needs_the_full_word none self) as [_ Hboth].
  split; [exact (Hfactory Hshort) |].
  split; [exact (Hboth Hnone) |].
  split; vm_compute; reflexivity.
Defined.

(** ** Restoring from a file *)

(** X24. [restore_from_file] writes what [apply_config] writes, so
    with [skip_power] no frame of feature [00]; when the file could
    not be loaded it writes nothing and reports ['load_file'] as the
    one failure, and then ['power.state'] is not listed as skipped
    even with [skip_power]. *)
Theorem failed_load_is_reported_not_skipped
    (loaded : option (gmap string (gmap string pyval))) (skip_power : bool)
    (self : ProjectorController) :
  let run := restore_from_file loaded skip_power self in
  wrote (fun command => negb skip_power || negb (startswith "00 " command))
    self (snd run) /\
  (forall results,
     fst run = Return results ->
     skipped results
     = (if skip_power && is_Some_bool loaded then ["power.state"] else []) /\
     (loaded = None -> failed results = ["load_file"] /\ snd run = self)).
Proof.
  intros run. subst run. destruct loaded as [config |]; cbn [restore_from_file].
  - destruct (Written.config_wrote
                (fun command =>
                   negb skip_power || negb (startswith "00 " command))
                (fun command H =>
                   eq_trans
                     (f_equal (fun b => negb skip_power || negb b) H)
                     (orb_true_r _))
                config skip_power
                (fun H command => f_equal (fun b => negb b || _) H)
                self Logic.I)
      as (_ & Hwrote & Hskipped).
    split; [exact Hwrote |].
    intros results Hrun. rewrite Hrun in Hskipped.
    cbn [unless_raised] in Hskipped. cbn [is_Some_bool].
    rewrite andb_true_r. split; [exact Hskipped | discriminate].
  - split; [apply Trace.wrote_refl |].
    intros results Hrun. injection Hrun as <-. cbn [is_Some_bool].
    rewrite andb_false_r. repeat split.
Qed.
